(** * Flashcard study app with Pomodoro timer: the deck engine, the timer and
      the application shell, embedded and checked against their specification.

    The React components are embedded as state-passing functions.  A handler
    defined in one render reads the state of that render (its closure) and
    queues setter calls; where the two can differ (a timer callback, an
    effect that runs once on mount) the embedding keeps them apart: the
    snapshot a handler closes over is one argument, the state its setters
    act on is another.  Values the platform supplies (the clock, the random
    comparator of a shuffle, the random suffix of an identifier, [atob],
    [JSON.parse], [String.prototype.trim], the local time zone) are
    arguments of the functions that read them. *)

From Stdlib Require Import ZArith NArith Bool Ascii String PrimFloat FloatAxioms.
From stdpp Require Import base tactics option list strings pretty.

Local Open Scope Z_scope.

(** ** Data model (the interfaces at the head of App.tsx and FlashcardDeck.tsx) *)

Inductive Difficulty := easy | medium | hard.

(** A [Date] is its time value: milliseconds since the epoch. *)
Definition Date := Z.

Module Card.
Record t := mk {
  id : string;
  question : string;
  answer : string;
  subject : string;
  difficulty : option Difficulty;
  lastReviewed : option Date;
  correctCount : option nat;
  incorrectCount : option nat
}.

Definition with_subject (c : t) (s : string) : t :=
  mk (id c) (question c) (answer c) s (difficulty c) (lastReviewed c)
     (correctCount c) (incorrectCount c).

Definition with_id_subject (c : t) (i s : string) : t :=
  mk i (question c) (answer c) s (difficulty c) (lastReviewed c)
     (correctCount c) (incorrectCount c).
End Card.

Module Topic.
Record t := mk {
  id : string;
  name : string;
  color : string;
  icon : string;
  createdAt : option Date;
  isPublic : option bool
}.
End Topic.

#[global] Instance Difficulty_eq_dec : EqDecision Difficulty.
Proof. solve_decision. Defined.
#[global] Instance Card_eq_dec : EqDecision Card.t.
Proof. solve_decision. Defined.
#[global] Instance Topic_eq_dec : EqDecision Topic.t.
Proof. solve_decision. Defined.

(** ** JavaScript numbers that are not integers: binary64 *)

Module JsNumber.
Local Open Scope float_scope.

(** A count as a Number; exact below 2^53. *)
Fixpoint of_pos (p : positive) : float :=
  match p with
  | xH => 1
  | xO q => 2 * of_pos q
  | xI q => 2 * of_pos q + 1
  end.

Definition of_N (n : N) : float :=
  match n with N0 => 0 | Npos p => of_pos p end.

Definition two52 : float := 4503599627370496.

(** [Math.floor] for [|x| < 2^52]: adding and removing 2^52 rounds to an
    integer, which is lowered by one when it came out above [x]. *)
Definition floor_small (x : float) : float :=
  let r := if x <? 0 then (x - two52) + two52 else (x + two52) - two52 in
  if x <? r then r - 1 else r.

(** [Math.round]: the closest integral Number, the one nearer to +infinity
    on a tie; NaN, infinities and numbers of magnitude 2^52 and more (all
    integral) and zeros are returned as they are, and a zero result keeps
    the sign of a negative argument. *)
Definition Math_round (x : float) : float :=
  if (two52 <=? abs x) || (x =? 0) then x
  else
    let f := floor_small x in
    let r := if (x - f) <? 0.5 then f else f + 1 in
    if (r =? 0) && (x <? 0) then (-0) else r.
End JsNumber.

(** ** The deck engine (src/components/FlashcardDeck.tsx) *)

Module Deck.

Record DeckSettings := mkSettings {
  autoFlip : bool;
  autoFlipTimer : nat;          (* seconds *)
  shuffleCards : bool;
  swipeEnabled : bool
}.

Record Props := mkProps {
  flashcards : list Card.t;
  isQuizMode : bool;
  settings : DeckSettings
}.

Record QuizScore := mkScore { correct : N; incorrect : N }.

(** The component state (the [useState] cells of lines 36-42; a timer is
    named by its handle). *)
Record State := mkState {
  currentIndex : nat;
  isFlipped : bool;
  showAnswer : bool;
  quizScore : QuizScore;
  displayCards : list Card.t;
  autoAdvanceTimer : option nat;
  isCompleted : bool
}.

(** The outcome of [[...l].sort(() => Math.random() - 0.5)] is the
    engine's business; a call is given the order it produced. *)
Definition Shuffle := list Card.t -> list Card.t.

Definition initial : State :=
  mkState 0 false false (mkScore 0 0) [] None false.

(** The effect of lines 47-59, run on mount and whenever [flashcards] or
    [settings.shuffleCards] changes. *)
Definition syncDeck (sh : Shuffle) (p : Props) (s : State) : State :=
  mkState 0 false false (mkScore 0 0)
    (if shuffleCards (settings p) then sh (flashcards p) else flashcards p)
    (autoAdvanceTimer s) false.

Definition currentCard (s : State) : option Card.t :=
  displayCards s !! currentIndex s.

(** [if (autoAdvanceTimer) { clearTimeout(..); setAutoAdvanceTimer(null) }]:
    the test reads the closure, the setter acts on the live state. *)
Definition clearAutoAdvance (snap s : State) : State :=
  match autoAdvanceTimer snap with
  | Some _ =>
      mkState (currentIndex s) (isFlipped s) (showAnswer s) (quizScore s)
              (displayCards s) None (isCompleted s)
  | None => s
  end.

(** [nextCard] (lines 199-214) as defined in the render whose state is
    [snap], called when the state is [s]. *)
Definition nextCard_in (snap s : State) : State :=
  let s := clearAutoAdvance snap s in
  if Z.of_nat (currentIndex snap) <? Z.of_nat (length (displayCards snap)) - 1 then
    mkState (currentIndex snap + 1) false false (quizScore s)
            (displayCards s) (autoAdvanceTimer s) (isCompleted s)
  else
    mkState (currentIndex s) (isFlipped s) (showAnswer s) (quizScore s)
            (displayCards s) (autoAdvanceTimer s) true.

(** [previousCard] (lines 216-229). *)
Definition previousCard_in (snap s : State) : State :=
  let s := clearAutoAdvance snap s in
  if 0 <? Z.of_nat (currentIndex snap) then
    mkState (currentIndex snap - 1) false false (quizScore s)
            (displayCards s) (autoAdvanceTimer s) false
  else s.

(** [handleFlip] (lines 188-197). *)
Definition handleFlip_in (snap s : State) : State :=
  let s := clearAutoAdvance snap s in
  mkState (currentIndex s) (negb (isFlipped snap)) (negb (showAnswer snap))
          (quizScore s) (displayCards s) (autoAdvanceTimer s) (isCompleted s).

(** [resetQuiz] (lines 254-264) and [restartDeck] (lines 266-268). *)
Definition resetQuiz_in (snap s : State) : State :=
  let s := clearAutoAdvance snap s in
  mkState 0 false false (mkScore 0 0) (displayCards s) (autoAdvanceTimer s) false.

Definition restartDeck_in := resetQuiz_in.

(** A handler called from the render that defined it. *)
Definition nextCard (s : State) : State := nextCard_in s s.
Definition previousCard (s : State) : State := previousCard_in s s.
Definition handleFlip (s : State) : State := handleFlip_in s s.
Definition resetQuiz (s : State) : State := resetQuiz_in s s.
Definition restartDeck (s : State) : State := restartDeck_in s s.

(** The state part of [markAnswer] (lines 231-246): the card handed to
    [onUpdateCard] and the tally update.  [now] is [new Date()]. *)
Definition updatedCard (now : Date) (ok : bool) (c : Card.t) : Card.t :=
  Card.mk (Card.id c) (Card.question c) (Card.answer c) (Card.subject c)
    (Card.difficulty c) (Some now)
    (Some (default 0%nat (Card.correctCount c) + (if ok then 1 else 0))%nat)
    (Some (default 0%nat (Card.incorrectCount c) + (if ok then 0 else 1))%nat).

Definition tally (ok : bool) (q : QuizScore) : QuizScore :=
  mkScore (correct q + (if ok then 1 else 0))%N (incorrect q + (if ok then 0 else 1))%N.

Definition setQuizScore (f : QuizScore -> QuizScore) (s : State) : State :=
  mkState (currentIndex s) (isFlipped s) (showAnswer s) (f (quizScore s))
          (displayCards s) (autoAdvanceTimer s) (isCompleted s).

(** The completion screen is rendered when (line 271)
    [isCompleted || (!currentCard && displayCards.length > 0)]. *)
Definition showsCompletion (s : State) : bool :=
  isCompleted s
  || (bool_decide (currentCard s = None) && (0 <? Z.of_nat (length (displayCards s)))).

(** [accuracy] of the completion screen (lines 272-274), in binary64. *)
Definition accuracy (q : QuizScore) : float :=
  let c := JsNumber.of_N (correct q) in
  let i := JsNumber.of_N (incorrect q) in
  if (0 <? c + i)%float then JsNumber.Math_round ((c / (c + i)) * 100)%float
  else 0%float.

(** The three ways to restart from the completion screen: the
    "Study Again" button (line 314), the "Shuffle & Restart" button (lines
    320-326) and the R key (lines 144-148). *)
Inductive RestartInput := StudyAgain | ShuffleAndRestart | KeyR.

Definition restart (r : RestartInput) (sh : Shuffle) (p : Props) (s : State) : State :=
  match r with
  | StudyAgain => restartDeck s
  | ShuffleAndRestart =>
      let s' :=
        if shuffleCards (settings p) then
          mkState (currentIndex s) (isFlipped s) (showAnswer s) (quizScore s)
                  (sh (flashcards p)) (autoAdvanceTimer s) (isCompleted s)
        else s in
      restartDeck_in s s'
  | KeyR => resetQuiz s
  end.

End Deck.

(** ** The Pomodoro timer (src/components/PomodoroTimer.tsx) *)

Module Pomodoro.

Record Settings := mkSettings {
  pomodoroWork : Z;             (* minutes *)
  pomodoroBreak : Z;
  longBreak : Z;
  sessionsUntilLongBreak : Z;
  soundEnabled : bool
}.

Record PomodoroStats := mkStats {
  completedSessions : Z;
  totalFocusTime : Z;           (* minutes *)
  streakDays : Z;
  lastSessionDate : option Date
}.

(** ['idle' | 'work' | 'break' | 'longBreak' | 'paused'] (line 23). *)
Inductive TimerState := Idle | Work | Break | LongBreak | Paused.

Record State := mkState {
  timeLeft : Z;                 (* seconds *)
  timerState : TimerState;
  currentSession : Z;
  showBreakSuggestion : bool;
  currentSuggestion : string
}.

(** What a render's handlers close over. *)
Record Closure := mkClosure {
  settings : Settings;
  stats : PomodoroStats;
  seen : State
}.

#[global] Instance TimerState_eq_dec : EqDecision TimerState.
Proof. solve_decision. Defined.

Definition initial (st : Settings) : State :=
  mkState (pomodoroWork st * 60) Idle 1 false "".

Definition msPerDay : Z := 86400000.

(** [Date.prototype.toDateString] prints the calendar date of an instant in
    the local time zone (week day, month, day, year), so two such strings
    are equal exactly when the local calendar days are.  The local day is
    numbered here; [tz t] is the zone's offset from UTC, in milliseconds,
    in force at the instant [t]. *)
Definition toDateString (tz : Z -> Z) (t : Date) : Z := (t + tz t) / msPerDay.

(** The streak of lines 112-115; [now] is the clock ([new Date()] and
    [Date.now()] of the same handler run). *)
Definition newStreakDays (tz : Z -> Z) (now : Date) (s : PomodoroStats) : Z :=
  let today := Some (toDateString tz now) in
  let lastSessionDate := toDateString tz <$> lastSessionDate s in
  if bool_decide (lastSessionDate = today) then streakDays s
  else if bool_decide (lastSessionDate = Some (toDateString tz (now - msPerDay)))
       then streakDays s + 1
       else 1.

(** The argument of [onUpdateStats] (lines 117-122); every field is given,
    so the parent's merge [{...prev, ...stats}] replaces the record. *)
Definition workCompleted (tz : Z -> Z) (now : Date) (c : Closure) : PomodoroStats :=
  mkStats (completedSessions (stats c) + 1)
          (totalFocusTime (stats c) + pomodoroWork (settings c))
          (newStreakDays tz now (stats c))
          (Some now).

(** [a % b === 0] on Numbers holding integers: the remainder takes the sign
    of the dividend, and is NaN for a zero divisor. *)
Definition rem_is_zero (a b : Z) : bool :=
  if b =? 0 then false else Z.rem a b =? 0.

Definition breakSuggestions : list string :=
  [ "🚶 Take a short walk around the room";
    "💧 Drink a glass of water";
    "👁️ Look away from the screen for 20 seconds";
    "🤸 Do some light stretching";
    "🫁 Take 5 deep breaths";
    "🌱 Water your plants";
    "🧘 Practice mindfulness for a minute";
    "☕ Make a healthy snack";
    "📱 Check in with a friend";
    "🎵 Listen to your favorite song" ].

(** [handleTimerComplete] (lines 99-140) of the render [c], run on the live
    state [s]: the new state and what is reported to the parent.  [pick] is
    [Math.floor(Math.random() * breakSuggestions.length)].  The tone and the
    desktop notification leave no trace in either. *)
Definition handleTimerComplete_in (tz : Z -> Z) (now : Date) (pick : nat)
    (c : Closure) (s : State) : State * option PomodoroStats :=
  match timerState (seen c) with
  | Work =>
      let isLongBreak :=
        rem_is_zero (currentSession (seen c)) (sessionsUntilLongBreak (settings c)) in
      (mkState (if isLongBreak then longBreak (settings c) * 60
                else pomodoroBreak (settings c) * 60)
               (if isLongBreak then LongBreak else Break)
               (currentSession s + 1)
               true
               (nth pick breakSuggestions ""),
       Some (workCompleted tz now c))
  | _ =>
      (mkState (pomodoroWork (settings c) * 60) Work (currentSession s)
               false (currentSuggestion s),
       None)
  end.

(** One tick of the interval (lines 57-65). *)
Definition tick_in (tz : Z -> Z) (now : Date) (pick : nat)
    (c : Closure) (s : State) : State * option PomodoroStats :=
  if timeLeft s <=? 1 then
    handleTimerComplete_in tz now pick c
      (mkState 0 (timerState s) (currentSession s) (showBreakSuggestion s)
               (currentSuggestion s))
  else
    (mkState (timeLeft s - 1) (timerState s) (currentSession s)
             (showBreakSuggestion s) (currentSuggestion s), None).

Definition setTimerState (ts : TimerState) (s : State) : State :=
  mkState (timeLeft s) ts (currentSession s) (showBreakSuggestion s)
          (currentSuggestion s).

(** [startTimer] (lines 178-186). *)
Definition startTimer_in (c : Closure) (s : State) : State :=
  match timerState (seen c) with
  | Idle =>
      mkState (pomodoroWork (settings c) * 60) Work (currentSession s)
              (showBreakSuggestion s) (currentSuggestion s)
  | Paused =>
      let wasInBreak :=
        timeLeft (seen c)
          <=? Z.max (pomodoroBreak (settings c)) (longBreak (settings c)) * 60 in
      setTimerState (if wasInBreak then Break else Work) s
  | _ => s
  end.

(** [pauseTimer] (lines 188-190). *)
Definition pauseTimer (s : State) : State := setTimerState Paused s.

(** [resetTimer] (lines 192-197). *)
Definition resetTimer_in (c : Closure) (s : State) : State :=
  mkState (pomodoroWork (settings c) * 60) Idle 1 false (currentSuggestion s).

(** The buttons call the handlers of the current render. *)
Definition startTimer (st : Settings) (ps : PomodoroStats) (s : State) : State :=
  startTimer_in (mkClosure st ps s) s.

Definition handleTimerComplete (tz : Z -> Z) (now : Date) (pick : nat)
    (st : Settings) (ps : PomodoroStats) (s : State) : State * option PomodoroStats :=
  handleTimerComplete_in tz now pick (mkClosure st ps s) s.

(** The settings the application starts with (App.tsx lines 75-85). *)
Definition defaultSettings : Settings := mkSettings 25 5 15 4 true.

End Pomodoro.

(** ** Platform functions of the share link *)

Module Base64.

Local Open Scope N_scope.

Definition value (c : ascii) : option N :=
  let n := N_of_ascii c in
  if (65 <=? n) && (n <=? 90) then Some (n - 65)
  else if (97 <=? n) && (n <=? 122) then Some (n - 71)
  else if (48 <=? n) && (n <=? 57) then Some (n + 4)
  else if n =? 43 then Some 62
  else if n =? 47 then Some 63
  else None.

Definition is_whitespace (c : ascii) : bool :=
  let n := N_of_ascii c in
  (n =? 9) || (n =? 10) || (n =? 12) || (n =? 13) || (n =? 32).

Definition is_pad (c : ascii) : bool := N_of_ascii c =? 61.

(** One or two trailing [=] are dropped when the length is a multiple of 4. *)
Definition strip_padding (l : list ascii) : list ascii :=
  if N.of_nat (length l) mod 4 =? 0 then
    match rev l with
    | p :: q :: r => if is_pad p then (if is_pad q then rev r else rev (q :: r)) else l
    | _ => l
    end
  else l.

Fixpoint decode_groups (l : list N) : list N :=
  match l with
  | a :: b :: c :: d :: rest =>
      let w := N.lor (N.shiftl a 18) (N.lor (N.shiftl b 12) (N.lor (N.shiftl c 6) d)) in
      N.shiftr w 16 :: N.land (N.shiftr w 8) 255 :: N.land w 255 :: decode_groups rest
  | [a; b; c] =>
      let w := N.lor (N.shiftl a 12) (N.lor (N.shiftl b 6) c) in
      [N.shiftr w 10; N.land (N.shiftr w 2) 255]
  | [a; b] => [N.shiftr (N.lor (N.shiftl a 6) b) 4]
  | _ => []
  end.

(** [atob]: the forgiving-base64 decode of the HTML standard; [None] is the
    InvalidCharacterError it throws. *)
Definition atob (data : string) : option string :=
  let l := strip_padding (filter (fun c => negb (is_whitespace c)) (list_ascii_of_string data)) in
  if N.of_nat (length l) mod 4 =? 1 then None
  else
    vs ← mapM value l;
    Some (string_of_list_ascii (ascii_of_N <$> decode_groups vs)).

End Base64.

(** ** The application shell (App.tsx) *)

Module App.

Record State := mkState {
  topics : list Topic.t;
  flashcards : list Card.t;
  activeTopic : option string
}.

Definition initial : State := mkState [] [] None.

Definition defaultColors : list string :=
  ["#2563EB"; "#10B981"; "#FACC15"; "#DC2626"; "#8B5CF6"; "#F59E0B"; "#06B6D4"; "#EC4899"].

Definition defaultIcons : list string :=
  ["📚"; "🎯"; "💡"; "🔬"; "🎨"; "🏃"; "🎵"; "🌟"; "🚀"; "⭐"; "🎭"; "🔥"].

(** [Number.prototype.toString] of an integral time value. *)
Definition toString (n : Z) : string := pretty n.

Definition setTopics (f : list Topic.t -> list Topic.t) (s : State) : State :=
  mkState (f (topics s)) (flashcards s) (activeTopic s).
Definition setFlashcards (f : list Card.t -> list Card.t) (s : State) : State :=
  mkState (topics s) (f (flashcards s)) (activeTopic s).
Definition setActiveTopic (a : option string) (s : State) : State :=
  mkState (topics s) (flashcards s) a.

(** [topics.find(t => t.id === topicId)] and [topics.find(t => t.name === n)]. *)
Definition findById (i : string) (l : list Topic.t) : option Topic.t :=
  List.find (fun t => bool_decide (Topic.id t = i)) l.
Definition findByName (n : string) (l : list Topic.t) : option Topic.t :=
  List.find (fun t => bool_decide (Topic.name t = n)) l.

(** Lines 87-90: the data of the active (or edited) topic and its cards. *)
Definition cardsOf (n : option string) (l : list Card.t) : list Card.t :=
  filter (fun c => Some (Card.subject c) = n) l.
Definition activeTopicData (s : State) : option Topic.t :=
  a ← activeTopic s; findById a (topics s).
Definition activeFlashcards (s : State) : list Card.t :=
  cardsOf (Topic.name <$> activeTopicData s) (flashcards s).

(** The share payload as its TypeScript type declares it (line 219). *)
Record SharedData := mkShared {
  shared_topic : Topic.t;
  shared_flashcards : list Card.t
}.

(** [loadSharedTopic] (lines 219-239) of the render [snap].  [now] is the
    [Date.now()] of the topic; the card at position [k] reads the clock as
    [cardNow k] and draws [suffix k] for
    [Math.random().toString(36).substr(2, 9)]. *)
Definition loadSharedTopic_in (snap : State) (now : Z) (cardNow : nat -> Z)
    (suffix : nat -> string) (sharedData : SharedData) (s : State) : State :=
  let t := shared_topic sharedData in
  match findByName (Topic.name t) (topics snap) with
  | Some _ => s
  | None =>
      let newTopic :=
        Topic.mk (toString now) (Topic.name t) (Topic.color t) (Topic.icon t)
                 (Topic.createdAt t) (Some true) in
      let newCards :=
        imap (fun k card =>
                Card.with_id_subject card (toString (cardNow k) +:+ suffix k) (Topic.name t))
             (shared_flashcards sharedData) in
      setFlashcards (fun prev => prev ++ newCards)
        (setActiveTopic (Some (Topic.id newTopic))
           (setTopics (fun prev => prev ++ [newTopic]) s))
  end.

(** The argument of [addTopic]: [Omit<Topic, 'id' | 'createdAt'>]. *)
Record TopicData := mkTopicData {
  td_name : string;
  td_color : string;
  td_icon : string;
  td_isPublic : option bool
}.

(** [addTopic] (lines 241-250): the new state and the identifier returned. *)
Definition addTopic (idNow : Z) (created : Date) (d : TopicData) (s : State)
    : State * string :=
  let newTopic :=
    Topic.mk (toString idNow) (td_name d) (td_color d) (td_icon d)
             (Some created) (td_isPublic d) in
  (setActiveTopic (Some (Topic.id newTopic))
     (setTopics (fun prev => prev ++ [newTopic]) s),
   Topic.id newTopic).

(** [Partial<Topic>]. *)
Record TopicUpdates := mkUpdates {
  u_id : option string;
  u_name : option string;
  u_color : option string;
  u_icon : option string;
  u_createdAt : option Date;
  u_isPublic : option bool
}.

(** [{ ...topic, ...updates }]. *)
Definition merge (t : Topic.t) (u : TopicUpdates) : Topic.t :=
  Topic.mk (default (Topic.id t) (u_id u)) (default (Topic.name t) (u_name u))
           (default (Topic.color t) (u_color u)) (default (Topic.icon t) (u_icon u))
           (from_option Some (Topic.createdAt t) (u_createdAt u))
           (from_option Some (Topic.isPublic t) (u_isPublic u)).

(** [updateTopic] (lines 252-256). *)
Definition updateTopic (topicId : string) (u : TopicUpdates) (s : State) : State :=
  setTopics (fmap (fun t => if bool_decide (Topic.id t = topicId) then merge t u else t)) s.

(** [deleteTopic] (lines 258-271) of the render [snap]. *)
Definition deleteTopic_in (snap : State) (topicId : string) (s : State) : State :=
  match findById topicId (topics snap) with
  | Some topicToDelete =>
      let s1 := setFlashcards
                  (filter (fun c => Card.subject c ≠ Topic.name topicToDelete)) s in
      let s2 := setTopics (filter (fun t => Topic.id t ≠ topicId)) s1 in
      if bool_decide (activeTopic snap = Some topicId) then
        let remainingTopics := filter (fun t => Topic.id t ≠ topicId) (topics snap) in
        setActiveTopic (Topic.id <$> head remainingTopics) s2
      else s2
  | None => s
  end.

Definition deleteTopic (topicId : string) (s : State) : State :=
  deleteTopic_in s topicId s.

(** [addFlashcard] (lines 278-298) of the render [snap].  The clock is read
    four times: for the card's identifier and review date, and inside
    [addTopic] for the topic's identifier and creation date.  [newCard] is
    an [Omit<Flashcard, 'id'>]: its [id] is not read. *)
Record AddClock := mkAddClock {
  cardIdNow : Z; reviewedNow : Date; topicIdNow : Z; createdNow : Date
}.

Definition addFlashcard_in (snap : State) (clk : AddClock) (newCard : Card.t)
    (s : State) : State :=
  let card :=
    Card.mk (toString (cardIdNow clk)) (Card.question newCard) (Card.answer newCard)
            (Card.subject newCard) (Card.difficulty newCard)
            (Some (reviewedNow clk)) (Some 0%nat) (Some 0%nat) in
  let s1 := setFlashcards (fun prev => prev ++ [card]) s in
  match findByName (Card.subject newCard) (topics snap) with
  | None =>
      let n := length (topics snap) in
      let '(s2, newTopicId) :=
        addTopic (topicIdNow clk) (createdNow clk)
          (mkTopicData (Card.subject newCard)
             (nth (n mod length defaultColors) defaultColors "")
             (nth (n mod length defaultIcons) defaultIcons "")
             None) s1 in
      setActiveTopic (Some newTopicId) s2
  | Some _ => s1
  end.

Definition addFlashcard (clk : AddClock) (newCard : Card.t) (s : State) : State :=
  addFlashcard_in s clk newCard s.

(** [updateFlashcard] (lines 300-304) and [deleteFlashcard] (306-308). *)
Definition updateFlashcard (updatedCard : Card.t) (s : State) : State :=
  setFlashcards
    (fmap (fun card => if bool_decide (Card.id card = Card.id updatedCard)
                       then updatedCard else card)) s.

Definition deleteFlashcard (cardId : string) (s : State) : State :=
  setFlashcards (filter (fun c => Card.id c ≠ cardId)) s.

(** The share link read on mount (lines 132-142).  [param] is
    [urlParams.get('topic')]; [JSON_parse] returns [None] where
    [JSON.parse] throws; the result carries the lines written with
    [console.error].  The payload is typed as line 219 declares it: a text
    that parses to a value of another shape is not among the inputs of this
    model. *)
Definition loadFromUrl (JSON_parse : string -> option SharedData)
    (snap : State) (now : Z) (cardNow : nat -> Z) (suffix : nat -> string)
    (param : option string) (s : State) : State * list string :=
  match param with
  | None => (s, [])
  | Some sharedTopic =>
      if bool_decide (sharedTopic = "") then (s, [])
      else
        match Base64.atob sharedTopic ≫= JSON_parse with
        | Some decodedData =>
            (loadSharedTopic_in snap now cardNow suffix decodedData s, [])
        | None => (s, ["Invalid shared topic data"])
        end
  end.

End App.

(** ** The edit-topic dialog (components/EditTopicModal.tsx) *)

Module EditTopicModal.

(** The props and the form fields of one render of the dialog. *)
Record Modal := mkModal {
  topic : Topic.t;
  flashcards : list Card.t;
  topicName : string;
  selectedColor : string;
  selectedIcon : string
}.

(** The dialog as App renders it for the topic being edited (App.tsx lines
    89-90 and 568-575), its form holding what the user typed. *)
Definition open (t : Topic.t) (s : App.State) (nm col ic : string) : Modal :=
  mkModal t (App.cardsOf (Some (Topic.name t)) (App.flashcards s)) nm col ic.

(** [handleSaveTopicDetails] (lines 669-686); [trim] is
    [String.prototype.trim].  The callbacks are App's [updateTopic] and
    [updateFlashcard]. *)
Definition handleSaveTopicDetails (trim : string -> string) (m : Modal)
    (s : App.State) : App.State :=
  let nm := trim (topicName m) in
  if bool_decide (nm = "") then s
  else
    let s1 :=
      App.updateTopic (Topic.id (topic m))
        (App.mkUpdates None (Some nm) (Some (selectedColor m)) (Some (selectedIcon m))
                       None None) s in
    foldl (fun acc card =>
             if bool_decide (Card.subject card ≠ nm)
             then App.updateFlashcard (Card.with_subject card nm) acc
             else acc)
          s1 (flashcards m).

End EditTopicModal.

(** ** A study session: the deck inside the application, with its timers *)

Module Study.

(** What a pending [setTimeout] will run. *)
Inductive Callback :=
| AutoFlip                          (* FlashcardDeck.tsx lines 66-69 *)
| AutoAdvance (snap : Deck.State).  (* lines 249-251: [nextCard] of the render
                                       in which [markAnswer] ran *)

Record Timer := mkTimer { handle : nat; due : Z; callback : Callback }.

Record Session := mkSession {
  app : App.State;
  isQuizMode : bool;
  deckSettings : Deck.DeckSettings;
  deck : Deck.State;
  timers : list Timer;              (* pending, oldest first *)
  clock : Z;                        (* milliseconds *)
  nextHandle : nat;
  autoFlipHandle : option nat       (* the timer the auto-flip effect's cleanup clears *)
}.

(** The props App renders the deck with (App.tsx, [activeFlashcards]). *)
Definition props (s : Session) : Deck.Props :=
  Deck.mkProps (App.activeFlashcards (app s)) (isQuizMode s) (deckSettings s).

(** [clearTimeout(h)]; a null handle or one that already fired clears nothing. *)
Definition clearTimeout (h : option nat) (l : list Timer) : list Timer :=
  match h with
  | Some n => filter (fun t => handle t ≠ n) l
  | None => l
  end.

Definition setDeck (d : Deck.State) (tm : list Timer) (s : Session) : Session :=
  mkSession (app s) (isQuizMode s) (deckSettings s) d tm (clock s) (nextHandle s)
            (autoFlipHandle s).

(** The dependencies of the auto-flip effect (line 73); a card object is
    told from another by its content. *)
Definition autoFlipDeps (s : Session) :=
  (Deck.currentIndex (deck s), Deck.autoFlip (deckSettings s),
   Deck.autoFlipTimer (deckSettings s), Deck.isFlipped (deck s),
   Deck.showAnswer (deck s), Deck.currentCard (deck s)).

(** The auto-flip effect (lines 64-73) after a render: when a dependency
    changed, the previous run's cleanup clears its timer, and a new timer
    is set if the card is face down. *)
Definition autoFlipEffect (s : Session) : Session :=
  let tm := clearTimeout (autoFlipHandle s) (timers s) in
  if Deck.autoFlip (deckSettings s) && negb (Deck.isFlipped (deck s))
     && negb (Deck.showAnswer (deck s)) && bool_decide (Deck.currentCard (deck s) ≠ None)
  then
    mkSession (app s) (isQuizMode s) (deckSettings s) (deck s)
      (tm ++ [mkTimer (nextHandle s)
                (clock s + Z.of_nat (Deck.autoFlipTimer (deckSettings s)) * 1000) AutoFlip])
      (clock s) (S (nextHandle s)) (Some (nextHandle s))
  else
    mkSession (app s) (isQuizMode s) (deckSettings s) (deck s) tm
      (clock s) (nextHandle s) None.

Definition commit (before after : Session) : Session :=
  if bool_decide (autoFlipDeps before = autoFlipDeps after) then after
  else autoFlipEffect after.

(** Mounting the deck: the effects of lines 47-59 and 64-73 run once. *)
Definition mount (sh : Deck.Shuffle) (a : App.State) (quiz : bool)
    (st : Deck.DeckSettings) (t0 : Z) : Session :=
  let s0 := mkSession a quiz st Deck.initial [] t0 0%nat None in
  autoFlipEffect (setDeck (Deck.syncDeck sh (props s0) Deck.initial) [] s0).

(** What the user does; each handler is the one of the current render. *)
Inductive Action :=
| ClickNext                                   (* line 463 *)
| ClickPrevious                               (* line 447 *)
| ClickFlip                                   (* line 455 *)
| ClickMark (ok : bool) (sh : Deck.Shuffle).  (* lines 479 and 485 *)

Inductive Event :=
| User (a : Action)
| Fire (h : nat).

(** The card view is on screen (lines 271 and 341). *)
Definition cardView (s : Session) : bool :=
  negb (Deck.showsCompletion (deck s)) && bool_decide (Deck.currentCard (deck s) ≠ None).

(** The control is rendered and not disabled (lines 446-488). *)
Definition enabled (a : Action) (s : Session) : bool :=
  cardView s &&
  match a with
  | ClickNext =>
      negb (Z.of_nat (Deck.currentIndex (deck s))
            =? Z.of_nat (length (Deck.displayCards (deck s))) - 1)
  | ClickPrevious => negb (Deck.currentIndex (deck s) =? 0)%nat
  | ClickFlip => negb (Deck.showAnswer (deck s) && negb (isQuizMode s))
  | ClickMark _ _ => isQuizMode s && Deck.showAnswer (deck s)
  end.

(** A handler's state changes, with the timers it clears and sets. *)
Definition act (a : Action) (s : Session) : Session :=
  let d := deck s in
  let cleared := clearTimeout (Deck.autoAdvanceTimer d) (timers s) in
  match a with
  | ClickNext => setDeck (Deck.nextCard d) cleared s
  | ClickPrevious => setDeck (Deck.previousCard d) cleared s
  | ClickFlip => setDeck (Deck.handleFlip d) cleared s
  | ClickMark ok sh =>
      match Deck.currentCard d with
      | None => s
      | Some c =>
          (* onUpdateCard changes App's state; App re-renders and builds
             activeFlashcards anew (App.tsx line 88), so the dependency
             [flashcards] of the effect of lines 47-59 has changed and the
             effect runs after the render that shows the new tally *)
          let a' := App.updateFlashcard (Deck.updatedCard (clock s) ok c) (app s) in
          let d1 := Deck.setQuizScore (Deck.tally ok) d in
          (* setTimeout(() => nextCard(), 1000): the handle is dropped *)
          let tm := timers s ++ [mkTimer (nextHandle s) (clock s + 1000) (AutoAdvance d)] in
          let s1 := mkSession a' (isQuizMode s) (deckSettings s) d1 tm (clock s)
                              (S (nextHandle s)) (autoFlipHandle s) in
          setDeck (Deck.syncDeck sh (props s1) d1) tm s1
      end
  end.

(** A pending timer runs its callback. *)
Definition fire (t : Timer) (s : Session) : Session :=
  let rest := filter (fun u => handle u ≠ handle t) (timers s) in
  match callback t with
  | AutoFlip =>
      let d := deck s in
      setDeck (Deck.mkState (Deck.currentIndex d) true true (Deck.quizScore d)
                 (Deck.displayCards d) (Deck.autoAdvanceTimer d) (Deck.isCompleted d))
              rest s
  | AutoAdvance snap =>
      setDeck (Deck.nextCard_in snap (deck s))
              (clearTimeout (Deck.autoAdvanceTimer snap) rest) s
  end.

Definition setClock (t : Z) (s : Session) : Session :=
  mkSession (app s) (isQuizMode s) (deckSettings s) (deck s) (timers s) t
            (nextHandle s) (autoFlipHandle s).

(** One event at time [t].  [None]: the event cannot happen then (time runs
    backwards, the control is not there, a timer is not due or was cleared,
    or an earlier timer is still waiting). *)
Definition step (t : Z) (e : Event) (s : Session) : option Session :=
  if t <? clock s then None
  else
    let s0 := setClock t s in
    match e with
    | User a =>
        if forallb (fun u => t <? due u) (timers s) && enabled a s
        then Some (commit s0 (act a s0))
        else None
    | Fire h =>
        match List.find (fun u => bool_decide (handle u = h)) (timers s) with
        | Some u =>
            if (due u <=? t) && forallb (fun v => due u <=? due v) (timers s)
            then Some (commit s0 (fire u s0))
            else None
        | None => None
        end
    end.

Fixpoint run (tr : list (Z * Event)) (s : Session) : option Session :=
  match tr with
  | [] => Some s
  | (t, e) :: tr' => step t e s ≫= run tr'
  end.

End Study.

(** ** Checkers and inputs used by the proofs *)

(** The integer percentages next to [100 * c / (c + i)]: [a] is one of them
    when it is at most one half away. *)
Definition nearest_percent (c i a : Z) : bool :=
  Z.abs (200 * c - 2 * a * (c + i)) <=? c + i.

(** [Deck.accuracy] is the Number of such a percentage; the exact quotient
    rounded half up, or one below it (a tie that binary64 undershoots). *)
Definition accuracy_checked (c i : N) : option Z :=
  let zc := Z.of_N c in
  let zi := Z.of_N i in
  let a := (200 * zc + (zc + zi)) / (2 * (zc + zi)) in
  let r := Deck.accuracy (Deck.mkScore c i) in
  if PrimFloat.Leibniz.eqb r (JsNumber.of_N (Z.to_N a)) && nearest_percent zc zi a
  then Some a
  else if PrimFloat.Leibniz.eqb r (JsNumber.of_N (Z.to_N (a - 1)))
          && (0 <=? a - 1) && nearest_percent zc zi (a - 1)
  then Some (a - 1)
  else None.

(** [n] consecutive numbers from [k]. *)
Fixpoint upfrom (n : nat) (k : N) : list N :=
  match n with
  | O => []
  | S n' => k :: upfrom n' (N.succ k)
  end.

Definition accuracy_checked_upto (n : nat) : bool :=
  forallb (fun t => forallb (fun c => bool_decide (is_Some (accuracy_checked c (t - c)%N)))
                            (upfrom (S (N.to_nat t)) 0%N))
          (upfrom n 1%N).

Definition sampleCard (i q a subj : string) : Card.t :=
  Card.mk i q a subj None None None None.

(** A three-card topic studied in quiz mode, auto-flip and shuffle off. *)
Definition mathCards : list Card.t :=
  [sampleCard "1" "2 + 2" "4" "Math"; sampleCard "2" "3 * 3" "9" "Math";
   sampleCard "3" "7 - 5" "2" "Math"].

Definition mathApp : App.State :=
  App.mkState [Topic.mk "10" "Math" "#2563EB" "M" None None] mathCards (Some "10").

Definition quizSession : Study.Session :=
  Study.mount (fun l => l) mathApp true (Deck.mkSettings false 5 false true) 0.

(** The answer of the first card is revealed and judged correct; 300 ms
    later the user clicks Next, and 300 ms after that reveals the second
    card's answer. *)
Definition judgeThenNavigate : list (Z * Study.Event) :=
  [(1000, Study.User Study.ClickFlip);
   (2000, Study.User (Study.ClickMark true (fun l => l)));
   (2300, Study.User Study.ClickNext);
   (2600, Study.User Study.ClickFlip)].

(** The display order is the deck's own whenever shuffling is off: what
    the effect of lines 47-59 establishes and every handler keeps. *)
Definition inOriginalOrder (p : Deck.Props) (s : Deck.State) : Prop :=
  Deck.shuffleCards (Deck.settings p) = false -> Deck.displayCards s = Deck.flashcards p.

(** Central European time in the spring of 2026: UTC+1 until the clocks go
    forward on 29 March at 01:00 UTC, UTC+2 from then on. *)
Definition berlin2026 (t : Z) : Z :=
  if t <? 1774746000000 then 3600000 else 7200000.

(** 29 March 2026, 12:00 local time, and 30 March 2026, 00:30 local time. *)
Definition sundayNoon : Date := 1774778400000.
Definition mondayHalfPastMidnight : Date := 1774823400000.

(** What renaming a topic is to do to the cards, in the specification's
    words: the subject becomes the new name on every card whose subject was
    the old name, and nothing else changes. *)
Definition subjectsRewritten (old new : string) (l : list Card.t) : list Card.t :=
  (fun c => if bool_decide (Card.subject c = old) then Card.with_subject c new else c) <$> l.

(** One call of [onUpdateFlashcard] in the loop of [handleSaveTopicDetails],
    on the card list alone. *)
Definition rewriteStep (nm : string) (l : list Card.t) (card : Card.t) : list Card.t :=
  if bool_decide (Card.subject card ≠ nm)
  then (fun x => if bool_decide (Card.id x = Card.id card)
                 then Card.with_subject card nm else x) <$> l
  else l.

(** ** Keyboard shortcuts of the deck (FlashcardDeck.tsx lines 85-154) *)

Module Keyboard.

(** What [isTypingInInput] reads of [document.activeElement]. *)
Record Element := mkElement {
  tagName : string;                  (* [tagName.toLowerCase()] *)
  contenteditable : option string;   (* [getAttribute('contenteditable')] *)
  inDialog : bool;                   (* [closest('[role="dialog"]')] is an element *)
  inModalClass : bool;               (* [closest('.modal')] *)
  inDataModal : bool                 (* [closest('[data-modal]')] *)
}.

(** [isTypingInInput] (lines 85-104). *)
Definition isTypingInInput (activeElement : option Element) : bool :=
  match activeElement with
  | None => false
  | Some e =>
      if bool_decide (tagName e ∈ ["input"; "textarea"; "select"]) then true
      else if bool_decide (contenteditable e = Some "true") then true
      else
        (inDialog e || inModalClass e || inDataModal e)
        && (bool_decide (tagName e = "input") || bool_decide (tagName e = "textarea"))
  end.

(** The handler a key press calls. *)
Inductive Call :=
| CallFlip | CallNext | CallPrevious | CallMark (ok : bool) | CallReset.

(** [handleKeyPress] (lines 108-150); [quiz] and [snap] are the
    [isQuizMode] and the state of the render that subscribed the listener. *)
Definition handleKeyPress (activeElement : option Element) (key : string)
    (quiz : bool) (snap : Deck.State) : option Call :=
  if isTypingInInput activeElement then None
  else if bool_decide (key = " ") then
    if negb (Deck.showAnswer snap) then Some CallFlip
    else if Deck.showAnswer snap && Deck.isFlipped snap then Some CallNext
    else None
  else if bool_decide (key = "ArrowRight") then Some CallNext
  else if bool_decide (key = "ArrowLeft") then Some CallPrevious
  else if bool_decide (key = "1") then
    if quiz && Deck.showAnswer snap then Some (CallMark false) else None
  else if bool_decide (key = "2") then
    if quiz && Deck.showAnswer snap then Some (CallMark true) else None
  else if bool_decide (key = "r") || bool_decide (key = "R") then Some CallReset
  else None.

End Keyboard.

(** The card is in range: [displayCards[currentIndex]] is a card. *)
Definition inRange (s : Deck.State) : Prop :=
  (Deck.currentIndex s < length (Deck.displayCards s))%nat.

(** ** The Pomodoro timer with its parent, tick by tick *)

Module PomodoroRun.

(** [Partial<PomodoroStats>], the argument of [onUpdateStats]. *)
Record StatsUpdate := mkUpdate {
  u_completedSessions : option Z;
  u_totalFocusTime : option Z;
  u_streakDays : option Z;
  u_lastSessionDate : option Date
}.

(** The object literal of PomodoroTimer.tsx lines 117-122: every key. *)
Definition allOf (r : Pomodoro.PomodoroStats) : StatsUpdate :=
  mkUpdate (Some (Pomodoro.completedSessions r)) (Some (Pomodoro.totalFocusTime r))
           (Some (Pomodoro.streakDays r)) (Pomodoro.lastSessionDate r).

(** [updatePomodoroStats] (App.tsx lines 310-312): [{ ...prev, ...stats }]. *)
Definition updatePomodoroStats (u : StatsUpdate) (prev : Pomodoro.PomodoroStats)
    : Pomodoro.PomodoroStats :=
  Pomodoro.mkStats
    (default (Pomodoro.completedSessions prev) (u_completedSessions u))
    (default (Pomodoro.totalFocusTime prev) (u_totalFocusTime u))
    (default (Pomodoro.streakDays prev) (u_streakDays u))
    (from_option Some (Pomodoro.lastSessionDate prev) (u_lastSessionDate u)).

(** The timer inside App: App's statistics, the timer's state, the closure
    of the interval callback, and the number of seconds gone by (the clock
    and the random pick are read at that index). *)
Record World := mkWorld {
  settings : Pomodoro.Settings;
  stats : Pomodoro.PomodoroStats;
  state : Pomodoro.State;
  closure : Pomodoro.Closure;
  elapsed : nat
}.

(** The interval exists in these states (line 56). *)
Definition running (ts : Pomodoro.TimerState) : bool :=
  match ts with
  | Pomodoro.Work | Pomodoro.Break | Pomodoro.LongBreak => true
  | Pomodoro.Idle | Pomodoro.Paused => false
  end.

(** The effect of lines 55-78 depends on [timerState] alone: when a render
    shows another [timerState] than [before], the interval is set up anew
    and its callback closes over that render. *)
Definition rerender (before : Pomodoro.TimerState) (w : World) : World :=
  if bool_decide (Pomodoro.timerState (state w) = before) then w
  else mkWorld (settings w) (stats w) (state w)
         (Pomodoro.mkClosure (settings w) (stats w) (state w)) (elapsed w).

(** One second goes by. *)
Definition tick (tz : Z -> Z) (clockAt : nat -> Date) (pickAt : nat -> nat)
    (w : World) : World :=
  if running (Pomodoro.timerState (state w)) then
    let '(st', report) :=
      Pomodoro.tick_in tz (clockAt (elapsed w)) (pickAt (elapsed w)) (closure w) (state w) in
    rerender (Pomodoro.timerState (state w))
      (mkWorld (settings w)
         (match report with
          | Some r => updatePomodoroStats (allOf r) (stats w)
          | None => stats w
          end)
         st' (closure w) (S (elapsed w)))
  else mkWorld (settings w) (stats w) (state w) (closure w) (S (elapsed w)).

Definition ticks (tz : Z -> Z) (clockAt : nat -> Date) (pickAt : nat -> nat)
    (n : nat) (w : World) : World :=
  Nat.iter n (tick tz clockAt pickAt) w.

(** The Start, Pause and Reset buttons call the handlers of the current
    render. *)
Definition press (f : Pomodoro.Closure -> Pomodoro.State -> Pomodoro.State)
    (w : World) : World :=
  rerender (Pomodoro.timerState (state w))
    (mkWorld (settings w) (stats w)
       (f (Pomodoro.mkClosure (settings w) (stats w) (state w)) (state w))
       (closure w) (elapsed w)).

Definition start : World -> World := press Pomodoro.startTimer_in.
Definition pause : World -> World := press (fun _ => Pomodoro.pauseTimer).
Definition reset : World -> World := press Pomodoro.resetTimer_in.

(** The interval callback closes over the render that began the phase. *)
Definition fresh (w : World) : Prop :=
  Pomodoro.settings (closure w) = settings w /\
  Pomodoro.stats (closure w) = stats w /\
  Pomodoro.timerState (Pomodoro.seen (closure w)) = Pomodoro.timerState (state w) /\
  Pomodoro.currentSession (Pomodoro.seen (closure w)) = Pomodoro.currentSession (state w).

(** The durations and the cycle length are positive (the sliders of the
    settings panel start at 15, 5, 15 and 2). *)
Definition positive (st : Pomodoro.Settings) : Prop :=
  0 < Pomodoro.pomodoroWork st /\ 0 < Pomodoro.pomodoroBreak st /\
  0 < Pomodoro.longBreak st /\ 0 < Pomodoro.sessionsUntilLongBreak st.

(** The break that follows the work phase numbered [k]. *)
Definition breakAfter (st : Pomodoro.Settings) (k : Z) : Pomodoro.TimerState :=
  if Pomodoro.rem_is_zero k (Pomodoro.sessionsUntilLongBreak st)
  then Pomodoro.LongBreak else Pomodoro.Break.

Definition breakSeconds (st : Pomodoro.Settings) (k : Z) : Z :=
  if Pomodoro.rem_is_zero k (Pomodoro.sessionsUntilLongBreak st)
  then Pomodoro.longBreak st * 60 else Pomodoro.pomodoroBreak st * 60.

End PomodoroRun.

(** ** The countdown display (PomodoroTimer.tsx lines 199-203) *)

(** [String.prototype.padStart] with a one-character filler. *)
Definition padStart (targetLength : nat) (fill : ascii) (s : string) : string :=
  string_of_list_ascii (replicate (targetLength - String.length s) fill) +:+ s.

(** [formatTime]: [Math.floor] of a quotient of integers is the floor
    division, [%] the remainder with the sign of the dividend. *)
Definition formatTime (seconds : Z) : string :=
  padStart 2 "0" (pretty (seconds / 60)) +:+ ":" +:+ padStart 2 "0" (pretty (Z.rem seconds 60)).

(** Reading a display of the form [MM:SS] back, for the statement of the
    round trip. *)
Definition digitValue (c : ascii) : option Z :=
  let n := Z.of_N (N_of_ascii c) in
  if (48 <=? n) && (n <=? 57) then Some (n - 48) else None.

Definition readTime (s : string) : option Z :=
  match list_ascii_of_string s with
  | [a; b; c; d; e] =>
      if bool_decide (c = ":"%char) then
        m1 ← digitValue a; m0 ← digitValue b; s1 ← digitValue d; s0 ← digitValue e;
        Some ((10 * m1 + m0) * 60 + (10 * s1 + s0))
      else None
  | _ => None
  end.

Definition formatTime_checked (n : N) : bool :=
  bool_decide (readTime (formatTime (Z.of_N n)) = Some (Z.of_N n)).

(** ** Topic statistics of the sidebar (App.tsx lines 314-324) *)

Record TopicStats := mkTopicStats {
  cardCount : nat;
  totalCorrect : nat;
  totalIncorrect : nat;
  successRate : float
}.

(** [topicCards.reduce((acc, card) => acc + (f(card) || 0), 0)]. *)
Definition reduceCount (f : Card.t -> option nat) (l : list Card.t) : nat :=
  foldl (fun acc card => (acc + default 0 (f card))%nat) 0%nat l.

Definition getTopicStats (topicName : string) (s : App.State) : TopicStats :=
  let topicCards := filter (fun card => Card.subject card = topicName) (App.flashcards s) in
  let totalCorrect := reduceCount Card.correctCount topicCards in
  let totalIncorrect := reduceCount Card.incorrectCount topicCards in
  let c := JsNumber.of_N (N.of_nat totalCorrect) in
  let i := JsNumber.of_N (N.of_nat totalIncorrect) in
  mkTopicStats (length topicCards) totalCorrect totalIncorrect
    (if (0 <? c + i)%float then JsNumber.Math_round ((c / (c + i)) * 100)%float
     else 0%float).

(** ** The sign-in flow (App.tsx lines 52-54, 102-106, 170-217, 326-362) *)

Module Auth.

Record User := mkUser { email : string; username : string; isLoggedIn : bool }.

Inductive AuthStep := newUser | existingUser | confirmation | authenticated.

Record State := mkState {
  user : option User;
  authStep : AuthStep;
  pendingAuth : option (string * string)    (* email, username *)
}.

Definition initial : State := mkState None newUser None.

(** The mount effect, lines 102-106; [savedUser] is the parsed item. *)
Definition restore (savedUser : option User) (s : State) : State :=
  match savedUser with
  | Some userData => mkState (Some userData) authenticated (pendingAuth s)
  | None => s
  end.

Definition handleNewUserLogin (e u : string) (s : State) : State :=
  mkState (user s) confirmation (Some (e, u)).

Definition handleExistingUserLogin (e u : string) (s : State) : State :=
  mkState (user s) confirmation (Some (e, u)).

(** [handleConfirmation] of the render [snap] (lines 180-191). *)
Definition handleConfirmation_in (snap s : State) : State :=
  match pendingAuth snap with
  | Some (e, u) => mkState (Some (mkUser e u true)) authenticated None
  | None => s
  end.

(** The part of [handleLogout] (lines 193-204) on this state. *)
Definition handleLogout (s : State) : State :=
  mkState None newUser (pendingAuth s).

Definition handleBackToLogin (s : State) : State := mkState (user s) newUser None.
Definition handleSwitchToExistingUser (s : State) : State :=
  mkState (user s) existingUser (pendingAuth s).
Definition handleSwitchToNewUser (s : State) : State :=
  mkState (user s) newUser (pendingAuth s).

Inductive Screen := LoginPage | ExistingUserLoginPage | ConfirmationPage | MainApp.

(** What App renders (lines 326-365). *)
Definition screen (s : State) : Screen :=
  match authStep s with
  | newUser => LoginPage
  | existingUser => ExistingUserLoginPage
  | confirmation =>
      match pendingAuth s with Some _ => ConfirmationPage | None => MainApp end
  | authenticated => MainApp
  end.

(** A handler call.  The pages call [onLogin] and [onConfirm] after a
    delay (1 s and 1.5 s), so a call can arrive on any screen, and the
    [handleConfirmation] called can be the one of an earlier render:
    [Confirmation age] is the handler of the render [age] updates ago. *)
Inductive Event :=
| NewUserLogin (e u : string)
| ExistingUserLogin (e u : string)
| Confirmation (age : nat)
| Logout
| BackToLogin
| SwitchToExistingUser
| SwitchToNewUser.

(** The renders so far, the current one first. *)
Record History := mkHistory { now : State; earlier : list State }.

Definition handle (ev : Event) (h : History) : State :=
  let s := now h in
  match ev with
  | NewUserLogin e u => handleNewUserLogin e u s
  | ExistingUserLogin e u => handleExistingUserLogin e u s
  | Confirmation age => handleConfirmation_in (default s ((s :: earlier h) !! age)) s
  | Logout => handleLogout s
  | BackToLogin => handleBackToLogin s
  | SwitchToExistingUser => handleSwitchToExistingUser s
  | SwitchToNewUser => handleSwitchToNewUser s
  end.

Definition step (h : History) (ev : Event) : History :=
  mkHistory (handle ev h) (now h :: earlier h).

Definition run (evs : list Event) (s : State) : History :=
  foldl step (mkHistory s []) evs.

(** The pairs of e-mail address and user name handed to [onLogin]. *)
Definition submitted (evs : list Event) (e u : string) : Prop :=
  NewUserLogin e u ∈ evs \/ ExistingUserLogin e u ∈ evs.

End Auth.

(** ** The flashcards tab of the edit-topic dialog (EditTopicModal.tsx) *)

Module CardEditor.

Record Form := mkForm {
  editingCard : option string;
  editingQuestion : string;
  editingAnswer : string;
  editingDifficulty : Difficulty;
  showAddCard : bool;
  newQuestion : string;
  newAnswer : string;
  newDifficulty : Difficulty
}.

Definition initial : Form := mkForm None "" "" medium false "" "" medium.

(** [startEditingCard] (lines 688-693) and [cancelCardEdit] (710-715). *)
Definition startEditingCard (card : Card.t) (f : Form) : Form :=
  mkForm (Some (Card.id card)) (Card.question card) (Card.answer card)
         (default medium (Card.difficulty card))
         (showAddCard f) (newQuestion f) (newAnswer f) (newDifficulty f).

Definition cancelCardEdit (f : Form) : Form :=
  mkForm None "" "" medium (showAddCard f) (newQuestion f) (newAnswer f) (newDifficulty f).

(** [saveCardEdit] (lines 695-708).  An identifier, a question and an
    answer are truthy when they are not the empty string. *)
Definition saveCardEdit (trim : string -> string) (m : EditTopicModal.Modal) (f : Form)
    (s : App.State) : App.State * Form :=
  match editingCard f with
  | Some cardId =>
      if bool_decide (cardId ≠ "" /\ trim (editingQuestion f) ≠ ""
                      /\ trim (editingAnswer f) ≠ "")
      then
        let s' :=
          match List.find (fun c => bool_decide (Card.id c = cardId))
                          (EditTopicModal.flashcards m) with
          | Some cardToEdit =>
              App.updateFlashcard
                (Card.mk (Card.id cardToEdit) (trim (editingQuestion f))
                         (trim (editingAnswer f)) (Card.subject cardToEdit)
                         (Some (editingDifficulty f)) (Card.lastReviewed cardToEdit)
                         (Card.correctCount cardToEdit) (Card.incorrectCount cardToEdit)) s
          | None => s
          end in
        (s', cancelCardEdit f)
      else (s, f)
  | None => (s, f)
  end.

(** [handleAddNewCard] (lines 717-733); [now] is the dialog's [new Date()],
    [clk] the clock readings of App's [addFlashcard]. *)
Definition handleAddNewCard (trim : string -> string) (now : Date) (clk : App.AddClock)
    (m : EditTopicModal.Modal) (f : Form) (s : App.State) : App.State * Form :=
  if bool_decide (trim (newQuestion f) ≠ "" /\ trim (newAnswer f) ≠ "")
  then
    (App.addFlashcard clk
       (Card.mk "" (trim (newQuestion f)) (trim (newAnswer f))
                (trim (EditTopicModal.topicName m)) (Some (newDifficulty f))
                (Some now) (Some 0%nat) (Some 0%nat)) s,
     mkForm (editingCard f) (editingQuestion f) (editingAnswer f) (editingDifficulty f)
            false "" "" medium)
  else (s, f).

End CardEditor.

(** ** The share dialog (components/ShareModal.tsx) *)

Module ShareModal.

(** The payload built by [generateShareUrl] (lines 43-52). *)
Definition shareData (topic : Topic.t) (flashcards : list Card.t) : App.SharedData :=
  App.mkShared
    (Topic.mk (Topic.id topic) (Topic.name topic) (Topic.color topic) (Topic.icon topic)
              (Topic.createdAt topic) (Some true))
    ((fun card => Card.mk "" (Card.question card) (Card.answer card) (Card.subject card)
                          (Card.difficulty card) (Card.lastReviewed card)
                          (Card.correctCount card) (Card.incorrectCount card))
       <$> flashcards).

(** The dialog as App renders it (App.tsx lines 560-566): for the active
    topic and its cards. *)
Definition payloadOf (s : App.State) : option App.SharedData :=
  topic ← App.activeTopicData s; Some (shareData topic (App.activeFlashcards s)).

End ShareModal.

(** What holds of every render: the confirmation step has a pending
    sign-in, the authenticated step has a user, and the pending sign-in and
    the user come from a submitted form (or the user from storage). *)
Definition auth_ok (saved : option Auth.User) (ok : string -> string -> Prop)
    (s : Auth.State) : Prop :=
  (Auth.authStep s = Auth.confirmation -> Auth.pendingAuth s <> None) /\
  (Auth.authStep s = Auth.authenticated -> Auth.user s <> None) /\
  (forall e u, Auth.pendingAuth s = Some (e, u) -> ok e u) /\
  (forall usr, Auth.user s = Some usr ->
     saved = Some usr \/
     (ok (Auth.email usr) (Auth.username usr) /\ Auth.isLoggedIn usr = true)).

(** The part of [handleLogout] on the study data (lines 198-200). *)
Definition logoutData (s : App.State) : App.State :=
  App.setActiveTopic None (App.setFlashcards (fun _ => []) (App.setTopics (fun _ => []) s)).

(** ** The study data under the calls the screens make *)

Module Library.

(** One call into the study data, as a component makes it: the add-topic
    and add-card dialogs, the sidebar's and the deck's delete buttons,
    [markAnswer] on the card at position [k] of the active topic, the three
    save actions of the edit dialog, an import, and signing out. *)
Inductive Op :=
| AddTopic (idNow : Z) (created : Date) (d : App.TopicData)
| AddCard (clk : App.AddClock) (newCard : Card.t)
| DeleteTopic (topicId : string)
| DeleteCard (cardId : string)
| Judge (now : Date) (ok : bool) (k : nat)
| SaveTopic (editingTopicId nm col ic : string)
| SaveCard (editingTopicId nm col ic : string) (f : CardEditor.Form)
| AddNewCard (editingTopicId nm col ic : string) (now : Date) (clk : App.AddClock)
    (f : CardEditor.Form)
| Import (snap : App.State) (now : Z) (cardNow : nat -> Z) (suffix : nat -> string)
    (d : App.SharedData)
| Logout.

(** The edit dialog is rendered for the topic found under
    [editingTopicId], when there is one (App.tsx lines 89-90, 568-575). *)
Definition editing (editingTopicId nm col ic : string) (s : App.State)
    : option EditTopicModal.Modal :=
  (fun t => EditTopicModal.open t s nm col ic)
    <$> App.findById editingTopicId (App.topics s).

Definition step (trim : string -> string) (op : Op) (s : App.State) : App.State :=
  match op with
  | AddTopic idNow created d => (App.addTopic idNow created d s).1
  | AddCard clk newCard => App.addFlashcard clk newCard s
  | DeleteTopic topicId => App.deleteTopic topicId s
  | DeleteCard cardId => App.deleteFlashcard cardId s
  | Judge now ok k =>
      match App.activeFlashcards s !! k with
      | Some currentCard => App.updateFlashcard (Deck.updatedCard now ok currentCard) s
      | None => s
      end
  | SaveTopic e nm col ic =>
      match editing e nm col ic s with
      | Some m => EditTopicModal.handleSaveTopicDetails trim m s
      | None => s
      end
  | SaveCard e nm col ic f =>
      match editing e nm col ic s with
      | Some m => (CardEditor.saveCardEdit trim m f s).1
      | None => s
      end
  | AddNewCard e nm col ic now clk f =>
      match editing e nm col ic s with
      | Some m => (CardEditor.handleAddNewCard trim now clk m f s).1
      | None => s
      end
  | Import snap now cardNow suffix d => App.loadSharedTopic_in snap now cardNow suffix d s
  | Logout => logoutData s
  end.

Fixpoint run (trim : string -> string) (ops : list Op) (s : App.State) : App.State :=
  match ops with
  | [] => s
  | op :: ops => run trim ops (step trim op s)
  end.

(** The clock reading that becomes a topic's identifier if the call makes
    a topic. *)
Definition clockOf (op : Op) : option Z :=
  match op with
  | AddTopic idNow _ _ => Some idNow
  | AddCard clk _ => Some (App.topicIdNow clk)
  | AddNewCard _ _ _ _ _ clk _ => Some (App.topicIdNow clk)
  | Import _ now _ _ _ => Some now
  | _ => None
  end.

(** The clock has moved on since the topics in the list were made. *)
Definition fresh (op : Op) (s : App.State) : Prop :=
  forall z, clockOf op = Some z -> App.toString z ∉ Topic.id <$> App.topics s.

Fixpoint clocksFresh (trim : string -> string) (ops : list Op) (s : App.State) : Prop :=
  match ops with
  | [] => True
  | op :: ops => fresh op s /\ clocksFresh trim ops (step trim op s)
  end.

(** A card is listed under a topic when a topic bears its subject. *)
Definition covered (ts : list Topic.t) (c : Card.t) : Prop :=
  exists t, t ∈ ts /\ Topic.name t = Card.subject c.

Definition wellFormed (s : App.State) : Prop :=
  NoDup (Topic.id <$> App.topics s) /\
  forall c, c ∈ App.flashcards s -> covered (App.topics s) c.

End Library.

(** ** The confirmation page (components/ConfirmationPage.tsx) *)

Module ConfirmationPage.

(** An entry of [code] is a string, or has no value ([None]): an index
    the array was never given. *)
Record State := mkState {
  code : list (option string);
  isLoading : bool;
  timeLeft : Z;
  canResend : bool
}.

Definition initial : State := mkState (replicate 6 (Some "")) false 60 false.

Definition setCode (l : list (option string)) (s : State) : State :=
  mkState l (isLoading s) (timeLeft s) (canResend s).

(** [\d] *)
Definition isDigit (c : ascii) : bool :=
  let n := N_of_ascii c in ((48 <=? n) && (n <=? 57))%N.

(** [/^\d*$/.test(value)] and [value.slice(-1)]. *)
Definition allDigits (value : string) : bool :=
  forallb isDigit (list_ascii_of_string value).

Definition lastChar (value : string) : string :=
  match last (list_ascii_of_string value) with
  | Some c => String c ""
  | None => ""
  end.

(** [newCode[index] = v]: past the end the array grows, the indices in
    between staying without value. *)
Definition assign (index : nat) (v : string) (l : list (option string))
    : list (option string) :=
  if decide (index < length l)%nat then <[index := Some v]> l
  else l ++ replicate (index - length l) None ++ [Some v].

(** [handleInputChange] (lines 47-58), without the focus change. *)
Definition handleInputChange (index : nat) (value : string) (s : State) : State :=
  if allDigits value then setCode (assign index (lastChar value) (code s)) s else s.

(** [getData('text').replace(/\D/g, '').slice(0, 6)] *)
Definition pastedCode (text : string) : list ascii :=
  take 6 (filter (fun c => isDigit c = true) (list_ascii_of_string text)).

(** [handlePaste] (lines 66-81), without the focus change. *)
Definition handlePaste (text : string) (s : State) : State :=
  let pasted := pastedCode text in
  setCode
    (foldl (fun newCode i =>
              assign i (match pasted !! i with Some c => String c "" | None => "" end)
                     newCode)
           (code s) (seq 0 6)) s.

(** [handleResendCode] (lines 95-103) and the countdown (lines 33-42). *)
Definition handleResendCode (s : State) : State :=
  mkState (replicate 6 (Some "")) (isLoading s) 60 false.

Definition tick (s : State) : State :=
  if timeLeft s <=? 1 then mkState (code s) (isLoading s) 0 true
  else mkState (code s) (isLoading s) (timeLeft s - 1) (canResend s).

(** [code.join('')]; [handleSubmit] (lines 83-93) goes on to [onConfirm]
    when its length is 6. *)
Definition fullCode (s : State) : string :=
  foldr String.app "" (default "" <$> code s).

Definition submits (s : State) : bool :=
  bool_decide (String.length (fullCode s) = 6%nat).

(** [isComplete] (line 105): the Verify button is enabled with it. *)
Definition isComplete (s : State) : bool :=
  forallb (fun digit => bool_decide (digit ≠ Some "")) (code s).

(** What the user can do: type into the box at [index] (one is rendered
    for each entry of [code], line 234), paste, press Resend; the second
    passes. *)
Inductive Event :=
| Input (index : nat) (value : string)
| Paste (text : string)
| Resend
| Second.

Definition step (s : State) (ev : Event) : State :=
  match ev with
  | Input index value =>
      if decide (index < length (code s))%nat then handleInputChange index value s else s
  | Paste text => handlePaste text s
  | Resend => handleResendCode s
  | Second => tick s
  end.

Definition run (evs : list Event) : State := foldl step initial evs.

(** A box is empty or holds one digit. *)
Definition box (d : option string) : Prop :=
  d = Some "" \/ exists c, isDigit c = true /\ d = Some (String c "").

End ConfirmationPage.

(** ** What App keeps in local storage (App.tsx lines 92-131, 145-158, 193-204) *)

Module Persistence.

(** The items under the keys [user], [topics], [flashcards] and
    [activeTopic]: [None] where [getItem] returns [null], otherwise the
    value whose [JSON.stringify] the item holds (the identifier itself for
    [activeTopic]). *)
Record Storage := mkStorage {
  user : option Auth.User;
  topics : option (list Topic.t);
  flashcards : option (list Card.t);
  activeTopic : option string
}.

(** The saving effect (lines 145-158) on these keys. *)
Definition save (a : Auth.State) (s : App.State) (st : Storage) : Storage :=
  mkStorage
    (match Auth.user a with Some u => Some u | None => user st end)
    (Some (App.topics s))
    (Some (App.flashcards s))
    (match App.activeTopic s with
     | Some i => if bool_decide (i = "") then activeTopic st else Some i
     | None => activeTopic st
     end).

(** The loading part of the mount effect (lines 92-131) on these keys. *)
Definition load (st : Storage) (a : Auth.State) (s : App.State) : Auth.State * App.State :=
  (Auth.restore (user st) a,
   let s1 := match topics st with
             | Some loadedTopics => App.setTopics (fun _ => loadedTopics) s
             | None => s
             end in
   let s2 := match flashcards st with
             | Some l => App.setFlashcards (fun _ => l) s1
             | None => s1
             end in
   match activeTopic st with
   | Some i => if bool_decide (i = "") then s2 else App.setActiveTopic (Some i) s2
   | None => s2
   end).

(** The [removeItem] calls of [handleLogout] (lines 195, 201-203). *)
Definition removeOnLogout (st : Storage) : Storage := mkStorage None None None None.

(** Opening the page: the mount effect loads, the saving effect runs on
    the first render (the initial state) and again on the render that
    shows what was loaded. *)
Definition mount (st : Storage) : Auth.State * App.State * Storage :=
  let r := load st Auth.initial App.initial in
  (r, save r.1 r.2 (save Auth.initial App.initial st)).

(** Signing out: [handleLogout], then the saving effect. *)
Definition signOut (a : Auth.State) (s : App.State) (st : Storage)
    : Auth.State * App.State * Storage :=
  (Auth.handleLogout a, logoutData s,
   save (Auth.handleLogout a) (logoutData s) (removeOnLogout st)).

End Persistence.

(** ** The streak over several work phases *)

(** The statistics after work phases completed at the instants [times]:
    each phase's callback closes over the statistics the phase before
    reported ([timerState] changes with every phase, so the interval and its
    callback are set up anew), and App merges the report. *)
Definition statsAfter (tz : Z -> Z) (settings : Pomodoro.Settings) (seen : Pomodoro.State)
    (times : list Date) (stats : Pomodoro.PomodoroStats) : Pomodoro.PomodoroStats :=
  foldl (fun st now =>
           PomodoroRun.updatePomodoroStats
             (PomodoroRun.allOf
                (Pomodoro.workCompleted tz now (Pomodoro.mkClosure settings st seen)))
             st)
        stats times.

(** Each instant falls on the local day of the one before, or on the next
    day. *)
Fixpoint dayByDay (tz : Z -> Z) (lastDay : Z) (times : list Date) : Prop :=
  match times with
  | [] => True
  | t :: times =>
      (Pomodoro.toDateString tz t = lastDay \/ Pomodoro.toDateString tz t = lastDay + 1)
      /\ dayByDay tz (Pomodoro.toDateString tz t) times
  end.

(** ** The timeline of a timer left to run *)

(** The number of seconds after Start at which work phase [j + 1] begins:
    every work phase before it ran for the work duration and was followed
    by its break, the long one after the phases whose number is a multiple
    of [sessionsUntilLongBreak]. *)
Fixpoint workStart (st : Pomodoro.Settings) (j : nat) : nat :=
  match j with
  | O => O
  | S j' =>
      (Z.to_nat (PomodoroRun.breakSeconds st (1 + Z.of_nat j'))
       + (Z.to_nat (Pomodoro.pomodoroWork st * 60) + workStart st j'))%nat
  end.

(** * The deck engine *)

Lemma clearAutoAdvance_idem (s : Deck.State) :
  Deck.autoAdvanceTimer (Deck.clearAutoAdvance s s) = None.
Proof.
  unfold Deck.clearAutoAdvance.
  destruct (Deck.autoAdvanceTimer s) eqn:E; simpl; [reflexivity | exact E].
Qed.

Lemma nextCard_last (s : Deck.State) :
  S (Deck.currentIndex s) = length (Deck.displayCards s) ->
  Deck.nextCard s =
  Deck.mkState (Deck.currentIndex s) (Deck.isFlipped s) (Deck.showAnswer s)
    (Deck.quizScore s) (Deck.displayCards s) None true.
Proof.
  intros Hlast. unfold Deck.nextCard, Deck.nextCard_in.
  assert (Hdc : Deck.displayCards (Deck.clearAutoAdvance s s) = Deck.displayCards s)
    by (unfold Deck.clearAutoAdvance; destruct (Deck.autoAdvanceTimer s); reflexivity).
  replace (Z.of_nat (Deck.currentIndex s) <? Z.of_nat (length (Deck.displayCards s)) - 1)
    with false by (symmetry; apply Z.ltb_ge; lia).
  rewrite clearAutoAdvance_idem.
  unfold Deck.clearAutoAdvance. destruct (Deck.autoAdvanceTimer s); reflexivity.
Qed.

Lemma accuracy_checked_sound (c i : N) (a : Z) :
  accuracy_checked c i = Some a ->
  Deck.accuracy (Deck.mkScore c i) = JsNumber.of_N (Z.to_N a) /\
  0 <= a /\ nearest_percent (Z.of_N c) (Z.of_N i) a = true.
Proof.
  unfold accuracy_checked.
  set (a0 := (200 * Z.of_N c + (Z.of_N c + Z.of_N i)) / (2 * (Z.of_N c + Z.of_N i))).
  assert (Ha0 : 0 <= a0) by (apply Z_div_nonneg_nonneg; lia).
  destruct (_ && nearest_percent _ _ a0) eqn:E1.
  - intros [= <-]. apply andb_prop in E1 as [He Hn].
    split; [by apply FloatAxioms.Leibniz.eqb_spec | by split].
  - destruct (_ && _ && nearest_percent _ _ (a0 - 1)) eqn:E2; [|discriminate].
    intros [= <-]. apply andb_prop in E2 as [E2 Hn]. apply andb_prop in E2 as [He Hp].
    split; [by apply FloatAxioms.Leibniz.eqb_spec |]. split; [lia | exact Hn].
Qed.

Lemma in_upfrom (n : nat) (k x : N) :
  In x (upfrom n k) <-> (k <= x < k + N.of_nat n)%N.
Proof.
  revert k. induction n as [|n IH]; intros k; simpl.
  - lia.
  - rewrite IH. lia.
Qed.

Lemma accuracy_checked_upto_spec (n : nat) (c i : N) :
  accuracy_checked_upto n = true ->
  (0 < c + i <= N.of_nat n)%N ->
  is_Some (accuracy_checked c i).
Proof.
  unfold accuracy_checked_upto. intros Hall Hb.
  rewrite forallb_forall in Hall.
  assert (Hin : In (c + i)%N (upfrom n 1%N)) by (apply in_upfrom; lia).
  apply Hall in Hin. rewrite forallb_forall in Hin.
  assert (Hc : In c (upfrom (S (N.to_nat (c + i))) 0%N)) by (apply in_upfrom; lia).
  apply Hin in Hc. apply bool_decide_eq_true in Hc.
  by replace (c + i - c)%N with i in Hc by lia.
Qed.

Lemma accuracy_checked_500 : accuracy_checked_upto 500 = true.
Proof. vm_compute. reflexivity. Qed.

Lemma accuracy_nearest_percent (c i : N) :
  (0 < c + i <= 500)%N ->
  exists a : Z,
    Deck.accuracy (Deck.mkScore c i) = JsNumber.of_N (Z.to_N a) /\
    0 <= a <= 100 /\
    Z.abs (200 * Z.of_N c - 2 * a * Z.of_N (c + i)) <= Z.of_N (c + i).
Proof.
  intros Hb.
  destruct (accuracy_checked_upto_spec 500 c i accuracy_checked_500 ltac:(lia)) as [a Ha].
  apply accuracy_checked_sound in Ha as (Hacc & Hpos & Hn).
  exists a. split; [exact Hacc|].
  unfold nearest_percent in Hn. apply Z.leb_le in Hn.
  rewrite N2Z.inj_add. split; [nia | lia].
Qed.

(** C1, as the code has it.  In a non-empty deck, [nextCard] called on the
    last card sets the completed flag and leaves the index on the last
    card; the completion screen is then shown, the tallies are untouched,
    and a further [nextCard] changes nothing (the session completes once).
    The accuracy shown there is 0 when both tallies are zero; otherwise it
    is [Math.round] of the ratio times 100, a whole percentage: for tallies
    up to 500 answers it is an integer between 0 and 100 at most one half
    away from [100 * correct / (correct + incorrect)]. *)
Theorem nextCard_on_last_card_completes (s : Deck.State) :
  Deck.displayCards s <> [] ->
  S (Deck.currentIndex s) = length (Deck.displayCards s) ->
  Deck.isCompleted (Deck.nextCard s) = true /\
  Deck.currentIndex (Deck.nextCard s) = Deck.currentIndex s /\
  Deck.showsCompletion (Deck.nextCard s) = true /\
  Deck.quizScore (Deck.nextCard s) = Deck.quizScore s /\
  Deck.nextCard (Deck.nextCard s) = Deck.nextCard s /\
  (Deck.correct (Deck.quizScore s) = 0%N ->
   Deck.incorrect (Deck.quizScore s) = 0%N ->
   Deck.accuracy (Deck.quizScore (Deck.nextCard s)) = 0%float) /\
  ((0 < Deck.correct (Deck.quizScore s) + Deck.incorrect (Deck.quizScore s) <= 500)%N ->
   exists a : Z,
     Deck.accuracy (Deck.quizScore (Deck.nextCard s)) = JsNumber.of_N (Z.to_N a) /\
     0 <= a <= 100 /\
     Z.abs (200 * Z.of_N (Deck.correct (Deck.quizScore s))
            - 2 * a * Z.of_N (Deck.correct (Deck.quizScore s)
                              + Deck.incorrect (Deck.quizScore s)))
     <= Z.of_N (Deck.correct (Deck.quizScore s) + Deck.incorrect (Deck.quizScore s))).
Proof.
  intros _ Hlast.
  pose proof (nextCard_last s Hlast) as Hn.
  assert (Hagain : Deck.nextCard (Deck.nextCard s) = Deck.nextCard s).
  { rewrite (nextCard_last (Deck.nextCard s)); rewrite Hn; simpl; [reflexivity | exact Hlast]. }
  rewrite Hagain, Hn. simpl.
  split_and!; try reflexivity.
  - intros Hc Hi. destruct (Deck.quizScore s) as [c i]. simpl in *. subst. reflexivity.
  - intros Hb. destruct (Deck.quizScore s) as [c i]. simpl in *.
    by apply accuracy_nearest_percent.
Qed.

Lemma nextCard_on_last_card_completes_witness :
  let s := Deck.mkState 1 true true (Deck.mkScore 29 171)
             [sampleCard "1" "q1" "a1" "Math"; sampleCard "2" "q2" "a2" "Math"] None false in
  Deck.isCompleted (Deck.nextCard s) = true /\
  Deck.currentIndex (Deck.nextCard s) = 1%nat /\
  Deck.accuracy (Deck.quizScore (Deck.nextCard s)) = 14%float.
Proof.
  intros s.
  assert (Hne : Deck.displayCards s <> []) by discriminate.
  destruct (nextCard_on_last_card_completes s Hne eq_refl) as (Hc & Hi & _).
  split; [exact Hc|]. split; [exact Hi | reflexivity].
Defined.

(** C1 as worded fails: with one correct and two incorrect answers the
    completion screen shows 33, not the ratio 1/3. *)
Lemma accuracy_is_a_percentage_not_the_ratio :
  Deck.accuracy (Deck.mkScore 1 2) = 33%float /\
  Deck.accuracy (Deck.mkScore 1 2)
  <> (JsNumber.of_N 1 / (JsNumber.of_N 1 + JsNumber.of_N 2))%float.
Proof.
  split; [reflexivity|].
  intros H.
  assert (Hlt : (Deck.accuracy (Deck.mkScore 1 2) <? 1)%float
                = ((JsNumber.of_N 1 / (JsNumber.of_N 1 + JsNumber.of_N 2)) <? 1)%float)
    by (rewrite H; reflexivity).
  vm_compute in Hlt. discriminate.
Qed.

Lemma syncDeck_inOriginalOrder sh p s : inOriginalOrder p (Deck.syncDeck sh p s).
Proof. intros Hoff. unfold Deck.syncDeck. simpl. by rewrite Hoff. Qed.

Lemma displayCards_clearAutoAdvance snap s :
  Deck.displayCards (Deck.clearAutoAdvance snap s) = Deck.displayCards s.
Proof. unfold Deck.clearAutoAdvance. by destruct (Deck.autoAdvanceTimer snap). Qed.

Lemma displayCards_nextCard_in snap s :
  Deck.displayCards (Deck.nextCard_in snap s) = Deck.displayCards s.
Proof.
  unfold Deck.nextCard_in. case_match; simpl; apply displayCards_clearAutoAdvance.
Qed.

Lemma displayCards_previousCard_in snap s :
  Deck.displayCards (Deck.previousCard_in snap s) = Deck.displayCards s.
Proof.
  unfold Deck.previousCard_in. case_match; simpl; apply displayCards_clearAutoAdvance.
Qed.

Lemma displayCards_resetQuiz_in snap s :
  Deck.displayCards (Deck.resetQuiz_in snap s) = Deck.displayCards s.
Proof. unfold Deck.resetQuiz_in. simpl. apply displayCards_clearAutoAdvance. Qed.

Lemma resetQuiz_in_fields snap s :
  Deck.currentIndex (Deck.resetQuiz_in snap s) = 0%nat /\
  Deck.isFlipped (Deck.resetQuiz_in snap s) = false /\
  Deck.showAnswer (Deck.resetQuiz_in snap s) = false /\
  Deck.quizScore (Deck.resetQuiz_in snap s) = Deck.mkScore 0 0 /\
  Deck.isCompleted (Deck.resetQuiz_in snap s) = false.
Proof. unfold Deck.resetQuiz_in. simpl. by split_and!. Qed.

(** C8, as the code has it.  Every restart (either button of the completion
    screen, or the R key) puts the index back to 0, turns the card face
    down, zeroes both tallies and clears the completed flag.  The deck is
    shuffled anew only by the "Shuffle & Restart" button, and only when the
    shuffle setting is on; "Study Again" and R keep the order on display.
    With the setting off every restart shows the deck in its original
    order. *)
Theorem restart_resets_session (r : Deck.RestartInput) (sh : Deck.Shuffle)
    (p : Deck.Props) (s : Deck.State) :
  inOriginalOrder p s ->
  Deck.currentIndex (Deck.restart r sh p s) = 0%nat /\
  Deck.isFlipped (Deck.restart r sh p s) = false /\
  Deck.showAnswer (Deck.restart r sh p s) = false /\
  Deck.quizScore (Deck.restart r sh p s) = Deck.mkScore 0 0 /\
  Deck.isCompleted (Deck.restart r sh p s) = false /\
  (Deck.shuffleCards (Deck.settings p) = true ->
   Deck.displayCards (Deck.restart r sh p s) =
   match r with
   | Deck.ShuffleAndRestart => sh (Deck.flashcards p)
   | Deck.StudyAgain | Deck.KeyR => Deck.displayCards s
   end) /\
  (Deck.shuffleCards (Deck.settings p) = false ->
   Deck.displayCards (Deck.restart r sh p s) = Deck.flashcards p) /\
  inOriginalOrder p (Deck.restart r sh p s).
Proof.
  intros Hinv.
  assert (Hfields :
    Deck.currentIndex (Deck.restart r sh p s) = 0%nat /\
    Deck.isFlipped (Deck.restart r sh p s) = false /\
    Deck.showAnswer (Deck.restart r sh p s) = false /\
    Deck.quizScore (Deck.restart r sh p s) = Deck.mkScore 0 0 /\
    Deck.isCompleted (Deck.restart r sh p s) = false).
  { destruct r; unfold Deck.restart, Deck.restartDeck, Deck.restartDeck_in, Deck.resetQuiz;
      apply resetQuiz_in_fields. }
  assert (Hon : Deck.shuffleCards (Deck.settings p) = true ->
    Deck.displayCards (Deck.restart r sh p s) =
    match r with
    | Deck.ShuffleAndRestart => sh (Deck.flashcards p)
    | Deck.StudyAgain | Deck.KeyR => Deck.displayCards s
    end).
  { intros Hs.
    destruct r; unfold Deck.restart, Deck.restartDeck, Deck.restartDeck_in, Deck.resetQuiz;
      rewrite displayCards_resetQuiz_in; [reflexivity | | reflexivity].
    by rewrite Hs. }
  assert (Hoff : Deck.shuffleCards (Deck.settings p) = false ->
    Deck.displayCards (Deck.restart r sh p s) = Deck.flashcards p).
  { intros Hs.
    destruct r; unfold Deck.restart, Deck.restartDeck, Deck.restartDeck_in, Deck.resetQuiz;
      rewrite displayCards_resetQuiz_in; try rewrite Hs; by apply Hinv. }
  destruct Hfields as (H1 & H2 & H3 & H4 & H5).
  split_and!; try done.
Qed.

Lemma restart_resets_session_witness :
  let p := Deck.mkProps mathCards true (Deck.mkSettings false 5 true true) in
  let s := Deck.mkState 2 true true (Deck.mkScore 2 1) (rev mathCards) None true in
  Deck.currentIndex (Deck.restart Deck.ShuffleAndRestart (@rev Card.t) p s) = 0%nat /\
  Deck.quizScore (Deck.restart Deck.ShuffleAndRestart (@rev Card.t) p s) = Deck.mkScore 0 0 /\
  Deck.displayCards (Deck.restart Deck.ShuffleAndRestart (@rev Card.t) p s) = rev mathCards.
Proof.
  intros p s.
  assert (Hinv : inOriginalOrder p s) by (intros Hoff; discriminate Hoff).
  destruct (restart_resets_session Deck.ShuffleAndRestart (@rev Card.t) p s Hinv)
    as (Hi & _ & _ & Hq & _ & Hon & _).
  split; [exact Hi|]. split; [exact Hq|]. exact (Hon eq_refl).
Defined.

(** C8 as worded fails: with the shuffle setting on, "Study Again" on the
    completion screen restarts the session without shuffling; the order on
    display stays, whatever order a shuffle would have produced. *)
Lemma study_again_does_not_reshuffle :
  ~ (forall (r : Deck.RestartInput) (sh : Deck.Shuffle) (p : Deck.Props) (s : Deck.State),
       Deck.showsCompletion s = true ->
       Deck.shuffleCards (Deck.settings p) = true ->
       Deck.displayCards (Deck.restart r sh p s) = sh (Deck.flashcards p)).
Proof.
  intros Hclaim.
  specialize (Hclaim Deck.StudyAgain (@rev Card.t)
                (Deck.mkProps mathCards true (Deck.mkSettings false 5 true true))
                (Deck.mkState 2 true true (Deck.mkScore 2 1) mathCards None true)
                eq_refl eq_refl).
  vm_compute in Hclaim. discriminate Hclaim.
Qed.

(** No handler of the deck ever stores a timer handle: the
    [autoAdvanceTimer] cell is only ever set to null. *)
Lemma autoAdvanceTimer_clearAutoAdvance snap s :
  Deck.autoAdvanceTimer s = None ->
  Deck.autoAdvanceTimer (Deck.clearAutoAdvance snap s) = None.
Proof. intros H. unfold Deck.clearAutoAdvance. by destruct (Deck.autoAdvanceTimer snap). Qed.

Lemma act_keeps_handle_null (a : Study.Action) (s : Study.Session) :
  Deck.autoAdvanceTimer (Study.deck s) = None ->
  Deck.autoAdvanceTimer (Study.deck (Study.act a s)) = None.
Proof.
  intros H. destruct a; simpl.
  - unfold Deck.nextCard, Deck.nextCard_in. case_match; simpl;
      by apply autoAdvanceTimer_clearAutoAdvance.
  - unfold Deck.previousCard, Deck.previousCard_in. case_match; simpl;
      by apply autoAdvanceTimer_clearAutoAdvance.
  - unfold Deck.handleFlip, Deck.handleFlip_in. simpl.
    by apply autoAdvanceTimer_clearAutoAdvance.
  - destruct (Deck.currentCard (Study.deck s)); simpl; exact H.
Qed.

(** So the [clearTimeout] of a navigation handler clears nothing: the
    timers pending before a click on Next, Previous or Flip are pending
    after it. *)
Lemma navigation_clears_no_timer (a : Study.Action) (s : Study.Session) :
  Deck.autoAdvanceTimer (Study.deck s) = None ->
  (forall ok sh, a <> Study.ClickMark ok sh) ->
  Study.timers (Study.act a s) = Study.timers s.
Proof.
  intros H Hnav. destruct a; simpl; rewrite ?H; try reflexivity.
  by destruct (Hnav ok sh).
Qed.

Lemma commit_deck (before after : Study.Session) :
  Study.deck (Study.commit before after) = Study.deck after.
Proof.
  unfold Study.commit, Study.autoFlipEffect.
  repeat case_match; reflexivity.
Qed.

Lemma step_keeps_handle_null (t : Z) (e : Study.Event) (s s' : Study.Session) :
  Deck.autoAdvanceTimer (Study.deck s) = None ->
  Study.step t e s = Some s' ->
  Deck.autoAdvanceTimer (Study.deck s') = None.
Proof.
  intros Hnull. unfold Study.step.
  destruct (t <? Study.clock s); [discriminate|].
  destruct e as [a|h].
  - case_match; [|discriminate]. intros [= <-].
    rewrite commit_deck. by apply act_keeps_handle_null.
  - destruct (List.find _ (Study.timers s)) as [u|]; [|discriminate].
    case_match; [|discriminate]. intros [= <-].
    rewrite commit_deck. unfold Study.fire.
    destruct (Study.callback u) as [|snap]; cbn [Study.setDeck Study.deck Study.setClock].
    + exact Hnull.
    + unfold Deck.nextCard_in. case_match; simpl;
        by apply autoAdvanceTimer_clearAutoAdvance.
Qed.

(** In every session that starts by mounting the deck, the handle cell is
    null at all times. *)
Lemma run_keeps_handle_null (tr : list (Z * Study.Event)) (s s' : Study.Session) :
  Deck.autoAdvanceTimer (Study.deck s) = None ->
  Study.run tr s = Some s' ->
  Deck.autoAdvanceTimer (Study.deck s') = None.
Proof.
  revert s. induction tr as [|[t e] tr IH]; intros s Hnull; simpl.
  - by intros [= <-].
  - destruct (Study.step t e s) as [s1|] eqn:E; [|discriminate]. simpl.
    apply IH. by apply (step_keeps_handle_null t e s).
Qed.

(** C3 fails on the code.  In a three-card quiz the first card is judged,
    which sets the one-second auto-advance timer; the user then clicks Next
    and reveals the second card's answer.  The timer set on the first card
    is still pending on the second card, fires there, and turns the second
    card face down again. *)
Theorem auto_advance_fires_on_another_card :
  exists s1 s2 snap,
    Study.run judgeThenNavigate quizSession = Some s1 /\
    Deck.currentIndex (Study.deck s1) = 1%nat /\
    Deck.showAnswer (Study.deck s1) = true /\
    Study.timers s1 = [Study.mkTimer 0 3000 (Study.AutoAdvance snap)] /\
    Deck.currentIndex snap = 0%nat /\
    Study.step 3000 (Study.Fire 0) s1 = Some s2 /\
    Deck.currentIndex (Study.deck s2) = 1%nat /\
    Deck.showAnswer (Study.deck s2) = false /\
    Deck.isFlipped (Study.deck s2) = false.
Proof.
  destruct (Study.run judgeThenNavigate quizSession) as [s1|] eqn:E1;
    [|vm_compute in E1; discriminate E1].
  destruct (Study.step 3000 (Study.Fire 0) s1) as [s2|] eqn:E2;
    [|vm_compute in E1; injection E1 as <-; vm_compute in E2; discriminate E2].
  vm_compute in E1. injection E1 as <-.
  vm_compute in E2. injection E2 as <-.
  eexists _, _, _. split; [reflexivity|].
  split_and!; reflexivity.
Qed.

(** * The Pomodoro timer *)

Lemma toDateString_a_day_earlier (tz : Z -> Z) (now : Date) :
  tz (now - Pomodoro.msPerDay) = tz now ->
  Pomodoro.toDateString tz (now - Pomodoro.msPerDay) = Pomodoro.toDateString tz now - 1.
Proof.
  intros Htz. unfold Pomodoro.toDateString. rewrite Htz.
  replace (now - Pomodoro.msPerDay + tz now)
    with (now + tz now + (-1) * Pomodoro.msPerDay) by lia.
  rewrite Z.div_add by (unfold Pomodoro.msPerDay; lia). lia.
Qed.

(** Where the zone's offset is the same now and 24 hours ago, the streak
    follows the calendar: kept on the same day, one more after a session
    the day before, 1 otherwise; the session count grows by one and the
    focus time by the work duration. *)
Lemma workCompleted_follows_calendar (tz : Z -> Z) (now : Date) (c : Pomodoro.Closure) :
  tz (now - Pomodoro.msPerDay) = tz now ->
  let today := Pomodoro.toDateString tz now in
  let last := Pomodoro.toDateString tz <$> Pomodoro.lastSessionDate (Pomodoro.stats c) in
  let r := Pomodoro.workCompleted tz now c in
  Pomodoro.completedSessions r = Pomodoro.completedSessions (Pomodoro.stats c) + 1 /\
  Pomodoro.totalFocusTime r
  = Pomodoro.totalFocusTime (Pomodoro.stats c) + Pomodoro.pomodoroWork (Pomodoro.settings c) /\
  Pomodoro.lastSessionDate r = Some now /\
  (last = Some today -> Pomodoro.streakDays r = Pomodoro.streakDays (Pomodoro.stats c)) /\
  (last = Some (today - 1) ->
   Pomodoro.streakDays r = Pomodoro.streakDays (Pomodoro.stats c) + 1) /\
  (last <> Some today -> last <> Some (today - 1) -> Pomodoro.streakDays r = 1).
Proof.
  intros Htz today last r.
  pose proof (toDateString_a_day_earlier tz now Htz) as Hy.
  subst r. unfold Pomodoro.workCompleted, Pomodoro.newStreakDays. simpl.
  fold last. fold today. rewrite Hy. fold today.
  split_and!; try reflexivity.
  - intros ->. by rewrite bool_decide_eq_true_2.
  - intros ->. rewrite bool_decide_eq_false_2 by (intros [= H]; lia).
    by rewrite bool_decide_eq_true_2.
  - intros H1 H2. by rewrite !bool_decide_eq_false_2.
Qed.

(** C2 fails on the code.  "Yesterday" is taken to be the local date of the
    instant 24 hours ago.  The day the clocks go forward has 23 hours: at
    00:30 on the Monday after it, 24 hours ago is still Saturday.  A user
    whose last session was on Sunday (the previous calendar day) and who
    completes a work phase then has the streak set to 1 instead of
    incremented. *)
Theorem streak_reset_after_23_hour_day :
  let before := Pomodoro.mkStats 3 75 3 (Some sundayNoon) in
  let c := Pomodoro.mkClosure Pomodoro.defaultSettings before
             (Pomodoro.mkState 1 Pomodoro.Work 1 false "") in
  Pomodoro.toDateString berlin2026 sundayNoon
  = Pomodoro.toDateString berlin2026 mondayHalfPastMidnight - 1 /\
  Pomodoro.toDateString berlin2026 (mondayHalfPastMidnight - Pomodoro.msPerDay)
  = Pomodoro.toDateString berlin2026 mondayHalfPastMidnight - 2 /\
  snd (Pomodoro.handleTimerComplete_in berlin2026 mondayHalfPastMidnight 0 c (Pomodoro.seen c))
  = Some (Pomodoro.mkStats 4 100 1 (Some mondayHalfPastMidnight)).
Proof.
  intros before c. split_and!.
  - vm_compute. reflexivity.
  - vm_compute. reflexivity.
  - unfold c, before. vm_compute. reflexivity.
Qed.

(** Resuming: the countdown is kept, and the state is [Break] or [Work] by
    the size of the countdown alone. *)
Lemma resume_by_countdown (st : Pomodoro.Settings) (ps : Pomodoro.PomodoroStats)
    (s : Pomodoro.State) :
  let r := Pomodoro.startTimer st ps (Pomodoro.pauseTimer s) in
  Pomodoro.timeLeft r = Pomodoro.timeLeft s /\
  Pomodoro.currentSession r = Pomodoro.currentSession s /\
  Pomodoro.timerState r
  = (if Pomodoro.timeLeft s
        <=? Z.max (Pomodoro.pomodoroBreak st) (Pomodoro.longBreak st) * 60
     then Pomodoro.Break else Pomodoro.Work) /\
  Pomodoro.timerState r <> Pomodoro.LongBreak.
Proof.
  intros r. subst r.
  unfold Pomodoro.startTimer, Pomodoro.startTimer_in, Pomodoro.pauseTimer. simpl.
  split_and!; try reflexivity.
  by case_match.
Qed.

(** C4 fails on the code.  With the default durations (25, 5 and 15
    minutes), a work phase paused with 10 minutes left resumes as a break,
    and a long break paused with 12 minutes left resumes as a short break. *)
Theorem resume_forgets_paused_state :
  let ps := Pomodoro.mkStats 0 0 0 None in
  let working := Pomodoro.mkState 600 Pomodoro.Work 1 false "" in
  let resting := Pomodoro.mkState 720 Pomodoro.LongBreak 5 true "" in
  Pomodoro.startTimer Pomodoro.defaultSettings ps (Pomodoro.pauseTimer working)
  = Pomodoro.mkState 600 Pomodoro.Break 1 false "" /\
  Pomodoro.startTimer Pomodoro.defaultSettings ps (Pomodoro.pauseTimer resting)
  = Pomodoro.mkState 720 Pomodoro.Break 5 true "".
Proof.
  intros ps working resting. split.
  - unfold working. vm_compute. reflexivity.
  - unfold resting. vm_compute. reflexivity.
Qed.

(** * The application shell *)

Lemma findById_Some (i : string) (l : list Topic.t) (t : Topic.t) :
  App.findById i l = Some t -> t ∈ l /\ Topic.id t = i.
Proof.
  unfold App.findById. intros H. apply find_some in H as [Hin Hp].
  split; [by apply list_elem_of_In | by apply bool_decide_eq_true in Hp].
Qed.

Lemma findByName_None (n : string) (l : list Topic.t) :
  App.findByName n l = None <-> forall t, t ∈ l -> Topic.name t <> n.
Proof.
  unfold App.findByName. split.
  - intros H t Hin Hn. apply list_elem_of_In in Hin.
    pose proof (find_none _ _ H t Hin) as Hf. simpl in Hf.
    by rewrite bool_decide_eq_true_2 in Hf.
  - intros H. destruct (List.find _ l) as [t|] eqn:E; [|reflexivity].
    apply find_some in E as [Hin Hp]. apply bool_decide_eq_true in Hp.
    apply list_elem_of_In in Hin. by destruct (H t Hin).
Qed.

Lemma findByName_Some (n : string) (l : list Topic.t) (t : Topic.t) :
  App.findByName n l = Some t -> t ∈ l /\ Topic.name t = n.
Proof.
  unfold App.findByName. intros H. apply find_some in H as [Hin Hp].
  split; [by apply list_elem_of_In | by apply bool_decide_eq_true in Hp].
Qed.

(** C5.  Deleting the topic found under an identifier removes it from the
    topic list (with it, every topic carrying that identifier, and nothing
    else), removes exactly the cards whose subject is its name (the others
    stay, in order), and, when it was the active topic, makes the first
    remaining topic active, or none when no topic remains; otherwise the
    active topic is kept. *)
Theorem deleteTopic_cascades (s : App.State) (topicId : string) (t : Topic.t) :
  App.findById topicId (App.topics s) = Some t ->
  (t ∉ App.topics (App.deleteTopic topicId s)) /\
  App.topics (App.deleteTopic topicId s)
  = filter (fun u => Topic.id u ≠ topicId) (App.topics s) /\
  App.flashcards (App.deleteTopic topicId s)
  = filter (fun c => Card.subject c ≠ Topic.name t) (App.flashcards s) /\
  (forall c, c ∈ App.flashcards (App.deleteTopic topicId s)
             <-> c ∈ App.flashcards s /\ Card.subject c <> Topic.name t) /\
  (App.activeTopic s = Some topicId ->
   match App.topics (App.deleteTopic topicId s) with
   | [] => App.activeTopic (App.deleteTopic topicId s) = None
   | u :: _ => App.activeTopic (App.deleteTopic topicId s) = Some (Topic.id u)
   end) /\
  (App.activeTopic s <> Some topicId ->
   App.activeTopic (App.deleteTopic topicId s) = App.activeTopic s).
Proof.
  intros Hfind. pose proof (findById_Some _ _ _ Hfind) as [Hin Hid].
  unfold App.deleteTopic, App.deleteTopic_in. rewrite Hfind.
  destruct (bool_decide (App.activeTopic s = Some topicId)) eqn:Hact; simpl.
  - apply bool_decide_eq_true in Hact. split_and!; try reflexivity.
    + rewrite list_elem_of_filter. tauto.
    + intros c. rewrite list_elem_of_filter. tauto.
    + intros _. by destruct (filter _ (App.topics s)).
    + intros Hne. by destruct Hne.
  - apply bool_decide_eq_false in Hact. split_and!; try reflexivity.
    + rewrite list_elem_of_filter. tauto.
    + intros c. rewrite list_elem_of_filter. tauto.
    + intros Heq. by destruct Hact.
Qed.

Lemma deleteTopic_cascades_witness :
  let s := App.mkState
             [Topic.mk "10" "Math" "#2563EB" "M" None None;
              Topic.mk "11" "Art" "#10B981" "A" None None]
             (mathCards ++ [sampleCard "4" "blue + yellow" "green" "Art"]) (Some "10") in
  App.flashcards (App.deleteTopic "10" s) = [sampleCard "4" "blue + yellow" "green" "Art"] /\
  App.activeTopic (App.deleteTopic "10" s) = Some "11".
Proof.
  intros s.
  destruct (deleteTopic_cascades s "10" (Topic.mk "10" "Math" "#2563EB" "M" None None) eq_refl)
    as (_ & _ & Hcards & _ & Hact & _).
  split; [rewrite Hcards; reflexivity | exact (Hact eq_refl)].
Defined.

Lemma find_append {A} (p : A -> bool) (l1 l2 : list A) :
  List.find p (l1 ++ l2)
  = match List.find p l1 with Some x => Some x | None => List.find p l2 end.
Proof.
  induction l1 as [|x l1 IH]; [reflexivity|]. simpl. by destruct (p x).
Qed.

(** C10.  [addFlashcard] appends the card, with the subject it was given.
    When no topic bears that subject, exactly one topic is appended: its
    name is the subject, its colour and icon are the entries of the default
    lists at the topic count modulo their lengths (8 and 12), and it becomes
    the active topic; so the card's subject is the name of a topic.  When a
    topic of that name exists, the topic list and the active topic are
    unchanged. *)
Theorem addFlashcard_creates_missing_topic (clk : App.AddClock) (newCard : Card.t)
    (s : App.State) :
  App.flashcards (App.addFlashcard clk newCard s)
  = App.flashcards s ++
    [Card.mk (App.toString (App.cardIdNow clk)) (Card.question newCard)
       (Card.answer newCard) (Card.subject newCard) (Card.difficulty newCard)
       (Some (App.reviewedNow clk)) (Some 0%nat) (Some 0%nat)] /\
  ((forall t, t ∈ App.topics s -> Topic.name t <> Card.subject newCard) ->
   exists color icon,
     App.topics (App.addFlashcard clk newCard s)
     = App.topics s ++
       [Topic.mk (App.toString (App.topicIdNow clk)) (Card.subject newCard) color icon
          (Some (App.createdNow clk)) None] /\
     App.defaultColors !! (length (App.topics s) mod 8)%nat = Some color /\
     App.defaultIcons !! (length (App.topics s) mod 12)%nat = Some icon /\
     App.activeTopic (App.addFlashcard clk newCard s)
     = Some (App.toString (App.topicIdNow clk)) /\
     App.activeTopicData (App.addFlashcard clk newCard s) <> None) /\
  ((exists t, t ∈ App.topics s /\ Topic.name t = Card.subject newCard) ->
   App.topics (App.addFlashcard clk newCard s) = App.topics s /\
   App.activeTopic (App.addFlashcard clk newCard s) = App.activeTopic s) /\
  (exists t, t ∈ App.topics (App.addFlashcard clk newCard s)
             /\ Topic.name t = Card.subject newCard).
Proof.
  unfold App.addFlashcard, App.addFlashcard_in.
  destruct (App.findByName (Card.subject newCard) (App.topics s)) as [t0|] eqn:Hfind.
  - apply findByName_Some in Hfind as [Hin Hname]. simpl.
    split_and!; try reflexivity.
    + intros Hnone. by destruct (Hnone t0 Hin).
    + intros _. by split.
    + by exists t0.
  - cbn [App.addTopic App.setActiveTopic App.setTopics App.setFlashcards App.topics
         App.flashcards App.activeTopic Topic.id App.td_name App.td_color App.td_icon
         App.td_isPublic].
    split_and!; try reflexivity.
    + intros _.
      change (length App.defaultColors) with 8%nat.
      change (length App.defaultIcons) with 12%nat.
      assert (Hc : (length (App.topics s) mod 8 < length App.defaultColors)%nat)
        by (change (length App.defaultColors) with 8%nat; by apply Nat.mod_upper_bound).
      assert (Hi : (length (App.topics s) mod 12 < length App.defaultIcons)%nat)
        by (change (length App.defaultIcons) with 12%nat; by apply Nat.mod_upper_bound).
      destruct (lookup_lt_is_Some_2 _ _ Hc) as [color Hcolor].
      destruct (lookup_lt_is_Some_2 _ _ Hi) as [icon Hicon].
      exists color, icon.
      rewrite (nth_lookup_Some _ _ "" _ Hcolor), (nth_lookup_Some _ _ "" _ Hicon).
      split_and!; try done.
      unfold App.activeTopicData, App.findById.
      cbn [App.setActiveTopic App.setTopics App.topics App.activeTopic mbind option_bind].
      rewrite find_append.
      case_match; [done|].
      cbn [List.find Topic.id]. by rewrite bool_decide_eq_true_2.
    + intros [t [Hin Hname]].
      pose proof (proj1 (findByName_None _ _) Hfind) as Hnone.
      by destruct (Hnone t Hin).
    + eexists. split; [apply elem_of_app; right; apply list_elem_of_singleton; reflexivity|].
      reflexivity.
Qed.

Lemma addFlashcard_creates_missing_topic_witness :
  let clk := App.mkAddClock 1700000000000 1700000000000 1700000000001 1700000000001 in
  let s := App.addFlashcard clk (sampleCard "" "E = ?" "m c^2" "Physics") mathApp in
  App.topics s
  = App.topics mathApp ++
    [Topic.mk "1700000000001" "Physics" "#10B981" "🎯" (Some 1700000000001) None] /\
  App.activeTopic s = Some "1700000000001".
Proof.
  intros clk s.
  destruct (addFlashcard_creates_missing_topic clk
              (sampleCard "" "E = ?" "m c^2" "Physics") mathApp)
    as (_ & Hnew & _).
  destruct Hnew as (color & icon & Ht & Hc & Hi & Ha & _).
  - intros t Ht. apply list_elem_of_singleton in Ht. by subst t.
  - injection Hc as <-. injection Hi as <-. split; [exact Ht | exact Ha].
Defined.

(** [loadSharedTopic] on the topic list it reads.  When that list
    holds a topic of the payload's name, the import changes nothing.
    Otherwise it only appends: one topic, public, whose identifier is the
    decimal string of the clock, and one card per payload card, in order,
    with the payload topic's name as subject and the clock's string followed
    by a random suffix as identifier; it becomes the active topic, and no
    existing topic or card is touched.  Nothing compares the new identifiers
    with those in use: the topic's is new when the existing ones are strings
    of earlier clock values, the cards' are new when no existing card has
    one of the generated strings. *)
Theorem loadSharedTopic_appends_or_skips (snap s : App.State) (now : Z)
    (cardNow : nat -> Z) (suffix : nat -> string) (d : App.SharedData) :
  ((exists t, t ∈ App.topics snap /\ Topic.name t = Topic.name (App.shared_topic d)) ->
   App.loadSharedTopic_in snap now cardNow suffix d s = s) /\
  ((forall t, t ∈ App.topics snap -> Topic.name t <> Topic.name (App.shared_topic d)) ->
   exists newTopic newCards,
     App.topics (App.loadSharedTopic_in snap now cardNow suffix d s)
     = App.topics s ++ [newTopic] /\
     App.flashcards (App.loadSharedTopic_in snap now cardNow suffix d s)
     = App.flashcards s ++ newCards /\
     App.activeTopic (App.loadSharedTopic_in snap now cardNow suffix d s)
     = Some (Topic.id newTopic) /\
     newTopic
     = Topic.mk (App.toString now) (Topic.name (App.shared_topic d))
         (Topic.color (App.shared_topic d)) (Topic.icon (App.shared_topic d))
         (Topic.createdAt (App.shared_topic d)) (Some true) /\
     length newCards = length (App.shared_flashcards d) /\
     (forall k c0, App.shared_flashcards d !! k = Some c0 ->
        newCards !! k
        = Some (Card.with_id_subject c0 (App.toString (cardNow k) +:+ suffix k)
                  (Topic.name (App.shared_topic d)))) /\
     ((forall t, t ∈ App.topics s -> exists z, z < now /\ Topic.id t = App.toString z) ->
      forall t, t ∈ App.topics s -> Topic.id t <> Topic.id newTopic) /\
     ((forall k c, (k < length (App.shared_flashcards d))%nat -> c ∈ App.flashcards s ->
         Card.id c <> App.toString (cardNow k) +:+ suffix k) ->
      forall c c', c ∈ App.flashcards s -> c' ∈ newCards -> Card.id c <> Card.id c')).
Proof.
  unfold App.loadSharedTopic_in. split.
  - intros (t & Hin & Hname).
    destruct (App.findByName _ (App.topics snap)) eqn:Hfind; [reflexivity|].
    pose proof (proj1 (findByName_None _ _) Hfind) as Hnone. by destruct (Hnone t Hin).
  - intros Hnone. rewrite (proj2 (findByName_None _ _) Hnone).
    eexists _, _. cbn [App.setFlashcards App.setActiveTopic App.setTopics App.topics
                       App.flashcards App.activeTopic].
    split_and!; try reflexivity.
    + apply length_imap.
    + intros k c0 Hk. by rewrite list_lookup_imap, Hk.
    + intros Hold t Hin Heq. destruct (Hold t Hin) as (z & Hz & Hid).
      cbn [Topic.id] in Heq. rewrite Hid in Heq. unfold App.toString in Heq.
      apply (inj pretty) in Heq. lia.
    + intros Hfresh c c' Hc Hc' Heq.
      apply list_elem_of_lookup in Hc' as [k Hk].
      rewrite list_lookup_imap in Hk.
      destruct (App.shared_flashcards d !! k) as [c0|] eqn:Hk0; [|discriminate Hk].
      injection Hk as <-. cbn [Card.with_id_subject Card.id] in Heq.
      apply lookup_lt_Some in Hk0. exact (Hfresh k c Hk0 Hc Heq).
Qed.

Lemma loadSharedTopic_appends_or_skips_witness :
  let d := App.mkShared (Topic.mk "7" "Physics" "#DC2626" "P" None None)
             [sampleCard "70" "E = ?" "m c^2" "Physics"] in
  App.topics (App.loadSharedTopic_in mathApp 1700000000000 (fun _ => 1700000000001)
                (fun _ => "k3x9q0a1z") d mathApp)
  = App.topics mathApp
    ++ [Topic.mk "1700000000000" "Physics" "#DC2626" "P" None (Some true)] /\
  App.flashcards (App.loadSharedTopic_in mathApp 1700000000000 (fun _ => 1700000000001)
                    (fun _ => "k3x9q0a1z") d mathApp)
  = App.flashcards mathApp
    ++ [sampleCard "1700000000001k3x9q0a1z" "E = ?" "m c^2" "Physics"].
Proof.
  intros d.
  destruct (loadSharedTopic_appends_or_skips mathApp mathApp 1700000000000
              (fun _ => 1700000000001) (fun _ => "k3x9q0a1z") d) as [_ Hnew].
  destruct Hnew as (nt & nc & Ht & Hc & _ & Hnt & Hlen & Hk & _).
  - intros t Ht. apply list_elem_of_singleton in Ht. by subst t.
  - split; [by rewrite Ht, Hnt|].
    rewrite Hc. f_equal.
    destruct nc as [|c1 [|c2 nc]]; try discriminate Hlen.
    specialize (Hk 0%nat _ eq_refl). by injection Hk as ->.
Defined.

(** The one call of [loadSharedTopic] is in the mount effect, whose closure
    holds the first render's empty topic list: a payload that decodes is
    imported there whatever topics the live state already has. *)
Lemma import_on_mount_reads_no_topic (JSON_parse : string -> option App.SharedData)
    (s : App.State) (now : Z) (cardNow : nat -> Z) (suffix : nat -> string)
    (q : string) (d : App.SharedData) :
  q <> "" ->
  Base64.atob q ≫= JSON_parse = Some d ->
  App.topics (App.loadFromUrl JSON_parse App.initial now cardNow suffix (Some q) s).1
  = App.topics s
    ++ [Topic.mk (App.toString now) (Topic.name (App.shared_topic d))
          (Topic.color (App.shared_topic d)) (Topic.icon (App.shared_topic d))
          (Topic.createdAt (App.shared_topic d)) (Some true)].
Proof.
  intros Hq Hd. unfold App.loadFromUrl.
  rewrite bool_decide_eq_false_2 by exact Hq. rewrite Hd. reflexivity.
Qed.

(** C7 fails on the code.  The guard against a topic of the same name
    (lines 221-222) reads [topics] of the render that defined the handler,
    and the one call is in the mount effect (line 138), which belongs to the
    first render: there [topics] is the empty list, also when the same
    effect has just restored topics from local storage.  A user who has a
    topic "Physics" and opens a link that shares a topic "Physics" gets a
    second topic of that name, made active, and the shared card is listed
    with the cards of the topic they had.  Called from a render that shows
    the stored topics, the same handler would have changed nothing. *)
Theorem import_on_mount_duplicates_topic :
  let physics := Topic.mk "1700000000000" "Physics" "#2563EB" "P" None None in
  let s := App.mkState [physics]
             [Card.mk "1700000000001" "F = ?" "m a" "Physics" None None None None]
             (Some "1700000000000") in
  let d := App.mkShared (Topic.mk "7" "Physics" "#DC2626" "X" None None)
             [Card.mk "" "E = ?" "m c^2" "Physics" None None None None] in
  let imported := App.loadSharedTopic_in App.initial 1700000500000
                    (fun _ => 1700000500000) (fun _ => "k3x9q2m1z") d s in
  App.loadSharedTopic_in s 1700000500000 (fun _ => 1700000500000)
    (fun _ => "k3x9q2m1z") d s = s /\
  (forall (JSON_parse : string -> option App.SharedData) (q : string),
     q <> "" -> Base64.atob q ≫= JSON_parse = Some d ->
     App.loadFromUrl JSON_parse App.initial 1700000500000 (fun _ => 1700000500000)
       (fun _ => "k3x9q2m1z") (Some q) s = (imported, [])) /\
  imported <> s /\
  (Topic.name <$> App.topics imported) = ["Physics"; "Physics"] /\
  physics ∈ App.topics imported /\
  App.activeTopic imported = Some "1700000500000" /\
  (Card.question <$> App.cardsOf (Some (Topic.name physics)) (App.flashcards s))
  = ["F = ?"] /\
  (Card.question <$> App.cardsOf (Some (Topic.name physics)) (App.flashcards imported))
  = ["F = ?"; "E = ?"].
Proof.
  intros physics s d imported. split_and!.
  - reflexivity.
  - intros JSON_parse q Hq Hd. unfold App.loadFromUrl.
    rewrite bool_decide_eq_false_2 by exact Hq. by rewrite Hd.
  - discriminate.
  - reflexivity.
  - apply list_elem_of_here.
  - reflexivity.
  - reflexivity.
  - reflexivity.
Qed.

(** C9.  A share parameter is read only when present and non-empty.  When
    [atob] throws on it, or [JSON.parse] throws on what [atob] returned,
    the state is left as it was and one line is written with
    [console.error]; no exception leaves the handler.  A parameter that is
    not base64 takes that branch. *)
Theorem invalid_share_link_is_ignored (JSON_parse : string -> option App.SharedData)
    (snap s : App.State) (now : Z) (cardNow : nat -> Z) (suffix : nat -> string) :
  (forall q : string,
     q <> "" ->
     Base64.atob q = None \/ (exists b, Base64.atob q = Some b /\ JSON_parse b = None) ->
     App.loadFromUrl JSON_parse snap now cardNow suffix (Some q) s
     = (s, ["Invalid shared topic data"])) /\
  App.loadFromUrl JSON_parse snap now cardNow suffix None s = (s, []) /\
  App.loadFromUrl JSON_parse snap now cardNow suffix (Some "") s = (s, []) /\
  Base64.atob "not base64!" = None /\
  App.loadFromUrl JSON_parse snap now cardNow suffix (Some "not base64!") s
  = (s, ["Invalid shared topic data"]).
Proof.
  split_and!; try reflexivity.
  intros q Hq Hfail. unfold App.loadFromUrl.
  rewrite bool_decide_eq_false_2 by exact Hq.
  destruct Hfail as [Ha | (b & Ha & Hp)]; rewrite Ha; simpl; [reflexivity|].
  by rewrite Hp.
Qed.

Lemma invalid_share_link_is_ignored_witness :
  App.loadFromUrl
    (fun b => if bool_decide (b = "not json") then None
              else Some (App.mkShared (Topic.mk "7" b "" "" None None) []))
    App.initial 1700000000000 (fun _ => 1700000000000) (fun _ => "")
    (Some "bm90IGpzb24=") mathApp
  = (mathApp, ["Invalid shared topic data"]).
Proof.
  destruct (invalid_share_link_is_ignored
              (fun b => if bool_decide (b = "not json") then None
                        else Some (App.mkShared (Topic.mk "7" b "" "" None None) []))
              App.initial mathApp 1700000000000 (fun _ => 1700000000000) (fun _ => ""))
    as [Hbad _].
  apply Hbad.
  - discriminate.
  - right. exists "not json". split; reflexivity.
Defined.

(** * The edit-topic dialog *)

Lemma with_subject_same (c : Card.t) : Card.with_subject c (Card.subject c) = c.
Proof. by destruct c. Qed.

Lemma save_loop_on_cards (nm : string) (m : list Card.t) (s : App.State) :
  foldl (fun acc card =>
           if bool_decide (Card.subject card ≠ nm)
           then App.updateFlashcard (Card.with_subject card nm) acc
           else acc) s m
  = App.mkState (App.topics s) (foldl (rewriteStep nm) (App.flashcards s) m)
                (App.activeTopic s).
Proof.
  revert s. induction m as [|c m IH]; intros s; cbn [foldl].
  - by destruct s.
  - rewrite IH. unfold rewriteStep. by case_bool_decide.
Qed.

Lemma rewriteStep_absent (nm : string) (l : list Card.t) (c : Card.t) :
  Card.id c ∉ Card.id <$> l -> rewriteStep nm l c = l.
Proof.
  intros Hc. unfold rewriteStep. case_bool_decide; [|reflexivity].
  induction l as [|x l IH]; [reflexivity|].
  rewrite fmap_cons in Hc. apply not_elem_of_cons in Hc as [Hx Hl].
  rewrite fmap_cons, (IH Hl). by rewrite bool_decide_eq_false_2.
Qed.

Lemma rewriteStep_cons_other (nm : string) (y : Card.t) (l m : list Card.t) :
  Card.id y ∉ Card.id <$> m ->
  foldl (rewriteStep nm) (y :: l) m = y :: foldl (rewriteStep nm) l m.
Proof.
  revert l. induction m as [|c m IH]; intros l Hy; [reflexivity|].
  rewrite fmap_cons in Hy. apply not_elem_of_cons in Hy as [Hc Hm].
  simpl. rewrite <- (IH _ Hm). f_equal.
  unfold rewriteStep. case_bool_decide; [|reflexivity].
  by rewrite fmap_cons, bool_decide_eq_false_2.
Qed.

Lemma ids_of_filter (P : Card.t -> Prop) `{!forall c, Decision (P c)} (l : list Card.t) (i : string) :
  i ∈ Card.id <$> filter P l -> i ∈ Card.id <$> l.
Proof.
  intros Hi. apply list_elem_of_fmap in Hi as (c & -> & Hc).
  apply list_elem_of_filter in Hc as [_ Hc]. by apply list_elem_of_fmap_2.
Qed.

Lemma save_loop_rewrites (old nm : string) (l : list Card.t) :
  NoDup (Card.id <$> l) ->
  foldl (rewriteStep nm) l (App.cardsOf (Some old) l) = subjectsRewritten old nm l.
Proof.
  unfold App.cardsOf, subjectsRewritten.
  induction l as [|x l IH]; intros Hnd; [reflexivity|].
  rewrite fmap_cons in Hnd. apply NoDup_cons in Hnd as [Hx Hnd].
  rewrite filter_cons, fmap_cons. destruct (decide (Some (Card.subject x) = Some old)) as [He|Hne].
  - injection He as He. rewrite bool_decide_eq_true_2 by exact He.
    cbn [foldl].
    assert (Hstep : rewriteStep nm (x :: l) x = Card.with_subject x nm :: l).
    { unfold rewriteStep. case_bool_decide as Hs.
      - rewrite fmap_cons, bool_decide_eq_true_2 by reflexivity. f_equal.
        pose proof (rewriteStep_absent nm l x Hx) as Ha. unfold rewriteStep in Ha.
        by rewrite bool_decide_eq_true_2 in Ha.
      - rewrite <- Hs. by rewrite with_subject_same. }
    rewrite Hstep, rewriteStep_cons_other; [by rewrite IH|].
    intros Hin. apply Hx. by apply ids_of_filter in Hin.
  - rewrite bool_decide_eq_false_2 by congruence.
    rewrite rewriteStep_cons_other; [by rewrite IH|].
    intros Hin. apply Hx. by apply ids_of_filter in Hin.
Qed.

(** C6.  The dialog is open on a topic of the application and holds a name
    that is not blank; card identifiers are distinct.  Saving then renames
    that topic (every topic carrying its identifier) to the trimmed name,
    with the chosen colour and icon, and rewrites the cards: a card whose
    subject was the old name gets the new name as subject, which is the
    renamed topic's name, and keeps every other field; the other cards, and
    the order, are as before. *)
Theorem rename_rewrites_subjects (trim : string -> string) (s : App.State) (t : Topic.t)
    (nm col ic : string) :
  t ∈ App.topics s ->
  NoDup (Card.id <$> App.flashcards s) ->
  trim nm <> "" ->
  App.flashcards (EditTopicModal.handleSaveTopicDetails trim (EditTopicModal.open t s nm col ic) s)
  = subjectsRewritten (Topic.name t) (trim nm) (App.flashcards s) /\
  App.topics (EditTopicModal.handleSaveTopicDetails trim (EditTopicModal.open t s nm col ic) s)
  = (fun u => if bool_decide (Topic.id u = Topic.id t)
              then Topic.mk (Topic.id u) (trim nm) col ic (Topic.createdAt u) (Topic.isPublic u)
              else u) <$> App.topics s /\
  (exists u,
     u ∈ App.topics (EditTopicModal.handleSaveTopicDetails trim
                       (EditTopicModal.open t s nm col ic) s) /\
     Topic.id u = Topic.id t /\ Topic.name u = trim nm) /\
  (forall k c,
     App.flashcards s !! k = Some c ->
     Card.subject c = Topic.name t ->
     App.flashcards (EditTopicModal.handleSaveTopicDetails trim
                       (EditTopicModal.open t s nm col ic) s) !! k
     = Some (Card.mk (Card.id c) (Card.question c) (Card.answer c) (trim nm)
               (Card.difficulty c) (Card.lastReviewed c) (Card.correctCount c)
               (Card.incorrectCount c))) /\
  (forall k c,
     App.flashcards s !! k = Some c ->
     Card.subject c <> Topic.name t ->
     App.flashcards (EditTopicModal.handleSaveTopicDetails trim
                       (EditTopicModal.open t s nm col ic) s) !! k
     = Some c).
Proof.
  intros Hin Hnd Hnm.
  unfold EditTopicModal.handleSaveTopicDetails, EditTopicModal.open.
  cbn [EditTopicModal.topicName EditTopicModal.topic EditTopicModal.flashcards
       EditTopicModal.selectedColor EditTopicModal.selectedIcon].
  rewrite bool_decide_eq_false_2 by exact Hnm.
  rewrite save_loop_on_cards.
  cbn [App.updateTopic App.setTopics App.topics App.flashcards App.activeTopic].
  rewrite (save_loop_rewrites _ _ _ Hnd).
  assert (Htopics :
    (fun u => if bool_decide (Topic.id u = Topic.id t)
              then App.merge u (App.mkUpdates None (Some (trim nm)) (Some col) (Some ic)
                                  None None)
              else u) <$> App.topics s
    = (fun u => if bool_decide (Topic.id u = Topic.id t)
                then Topic.mk (Topic.id u) (trim nm) col ic (Topic.createdAt u)
                       (Topic.isPublic u)
                else u) <$> App.topics s).
  { apply list_fmap_ext. intros i u _. by case_bool_decide. }
  rewrite Htopics. split_and!; try reflexivity.
  - eexists. split; [apply list_elem_of_fmap_2; exact Hin|].
    rewrite bool_decide_eq_true_2 by reflexivity. by split.
  - intros k c Hk Hs. unfold subjectsRewritten.
    rewrite list_lookup_fmap, Hk. simpl. by rewrite bool_decide_eq_true_2.
  - intros k c Hk Hs. unfold subjectsRewritten.
    rewrite list_lookup_fmap, Hk. simpl. by rewrite bool_decide_eq_false_2.
Qed.

Lemma rename_rewrites_subjects_witness :
  let art := sampleCard "4" "blue + yellow" "green" "Art" in
  let s := App.mkState
             [Topic.mk "10" "Math" "#2563EB" "M" None None;
              Topic.mk "11" "Art" "#10B981" "A" None None]
             (art :: mathCards) (Some "10") in
  App.flashcards
    (EditTopicModal.handleSaveTopicDetails (fun x => x)
       (EditTopicModal.open (Topic.mk "10" "Math" "#2563EB" "M" None None) s
          "Algebra" "#DC2626" "X") s)
  = [art; sampleCard "1" "2 + 2" "4" "Algebra"; sampleCard "2" "3 * 3" "9" "Algebra";
     sampleCard "3" "7 - 5" "2" "Algebra"].
Proof.
  intros art s.
  assert (Hin : Topic.mk "10" "Math" "#2563EB" "M" None None ∈ App.topics s)
    by apply list_elem_of_here.
  assert (Hnd : NoDup (Card.id <$> App.flashcards s)) by (vm_compute; by apply NoDup_ListNoDup; repeat constructor; simpl; intuition discriminate).
  assert (Hnm : (fun x : string => x) "Algebra" <> "") by discriminate.
  destruct (rename_rewrites_subjects (fun x => x) s _ "Algebra" "#DC2626" "X" Hin Hnd Hnm)
    as (Hcards & _).
  rewrite Hcards. reflexivity.
Defined.

(** * Further properties of the deck engine *)

Lemma clearAutoAdvance_fields snap s :
  Deck.currentIndex (Deck.clearAutoAdvance snap s) = Deck.currentIndex s /\
  Deck.isFlipped (Deck.clearAutoAdvance snap s) = Deck.isFlipped s /\
  Deck.showAnswer (Deck.clearAutoAdvance snap s) = Deck.showAnswer s /\
  Deck.quizScore (Deck.clearAutoAdvance snap s) = Deck.quizScore s /\
  Deck.isCompleted (Deck.clearAutoAdvance snap s) = Deck.isCompleted s.
Proof. unfold Deck.clearAutoAdvance. by destruct (Deck.autoAdvanceTimer snap). Qed.

Lemma inRange_currentCard (s : Deck.State) : inRange s <-> is_Some (Deck.currentCard s).
Proof. unfold inRange, Deck.currentCard. symmetry. apply lookup_lt_is_Some. Qed.

(** X1.  While the index is in range and the session is not completed, the
    handlers of the current render keep the index in range, so the card view
    always has a card to show; and the completion screen is reached in one
    way only: by [nextCard] on the last card.  [previousCard], [handleFlip]
    and [resetQuiz] never show it, and [previousCard] on the first card
    changes neither the index nor the faces. *)
Theorem handlers_keep_card_in_range (s : Deck.State) :
  inRange s ->
  Deck.isCompleted s = false ->
  inRange (Deck.nextCard s) /\ inRange (Deck.previousCard s) /\
  inRange (Deck.handleFlip s) /\ inRange (Deck.resetQuiz s) /\
  (Deck.showsCompletion (Deck.nextCard s) = true
   <-> S (Deck.currentIndex s) = length (Deck.displayCards s)) /\
  Deck.showsCompletion (Deck.previousCard s) = false /\
  Deck.showsCompletion (Deck.handleFlip s) = false /\
  Deck.showsCompletion (Deck.resetQuiz s) = false /\
  (Deck.currentIndex s = 0%nat ->
   Deck.currentIndex (Deck.previousCard s) = 0%nat /\
   Deck.isFlipped (Deck.previousCard s) = Deck.isFlipped s /\
   Deck.showAnswer (Deck.previousCard s) = Deck.showAnswer s).
Proof.
  intros Hr Hc. unfold inRange in Hr.
  pose proof (clearAutoAdvance_fields s s) as (Hi & Hf & Ha & _ & Hcomp).
  pose proof (displayCards_clearAutoAdvance s s) as Hd.
  assert (Hshow : forall s', inRange s' -> Deck.showsCompletion s' = Deck.isCompleted s').
  { intros s' Hr'. unfold Deck.showsCompletion.
    apply inRange_currentCard in Hr' as [c Hcur]. rewrite Hcur.
    rewrite bool_decide_eq_false_2 by discriminate. simpl. apply orb_false_r. }
  assert (Hnext : inRange (Deck.nextCard s)).
  { unfold inRange, Deck.nextCard. rewrite displayCards_nextCard_in.
    unfold Deck.nextCard_in. case_match eqn:E; simpl;
      [apply Z.ltb_lt in E; lia | rewrite ?Hi, ?Hd; lia]. }
  assert (Hprev : inRange (Deck.previousCard s)).
  { unfold inRange, Deck.previousCard. rewrite displayCards_previousCard_in.
    unfold Deck.previousCard_in. case_match; simpl; [lia | rewrite ?Hi, ?Hd; lia]. }
  assert (Hflip : inRange (Deck.handleFlip s)).
  { unfold inRange, Deck.handleFlip, Deck.handleFlip_in. simpl. rewrite ?Hi, ?Hd. lia. }
  assert (Hreset : inRange (Deck.resetQuiz s)).
  { unfold inRange, Deck.resetQuiz. rewrite displayCards_resetQuiz_in.
    unfold Deck.resetQuiz_in. simpl. lia. }
  split_and!; try done.
  - rewrite (Hshow _ Hnext). unfold Deck.nextCard, Deck.nextCard_in.
    case_match eqn:E; simpl.
    + apply Z.ltb_lt in E. rewrite Hcomp, Hc. split; [discriminate | lia].
    + apply Z.ltb_ge in E. split; [lia | reflexivity].
  - rewrite (Hshow _ Hprev). unfold Deck.previousCard, Deck.previousCard_in.
    case_match; simpl; [reflexivity | by rewrite Hcomp].
  - rewrite (Hshow _ Hflip). unfold Deck.handleFlip, Deck.handleFlip_in. simpl.
    by rewrite Hcomp.
  - by rewrite (Hshow _ Hreset).
  - intros H0. unfold Deck.previousCard, Deck.previousCard_in. rewrite H0. simpl.
    by rewrite Hi, Hf, Ha.
Qed.

Lemma handlers_keep_card_in_range_witness :
  let s := Deck.mkState 2 true true (Deck.mkScore 0 0) mathCards None false in
  Deck.showsCompletion (Deck.nextCard s) = true /\
  Deck.showsCompletion (Deck.previousCard s) = false.
Proof.
  intros s.
  assert (Hr : inRange s) by (unfold inRange; simpl; lia).
  destruct (handlers_keep_card_in_range s Hr eq_refl) as (_ & _ & _ & _ & Hn & Hp & _).
  split; [by apply Hn | exact Hp].
Defined.

(** An invariant of the deck state that every event keeps holds in every
    session. *)
Lemma run_invariant (I : Study.Session -> Prop) :
  (forall t e s s', I s -> Study.step t e s = Some s' -> I s') ->
  forall tr s s', I s -> Study.run tr s = Some s' -> I s'.
Proof.
  intros Hstep tr. induction tr as [|[t e] tr IH]; intros s s' HI; simpl.
  - by intros [= <-].
  - destruct (Study.step t e s) as [s1|] eqn:E; [|discriminate]. simpl.
    apply IH. by apply (Hstep t e s).
Qed.

Lemma step_deck_cases (t : Z) (e : Study.Event) (s s' : Study.Session) :
  Study.step t e s = Some s' ->
  (exists a, Study.deck s' = Study.deck (Study.act a (Study.setClock t s))) \/
  (exists u, Study.deck s' = Study.deck (Study.fire u (Study.setClock t s))).
Proof.
  unfold Study.step. destruct (t <? Study.clock s); [discriminate|].
  destruct e as [a|h].
  - case_match; [|discriminate]. intros [= <-]. left. exists a. apply commit_deck.
  - destruct (List.find _ (Study.timers s)) as [u|]; [|discriminate].
    case_match; [|discriminate]. intros [= <-]. right. exists u. apply commit_deck.
Qed.

Lemma act_deck_cases (a : Study.Action) (s : Study.Session) :
  Study.deck (Study.act a s) = Deck.nextCard (Study.deck s) \/
  Study.deck (Study.act a s) = Deck.previousCard (Study.deck s) \/
  Study.deck (Study.act a s) = Deck.handleFlip (Study.deck s) \/
  Study.deck (Study.act a s) = Study.deck s \/
  (exists sh p d, Study.deck (Study.act a s) = Deck.syncDeck sh p d).
Proof.
  destruct a; simpl; auto.
  destruct (Deck.currentCard (Study.deck s)); simpl; [|auto].
  do 4 right. by eexists _, _, _.
Qed.

Lemma fire_deck_cases (u : Study.Timer) (s : Study.Session) :
  (exists snap, Study.deck (Study.fire u s) = Deck.nextCard_in snap (Study.deck s)) \/
  Study.deck (Study.fire u s)
  = Deck.mkState (Deck.currentIndex (Study.deck s)) true true
      (Deck.quizScore (Study.deck s)) (Deck.displayCards (Study.deck s))
      (Deck.autoAdvanceTimer (Study.deck s)) (Deck.isCompleted (Study.deck s)).
Proof.
  unfold Study.fire. destruct (Study.callback u); simpl; [by right | left; by eexists].
Qed.

Lemma quizScore_nextCard_in snap s :
  Deck.quizScore (Deck.nextCard_in snap s) = Deck.quizScore s.
Proof.
  unfold Deck.nextCard_in. case_match; simpl; apply clearAutoAdvance_fields.
Qed.

Lemma quizScore_previousCard_in snap s :
  Deck.quizScore (Deck.previousCard_in snap s) = Deck.quizScore s.
Proof.
  unfold Deck.previousCard_in. case_match; simpl; apply clearAutoAdvance_fields.
Qed.

(** X2.  In a session (the deck mounted in the application, then any
    sequence of clicks and timer callbacks), the quiz tallies are zero after
    every event.  A judgment does raise a tally, but it also updates the
    card in the application, whose next render hands the deck a new card
    array; the effect of lines 47-59 then starts the session over.  So the
    accuracy computed for the completion screen is always 0. *)
Theorem tallies_are_zero_after_every_event (sh : Deck.Shuffle) (a : App.State)
    (quiz : bool) (st : Deck.DeckSettings) (t0 : Z) (tr : list (Z * Study.Event))
    (s : Study.Session) :
  Study.run tr (Study.mount sh a quiz st t0) = Some s ->
  Deck.quizScore (Study.deck s) = Deck.mkScore 0 0 /\
  Deck.accuracy (Deck.quizScore (Study.deck s)) = 0%float.
Proof.
  intros Hrun.
  assert (Hz : Deck.quizScore (Study.deck s) = Deck.mkScore 0 0).
  { revert Hrun.
    apply (run_invariant (fun s => Deck.quizScore (Study.deck s) = Deck.mkScore 0 0)).
    - intros t e s0 s1 HI Hstep.
      destruct (step_deck_cases t e s0 s1 Hstep) as [[b Hb]|[u Hu]].
      + rewrite Hb.
        destruct (act_deck_cases b (Study.setClock t s0))
          as [H|[H|[H|[H|(sh' & p & d & H)]]]]; rewrite H; try exact HI.
        * unfold Deck.nextCard. by rewrite quizScore_nextCard_in.
        * unfold Deck.previousCard. by rewrite quizScore_previousCard_in.
        * unfold Deck.handleFlip, Deck.handleFlip_in. simpl.
          by rewrite (proj1 (proj2 (proj2 (proj2 (clearAutoAdvance_fields _ _))))).
        * reflexivity.
      + rewrite Hu. destruct (fire_deck_cases u (Study.setClock t s0)) as [[snap H]|H];
          rewrite H; [by rewrite quizScore_nextCard_in | exact HI].
    - unfold Study.mount, Study.autoFlipEffect. by case_match. }
  split; [exact Hz | by rewrite Hz].
Qed.

Lemma tallies_are_zero_after_every_event_witness :
  exists s,
    Study.run judgeThenNavigate quizSession = Some s /\
    Deck.quizScore (Study.deck s) = Deck.mkScore 0 0.
Proof.
  destruct (Study.run judgeThenNavigate quizSession) as [s|] eqn:E;
    [|vm_compute in E; discriminate E].
  exists s. split; [reflexivity|].
  exact (proj1 (tallies_are_zero_after_every_event (fun l => l) mathApp true
                  (Deck.mkSettings false 5 false true) 0 judgeThenNavigate s E)).
Defined.

Lemma flags_nextCard_in snap d :
  Deck.isFlipped d = Deck.showAnswer d ->
  Deck.isFlipped (Deck.nextCard_in snap d) = Deck.showAnswer (Deck.nextCard_in snap d).
Proof.
  intros H. unfold Deck.nextCard_in. case_match; simpl; [reflexivity|].
  by destruct (clearAutoAdvance_fields snap d) as (_ & -> & -> & _).
Qed.

Lemma flags_previousCard_in snap d :
  Deck.isFlipped d = Deck.showAnswer d ->
  Deck.isFlipped (Deck.previousCard_in snap d)
  = Deck.showAnswer (Deck.previousCard_in snap d).
Proof.
  intros H. unfold Deck.previousCard_in. case_match; simpl; [reflexivity|].
  by destruct (clearAutoAdvance_fields snap d) as (_ & -> & -> & _).
Qed.

(** X3.  In a session the two face flags are always equal: every handler
    and every timer callback sets [isFlipped] and [showAnswer] together. *)
Theorem face_flags_agree (sh : Deck.Shuffle) (a : App.State)
    (quiz : bool) (st : Deck.DeckSettings) (t0 : Z) (tr : list (Z * Study.Event))
    (s : Study.Session) :
  Study.run tr (Study.mount sh a quiz st t0) = Some s ->
  Deck.isFlipped (Study.deck s) = Deck.showAnswer (Study.deck s).
Proof.
  apply (run_invariant
           (fun s => Deck.isFlipped (Study.deck s) = Deck.showAnswer (Study.deck s))).
  - intros t e s0 s1 HI Hstep.
    change (Study.deck s0) with (Study.deck (Study.setClock t s0)) in HI.
    destruct (step_deck_cases t e s0 s1 Hstep) as [[b Hb]|[u Hu]].
    + rewrite Hb.
      destruct (act_deck_cases b (Study.setClock t s0))
        as [H|[H|[H|[H|(sh' & p & d & H)]]]]; rewrite H; try exact HI.
      * by apply flags_nextCard_in.
      * by apply flags_previousCard_in.
      * unfold Deck.handleFlip, Deck.handleFlip_in.
        cbn [Deck.isFlipped Deck.showAnswer]. by rewrite HI.
      * reflexivity.
    + rewrite Hu. destruct (fire_deck_cases u (Study.setClock t s0)) as [[snap H]|H];
        rewrite H; [by apply flags_nextCard_in | reflexivity].
  - unfold Study.mount, Study.autoFlipEffect. by case_match.
Qed.

Lemma face_flags_agree_witness :
  exists s,
    Study.run judgeThenNavigate quizSession = Some s /\
    Deck.isFlipped (Study.deck s) = Deck.showAnswer (Study.deck s).
Proof.
  destruct (Study.run judgeThenNavigate quizSession) as [s|] eqn:E;
    [|vm_compute in E; discriminate E].
  exists s. split; [reflexivity|].
  exact (face_flags_agree (fun l => l) mathApp true
           (Deck.mkSettings false 5 false true) 0 judgeThenNavigate s E).
Defined.

(** X4.  [isTypingInInput] holds exactly when the focused element is an
    input, a textarea, a select or has [contenteditable="true"]; the tests
    for an enclosing dialog or modal never change the answer.  While it
    holds, no key calls a handler of the deck. *)
Theorem shortcuts_are_off_while_typing (activeElement : option Keyboard.Element) :
  (Keyboard.isTypingInInput activeElement = true
   <-> exists e, activeElement = Some e /\
                 (Keyboard.tagName e ∈ ["input"; "textarea"; "select"]
                  \/ Keyboard.contenteditable e = Some "true")) /\
  (Keyboard.isTypingInInput activeElement = true ->
   forall key quiz snap, Keyboard.handleKeyPress activeElement key quiz snap = None).
Proof.
  split.
  - destruct activeElement as [e|]; simpl.
    + destruct (decide (Keyboard.tagName e ∈ ["input"; "textarea"; "select"])) as [Ht|Ht].
      { rewrite bool_decide_eq_true_2 by exact Ht. split; [eauto | done]. }
      rewrite bool_decide_eq_false_2 by exact Ht.
      destruct (decide (Keyboard.contenteditable e = Some "true")) as [Hc|Hc].
      { rewrite bool_decide_eq_true_2 by exact Hc. split; [eauto | done]. }
      rewrite bool_decide_eq_false_2 by exact Hc.
      assert (Hi : Keyboard.tagName e <> "input")
        by (intros Heq; apply Ht; rewrite Heq; apply list_elem_of_here).
      assert (Ha : Keyboard.tagName e <> "textarea")
        by (intros Heq; apply Ht; rewrite Heq; apply list_elem_of_further, list_elem_of_here).
      rewrite !bool_decide_eq_false_2 by done. rewrite andb_false_r.
      split; [discriminate|]. intros (e' & [= <-] & [Hx|Hx]); done.
    + split; [discriminate | by intros (e & He & _)].
  - intros Htyping key quiz snap. unfold Keyboard.handleKeyPress. by rewrite Htyping.
Qed.

Lemma shortcuts_are_off_while_typing_witness :
  Keyboard.handleKeyPress (Some (Keyboard.mkElement "textarea" None true false false))
    "ArrowRight" true Deck.initial = None.
Proof.
  by apply (proj2 (shortcuts_are_off_while_typing
                     (Some (Keyboard.mkElement "textarea" None true false false)))).
Defined.

(** * Further properties of the Pomodoro timer *)

Lemma tick_counts_down tz clockAt pickAt (w : PomodoroRun.World) :
  PomodoroRun.running (Pomodoro.timerState (PomodoroRun.state w)) = true ->
  1 < Pomodoro.timeLeft (PomodoroRun.state w) ->
  PomodoroRun.tick tz clockAt pickAt w
  = PomodoroRun.mkWorld (PomodoroRun.settings w) (PomodoroRun.stats w)
      (Pomodoro.mkState (Pomodoro.timeLeft (PomodoroRun.state w) - 1)
         (Pomodoro.timerState (PomodoroRun.state w))
         (Pomodoro.currentSession (PomodoroRun.state w))
         (Pomodoro.showBreakSuggestion (PomodoroRun.state w))
         (Pomodoro.currentSuggestion (PomodoroRun.state w)))
      (PomodoroRun.closure w) (S (PomodoroRun.elapsed w)).
Proof.
  intros Hrun Ht. unfold PomodoroRun.tick, Pomodoro.tick_in. rewrite Hrun.
  replace (Pomodoro.timeLeft (PomodoroRun.state w) <=? 1) with false
    by (symmetry; apply Z.leb_gt; lia).
  unfold PomodoroRun.rerender. cbn [PomodoroRun.state Pomodoro.timerState].
  by rewrite bool_decide_eq_true_2.
Qed.

Lemma ticks_count_down tz clockAt pickAt (k : nat) (w : PomodoroRun.World) :
  PomodoroRun.running (Pomodoro.timerState (PomodoroRun.state w)) = true ->
  Z.of_nat k < Pomodoro.timeLeft (PomodoroRun.state w) ->
  PomodoroRun.ticks tz clockAt pickAt k w
  = PomodoroRun.mkWorld (PomodoroRun.settings w) (PomodoroRun.stats w)
      (Pomodoro.mkState (Pomodoro.timeLeft (PomodoroRun.state w) - Z.of_nat k)
         (Pomodoro.timerState (PomodoroRun.state w))
         (Pomodoro.currentSession (PomodoroRun.state w))
         (Pomodoro.showBreakSuggestion (PomodoroRun.state w))
         (Pomodoro.currentSuggestion (PomodoroRun.state w)))
      (PomodoroRun.closure w) (k + PomodoroRun.elapsed w).
Proof.
  intros Hrun. induction k as [|k IH]; intros Hk.
  - simpl. rewrite Z.sub_0_r. by destruct w as [? ? [] ? ?].
  - unfold PomodoroRun.ticks in *. rewrite Nat.iter_succ, IH by lia.
    rewrite tick_counts_down; cbn [PomodoroRun.state Pomodoro.timerState Pomodoro.timeLeft
      PomodoroRun.settings PomodoroRun.stats PomodoroRun.closure PomodoroRun.elapsed
      Pomodoro.currentSession Pomodoro.showBreakSuggestion Pomodoro.currentSuggestion];
      [|exact Hrun|lia].
    do 2 f_equal. lia.
Qed.

Lemma last_tick_completes tz clockAt pickAt (w : PomodoroRun.World) :
  PomodoroRun.running (Pomodoro.timerState (PomodoroRun.state w)) = true ->
  PomodoroRun.fresh w ->
  Pomodoro.timeLeft (PomodoroRun.state w) <= 1 ->
  let st := PomodoroRun.settings w in
  let k := Pomodoro.currentSession (PomodoroRun.state w) in
  PomodoroRun.fresh (PomodoroRun.tick tz clockAt pickAt w) /\
  PomodoroRun.settings (PomodoroRun.tick tz clockAt pickAt w) = st /\
  PomodoroRun.elapsed (PomodoroRun.tick tz clockAt pickAt w) = S (PomodoroRun.elapsed w) /\
  match Pomodoro.timerState (PomodoroRun.state w) with
  | Pomodoro.Work =>
      Pomodoro.timerState (PomodoroRun.state (PomodoroRun.tick tz clockAt pickAt w))
      = PomodoroRun.breakAfter st k /\
      Pomodoro.timeLeft (PomodoroRun.state (PomodoroRun.tick tz clockAt pickAt w))
      = PomodoroRun.breakSeconds st k /\
      Pomodoro.currentSession (PomodoroRun.state (PomodoroRun.tick tz clockAt pickAt w))
      = k + 1 /\
      PomodoroRun.stats (PomodoroRun.tick tz clockAt pickAt w)
      = Pomodoro.workCompleted tz (clockAt (PomodoroRun.elapsed w)) (PomodoroRun.closure w)
  | _ =>
      Pomodoro.timerState (PomodoroRun.state (PomodoroRun.tick tz clockAt pickAt w))
      = Pomodoro.Work /\
      Pomodoro.timeLeft (PomodoroRun.state (PomodoroRun.tick tz clockAt pickAt w))
      = Pomodoro.pomodoroWork st * 60 /\
      Pomodoro.currentSession (PomodoroRun.state (PomodoroRun.tick tz clockAt pickAt w))
      = k /\
      PomodoroRun.stats (PomodoroRun.tick tz clockAt pickAt w) = PomodoroRun.stats w
  end.
Proof.
  intros Hrun (Hs & Hp & Hts & Hcs) Ht st k.
  unfold PomodoroRun.tick, Pomodoro.tick_in. rewrite Hrun.
  replace (Pomodoro.timeLeft (PomodoroRun.state w) <=? 1) with true
    by (symmetry; apply Z.leb_le; lia).
  unfold Pomodoro.handleTimerComplete_in. rewrite Hts, Hcs, Hs.
  unfold PomodoroRun.breakAfter, PomodoroRun.breakSeconds. fold st. fold k.
  destruct (Pomodoro.timerState (PomodoroRun.state w)) eqn:Ets; try discriminate Hrun;
    unfold PomodoroRun.rerender, PomodoroRun.fresh;
    cbn [PomodoroRun.state Pomodoro.timerState PomodoroRun.settings PomodoroRun.stats
         PomodoroRun.closure PomodoroRun.elapsed Pomodoro.currentSession Pomodoro.timeLeft].
  - destruct (Pomodoro.rem_is_zero k (Pomodoro.sessionsUntilLongBreak st));
      rewrite bool_decide_eq_false_2 by discriminate;
      cbn [PomodoroRun.state Pomodoro.timerState PomodoroRun.settings PomodoroRun.stats
           PomodoroRun.closure PomodoroRun.elapsed Pomodoro.currentSession Pomodoro.timeLeft
           Pomodoro.settings Pomodoro.stats Pomodoro.seen];
      split_and!; try reflexivity; by destruct (Pomodoro.workCompleted _ _ _).
  - rewrite bool_decide_eq_false_2 by discriminate.
    cbn [PomodoroRun.state Pomodoro.timerState PomodoroRun.settings PomodoroRun.stats
         PomodoroRun.closure PomodoroRun.elapsed Pomodoro.currentSession Pomodoro.timeLeft
         Pomodoro.settings Pomodoro.stats Pomodoro.seen].
    by split_and!.
  - rewrite bool_decide_eq_false_2 by discriminate.
    cbn [PomodoroRun.state Pomodoro.timerState PomodoroRun.settings PomodoroRun.stats
         PomodoroRun.closure PomodoroRun.elapsed Pomodoro.currentSession Pomodoro.timeLeft
         Pomodoro.settings Pomodoro.stats Pomodoro.seen].
    by split_and!.
Qed.

Lemma ticks_add tz clockAt pickAt (a b : nat) (w : PomodoroRun.World) :
  PomodoroRun.ticks tz clockAt pickAt (a + b) w
  = PomodoroRun.ticks tz clockAt pickAt a (PomodoroRun.ticks tz clockAt pickAt b w).
Proof. unfold PomodoroRun.ticks. apply Nat.iter_add. Qed.



Lemma finish_phase tz clockAt pickAt (w : PomodoroRun.World) :
  PomodoroRun.running (Pomodoro.timerState (PomodoroRun.state w)) = true ->
  PomodoroRun.fresh w ->
  1 <= Pomodoro.timeLeft (PomodoroRun.state w) ->
  exists w1,
    PomodoroRun.ticks tz clockAt pickAt (Z.to_nat (Pomodoro.timeLeft (PomodoroRun.state w))) w
    = PomodoroRun.tick tz clockAt pickAt w1 /\
    PomodoroRun.running (Pomodoro.timerState (PomodoroRun.state w1)) = true /\
    PomodoroRun.fresh w1 /\
    Pomodoro.timeLeft (PomodoroRun.state w1) <= 1 /\
    PomodoroRun.settings w1 = PomodoroRun.settings w /\
    PomodoroRun.stats w1 = PomodoroRun.stats w /\
    Pomodoro.timerState (PomodoroRun.state w1) = Pomodoro.timerState (PomodoroRun.state w) /\
    Pomodoro.currentSession (PomodoroRun.state w1)
    = Pomodoro.currentSession (PomodoroRun.state w).
Proof.
  intros Hrun Hfresh HT.
  destruct (Z.to_nat (Pomodoro.timeLeft (PomodoroRun.state w))) as [|n] eqn:En; [lia|].
  exists (PomodoroRun.ticks tz clockAt pickAt n w).
  split; [reflexivity|].
  rewrite ticks_count_down by (try exact Hrun; lia).
  split_and!; try done. simpl. lia.
Qed.

Lemma start_after_reset (w : PomodoroRun.World) :
  PomodoroRun.fresh (PomodoroRun.start (PomodoroRun.reset w)) /\
  PomodoroRun.settings (PomodoroRun.start (PomodoroRun.reset w)) = PomodoroRun.settings w /\
  PomodoroRun.stats (PomodoroRun.start (PomodoroRun.reset w)) = PomodoroRun.stats w /\
  PomodoroRun.state (PomodoroRun.start (PomodoroRun.reset w))
  = Pomodoro.mkState (Pomodoro.pomodoroWork (PomodoroRun.settings w) * 60) Pomodoro.Work 1
      false (Pomodoro.currentSuggestion (PomodoroRun.state w)).
Proof.
  destruct w as [st ps [tl ts cs sb sg] cl el].
  unfold PomodoroRun.start, PomodoroRun.reset, PomodoroRun.press, PomodoroRun.rerender,
    PomodoroRun.fresh.
  destruct ts; simpl; by split_and!.
Qed.

Lemma phase_ends tz clockAt pickAt (w : PomodoroRun.World) :
  PomodoroRun.running (Pomodoro.timerState (PomodoroRun.state w)) = true ->
  PomodoroRun.fresh w ->
  1 <= Pomodoro.timeLeft (PomodoroRun.state w) ->
  let w' := PomodoroRun.ticks tz clockAt pickAt
              (Z.to_nat (Pomodoro.timeLeft (PomodoroRun.state w))) w in
  PomodoroRun.fresh w' /\
  PomodoroRun.settings w' = PomodoroRun.settings w /\
  match Pomodoro.timerState (PomodoroRun.state w) with
  | Pomodoro.Work =>
      Pomodoro.timerState (PomodoroRun.state w')
      = PomodoroRun.breakAfter (PomodoroRun.settings w)
          (Pomodoro.currentSession (PomodoroRun.state w)) /\
      Pomodoro.timeLeft (PomodoroRun.state w')
      = PomodoroRun.breakSeconds (PomodoroRun.settings w)
          (Pomodoro.currentSession (PomodoroRun.state w)) /\
      Pomodoro.currentSession (PomodoroRun.state w')
      = Pomodoro.currentSession (PomodoroRun.state w) + 1 /\
      Pomodoro.completedSessions (PomodoroRun.stats w')
      = Pomodoro.completedSessions (PomodoroRun.stats w) + 1 /\
      Pomodoro.totalFocusTime (PomodoroRun.stats w')
      = Pomodoro.totalFocusTime (PomodoroRun.stats w)
        + Pomodoro.pomodoroWork (PomodoroRun.settings w)
  | _ =>
      Pomodoro.timerState (PomodoroRun.state w') = Pomodoro.Work /\
      Pomodoro.timeLeft (PomodoroRun.state w')
      = Pomodoro.pomodoroWork (PomodoroRun.settings w) * 60 /\
      Pomodoro.currentSession (PomodoroRun.state w')
      = Pomodoro.currentSession (PomodoroRun.state w) /\
      PomodoroRun.stats w' = PomodoroRun.stats w
  end.
Proof.
  intros Hrun Hf HT w'.
  destruct (finish_phase tz clockAt pickAt w Hrun Hf HT)
    as (w1 & Hticks & Hrun1 & Hf1 & HT1 & Hs1 & Hp1 & Hts1 & Hcs1).
  pose proof (last_tick_completes tz clockAt pickAt w1 Hrun1 Hf1 HT1) as Hlast.
  cbn zeta in Hlast. destruct Hlast as (Hfw & Hsw & _ & Hcase).
  fold w' in Hticks. rewrite <- Hticks in Hfw, Hsw, Hcase.
  rewrite Hts1, Hcs1, Hs1 in Hcase. rewrite Hs1 in Hsw.
  split; [exact Hfw|]. split; [exact Hsw|].
  destruct (Pomodoro.timerState (PomodoroRun.state w)).
  - done.
  - destruct Hcase as (H1 & H2 & H3 & H4). split_and!; try done.
    + rewrite H4. unfold Pomodoro.workCompleted. cbn [Pomodoro.completedSessions].
      destruct Hf1 as (_ & Hc2 & _). by rewrite Hc2, Hp1.
    + rewrite H4. unfold Pomodoro.workCompleted. cbn [Pomodoro.totalFocusTime].
      destruct Hf1 as (Hc1 & Hc2 & _). by rewrite Hc1, Hc2, Hp1, Hs1.
  - destruct Hcase as (H1 & H2 & H3 & H4). split_and!; try done. by rewrite H4.
  - destruct Hcase as (H1 & H2 & H3 & H4). split_and!; try done. by rewrite H4.
  - done.
Qed.

Lemma work_phase_begins tz clockAt pickAt (w : PomodoroRun.World) (j : nat) :
  PomodoroRun.positive (PomodoroRun.settings w) ->
  let st := PomodoroRun.settings w in
  let wj := PomodoroRun.ticks tz clockAt pickAt (workStart st j)
              (PomodoroRun.start (PomodoroRun.reset w)) in
  PomodoroRun.fresh wj /\
  PomodoroRun.settings wj = st /\
  Pomodoro.timerState (PomodoroRun.state wj) = Pomodoro.Work /\
  Pomodoro.timeLeft (PomodoroRun.state wj) = Pomodoro.pomodoroWork st * 60 /\
  Pomodoro.currentSession (PomodoroRun.state wj) = 1 + Z.of_nat j /\
  Pomodoro.completedSessions (PomodoroRun.stats wj)
  = Pomodoro.completedSessions (PomodoroRun.stats w) + Z.of_nat j /\
  Pomodoro.totalFocusTime (PomodoroRun.stats wj)
  = Pomodoro.totalFocusTime (PomodoroRun.stats w) + Z.of_nat j * Pomodoro.pomodoroWork st.
Proof.
  intros (HW & HB & HL & HN) st. fold st in HW, HB, HL, HN.
  induction j as [|j IH]; intros wj.
  - subst wj. cbn [workStart].
    destruct (start_after_reset w) as (H1 & H2 & H3 & H4).
    replace (PomodoroRun.ticks tz clockAt pickAt 0 (PomodoroRun.start (PomodoroRun.reset w)))
      with (PomodoroRun.start (PomodoroRun.reset w)) by reflexivity.
    rewrite H3, H4. cbn [Pomodoro.timerState Pomodoro.timeLeft Pomodoro.currentSession].
    split_and!; try done; lia.
  - cbn zeta in IH. destruct IH as (Hf & Hs & Hts & Htl & Hcs & Hc & Ht).
    subst wj. cbn [workStart]. rewrite !ticks_add.
    set (w0 := PomodoroRun.ticks tz clockAt pickAt (workStart st j)
                 (PomodoroRun.start (PomodoroRun.reset w))) in *.
    (* the work phase *)
    assert (Hrun : PomodoroRun.running (Pomodoro.timerState (PomodoroRun.state w0)) = true)
      by (by rewrite Hts).
    assert (HT : 1 <= Pomodoro.timeLeft (PomodoroRun.state w0)) by lia.
    pose proof (phase_ends tz clockAt pickAt w0 Hrun Hf HT) as Hend.
    cbn zeta in Hend. rewrite Hts, Htl, Hs, Hcs in Hend.
    set (wb := PomodoroRun.ticks tz clockAt pickAt (Z.to_nat (Pomodoro.pomodoroWork st * 60))
                 w0) in *.
    destruct Hend as (Hfb & Hsb & Hbts & Hbtl & Hbcs & Hbc & Hbt).
    (* the break *)
    assert (Hrunb : PomodoroRun.running (Pomodoro.timerState (PomodoroRun.state wb)) = true).
    { rewrite Hbts. unfold PomodoroRun.breakAfter. by case_match. }
    assert (HTb : 1 <= Pomodoro.timeLeft (PomodoroRun.state wb)).
    { rewrite Hbtl. unfold PomodoroRun.breakSeconds. case_match; lia. }
    pose proof (phase_ends tz clockAt pickAt wb Hrunb Hfb HTb) as Hend.
    cbn zeta in Hend. rewrite Hbtl, Hsb, Hbcs in Hend.
    destruct Hend as (Hfw & Hsw & Hcase).
    assert (Hnext :
      Pomodoro.timerState
        (PomodoroRun.state
           (PomodoroRun.ticks tz clockAt pickAt
              (Z.to_nat (PomodoroRun.breakSeconds st (1 + Z.of_nat j))) wb)) = Pomodoro.Work /\
      Pomodoro.timeLeft
        (PomodoroRun.state
           (PomodoroRun.ticks tz clockAt pickAt
              (Z.to_nat (PomodoroRun.breakSeconds st (1 + Z.of_nat j))) wb))
      = Pomodoro.pomodoroWork st * 60 /\
      Pomodoro.currentSession
        (PomodoroRun.state
           (PomodoroRun.ticks tz clockAt pickAt
              (Z.to_nat (PomodoroRun.breakSeconds st (1 + Z.of_nat j))) wb))
      = 1 + Z.of_nat j + 1 /\
      PomodoroRun.stats
        (PomodoroRun.ticks tz clockAt pickAt
           (Z.to_nat (PomodoroRun.breakSeconds st (1 + Z.of_nat j))) wb)
      = PomodoroRun.stats wb).
    { rewrite Hbts in Hcase. unfold PomodoroRun.breakAfter in Hcase.
      destruct (Pomodoro.rem_is_zero _ _) in Hcase; exact Hcase. }
    destruct Hnext as (Hn1 & Hn2 & Hn3 & Hn4).
    split_and!; [exact Hfw|exact Hsw|exact Hn1|exact Hn2|rewrite Hn3; lia| |].
    + rewrite Hn4, Hbc, Hc. lia.
    + rewrite Hn4, Hbt, Ht. lia.
Qed.

(** X6.  After Reset and Start, whatever the timer did before, the timer
    left to run follows one timeline.  Work phase [j + 1] begins
    [workStart st j] seconds after Start: for the whole work duration the
    timer is in the work state with session number [j + 1], the countdown
    falling by one a second from the full work duration, [j] more sessions
    counted and [j] work durations added to the focus time.  The second the
    work duration is over, the break of that phase begins: the long one
    exactly when [sessionsUntilLongBreak] divides [j + 1], the short one
    otherwise, held for its whole duration, with one more session counted;
    and when it is over work phase [j + 2] begins. *)
Theorem sessions_cycle tz clockAt pickAt (w : PomodoroRun.World) (j : nat) :
  PomodoroRun.positive (PomodoroRun.settings w) ->
  let st := PomodoroRun.settings w in
  let after n := PomodoroRun.ticks tz clockAt pickAt n
                   (PomodoroRun.start (PomodoroRun.reset w)) in
  let m := workStart st j in
  let work := Z.to_nat (Pomodoro.pomodoroWork st * 60) in
  let rest := Z.to_nat (PomodoroRun.breakSeconds st (1 + Z.of_nat j)) in
  (0 < work)%nat /\ (0 < rest)%nat /\
  (forall k, (k < work)%nat ->
     Pomodoro.timerState (PomodoroRun.state (after (k + m)%nat)) = Pomodoro.Work /\
     Pomodoro.timeLeft (PomodoroRun.state (after (k + m)%nat))
     = Pomodoro.pomodoroWork st * 60 - Z.of_nat k /\
     Pomodoro.currentSession (PomodoroRun.state (after (k + m)%nat)) = 1 + Z.of_nat j /\
     Pomodoro.completedSessions (PomodoroRun.stats (after (k + m)%nat))
     = Pomodoro.completedSessions (PomodoroRun.stats w) + Z.of_nat j /\
     Pomodoro.totalFocusTime (PomodoroRun.stats (after (k + m)%nat))
     = Pomodoro.totalFocusTime (PomodoroRun.stats w)
       + Z.of_nat j * Pomodoro.pomodoroWork st) /\
  (forall k, (k < rest)%nat ->
     Pomodoro.timerState (PomodoroRun.state (after (k + (work + m))%nat))
     = PomodoroRun.breakAfter st (1 + Z.of_nat j) /\
     Pomodoro.timeLeft (PomodoroRun.state (after (k + (work + m))%nat))
     = PomodoroRun.breakSeconds st (1 + Z.of_nat j) - Z.of_nat k /\
     Pomodoro.completedSessions (PomodoroRun.stats (after (k + (work + m))%nat))
     = Pomodoro.completedSessions (PomodoroRun.stats w) + Z.of_nat j + 1 /\
     Pomodoro.totalFocusTime (PomodoroRun.stats (after (k + (work + m))%nat))
     = Pomodoro.totalFocusTime (PomodoroRun.stats w)
       + (Z.of_nat j + 1) * Pomodoro.pomodoroWork st) /\
  workStart st (S j) = (rest + (work + m))%nat.
Proof.
  intros Hpos st after m work rest. subst after m work rest st. cbn beta.
  pose proof (work_phase_begins tz clockAt pickAt w j Hpos) as Hbegin.
  cbn zeta in Hbegin. destruct Hbegin as (Hf & Hs & Hts & Htl & Hcs & Hc & Ht).
  destruct Hpos as (HW & HB & HL & HN).
  set (st := PomodoroRun.settings w) in *.
  set (m := workStart st j) in *.
  set (work := Z.to_nat (Pomodoro.pomodoroWork st * 60)) in *.
  set (rest := Z.to_nat (PomodoroRun.breakSeconds st (1 + Z.of_nat j))) in *.
  set (wj := PomodoroRun.ticks tz clockAt pickAt m
               (PomodoroRun.start (PomodoroRun.reset w))) in *.
  assert (Hrun : PomodoroRun.running (Pomodoro.timerState (PomodoroRun.state wj)) = true)
    by (by rewrite Hts).
  assert (HT : 1 <= Pomodoro.timeLeft (PomodoroRun.state wj)) by lia.
  pose proof (phase_ends tz clockAt pickAt wj Hrun Hf HT) as Hend.
  cbn zeta in Hend. rewrite Hts, Htl, Hs, Hcs in Hend. fold work in Hend.
  set (wb := PomodoroRun.ticks tz clockAt pickAt work wj) in *.
  destruct Hend as (Hfb & Hsb & Hbts & Hbtl & Hbcs & Hbc & Hbt).
  assert (Hrest : 1 <= PomodoroRun.breakSeconds st (1 + Z.of_nat j)).
  { unfold PomodoroRun.breakSeconds. case_match; lia. }
  split_and!.
  - subst work. lia.
  - subst rest. lia.
  - intros k Hk. rewrite ticks_add. fold wj.
    rewrite ticks_count_down by (try exact Hrun; rewrite Htl; subst work; lia).
    cbn [PomodoroRun.state PomodoroRun.stats Pomodoro.timerState Pomodoro.timeLeft
         Pomodoro.currentSession].
    rewrite Hts, Htl, Hcs. by split_and!.
  - intros k Hk. rewrite !ticks_add. fold wj. fold wb.
    assert (Hrunb : PomodoroRun.running (Pomodoro.timerState (PomodoroRun.state wb)) = true).
    { rewrite Hbts. unfold PomodoroRun.breakAfter. by case_match. }
    rewrite ticks_count_down by (try exact Hrunb; rewrite Hbtl; subst rest; lia).
    cbn [PomodoroRun.state PomodoroRun.stats Pomodoro.timerState Pomodoro.timeLeft
         Pomodoro.currentSession].
    rewrite Hbts, Hbtl, Hbc, Hbt, Hc, Ht. split_and!; try done; lia.
  - reflexivity.
Qed.

Lemma sessions_cycle_witness :
  let w := PomodoroRun.mkWorld Pomodoro.defaultSettings (Pomodoro.mkStats 7 175 2 None)
             (Pomodoro.mkState 42 Pomodoro.Paused 3 false EmptyString)
             (Pomodoro.mkClosure Pomodoro.defaultSettings (Pomodoro.mkStats 7 175 2 None)
                (Pomodoro.initial Pomodoro.defaultSettings)) 0 in
  let after n := PomodoroRun.ticks (fun _ => 0) (fun _ => 0) (fun _ => 0%nat) n
                   (PomodoroRun.start (PomodoroRun.reset w)) in
  PomodoroRun.positive Pomodoro.defaultSettings /\
  workStart Pomodoro.defaultSettings 3 = (3 * (300 + 1500))%nat /\
  Pomodoro.currentSession
    (PomodoroRun.state (after (0 + workStart Pomodoro.defaultSettings 3)%nat)) = 4 /\
  Pomodoro.timerState
    (PomodoroRun.state
       (after (0 + (Z.to_nat (25 * 60) + workStart Pomodoro.defaultSettings 3))%nat))
  = Pomodoro.LongBreak /\
  Pomodoro.completedSessions
    (PomodoroRun.stats
       (after (0 + (Z.to_nat (25 * 60) + workStart Pomodoro.defaultSettings 3))%nat))
  = 11.
Proof.
  intros w after.
  assert (Hpos : PomodoroRun.positive Pomodoro.defaultSettings)
    by (unfold PomodoroRun.positive; simpl; lia).
  split; [exact Hpos|]. split; [reflexivity|].
  destruct (sessions_cycle (fun _ => 0) (fun _ => 0) (fun _ => 0%nat) w 3 Hpos)
    as (Hwork & Hrest & Hduring & Hbreak & _).
  destruct (Hduring 0%nat Hwork) as (_ & _ & Hcs & _).
  destruct (Hbreak 0%nat Hrest) as (Hts & _ & Hdone & _).
  split_and!; [exact Hcs | exact Hts | exact Hdone].
Defined.

Lemma formatTime_checked_6000 :
  forallb formatTime_checked (upfrom (N.to_nat 6000) 0%N) = true.
Proof. vm_compute. reflexivity. Qed.

(** X7.  For a countdown below 100 minutes [formatTime] shows [MM:SS]:
    five characters from which the number of seconds is read back, so two
    different countdowns are never shown alike. *)
Theorem formatTime_shows_minutes_and_seconds (seconds : Z) :
  0 <= seconds < 6000 ->
  readTime (formatTime seconds) = Some seconds /\
  String.length (formatTime seconds) = 5%nat /\
  (forall other, 0 <= other < 6000 -> formatTime other = formatTime seconds ->
                 other = seconds).
Proof.
  assert (Hread : forall z, 0 <= z < 6000 -> readTime (formatTime z) = Some z).
  { intros z Hz. pose proof formatTime_checked_6000 as Hall.
    rewrite forallb_forall in Hall.
    assert (Hin : In (Z.to_N z) (upfrom (N.to_nat 6000) 0%N))
      by (apply in_upfrom; rewrite N2Nat.id; lia).
    apply Hall, bool_decide_eq_true in Hin. by rewrite Z2N.id in Hin by lia. }
  intros Hs. split; [by apply Hread|]. split.
  - pose proof (Hread seconds Hs) as Hr. unfold readTime in Hr.
    rewrite <- (string_of_list_ascii_of_string (formatTime seconds)).
    destruct (list_ascii_of_string (formatTime seconds)) as [|a [|b [|c [|d [|e [|f l]]]]]];
      try discriminate Hr. reflexivity.
  - intros other Ho Heq. pose proof (Hread other Ho) as Hr.
    rewrite Heq, (Hread seconds Hs) in Hr. by injection Hr.
Qed.

Lemma formatTime_shows_minutes_and_seconds_witness :
  formatTime 1500 = "25:00" /\ readTime (formatTime 1500) = Some 1500.
Proof.
  split; [reflexivity|].
  exact (proj1 (formatTime_shows_minutes_and_seconds 1500 ltac:(lia))).
Defined.

(** * Further properties of the application shell *)

Lemma reduceCount_from (f : Card.t -> option nat) (l : list Card.t) (a : nat) :
  foldl (fun acc card => (acc + default 0 (f card))%nat) a l = (a + reduceCount f l)%nat.
Proof.
  unfold reduceCount. revert a. induction l as [|c l IH]; intros a; simpl; [lia|].
  rewrite (IH (a + _)%nat), (IH (default 0%nat (f c))). lia.
Qed.

Lemma reduceCount_cons (f : Card.t -> option nat) (c : Card.t) (l : list Card.t) :
  reduceCount f (c :: l) = (default 0 (f c) + reduceCount f l)%nat.
Proof. unfold reduceCount at 1. simpl. apply reduceCount_from. Qed.

Lemma reduceCount_app (f : Card.t -> option nat) (l1 l2 : list Card.t) :
  reduceCount f (l1 ++ l2) = (reduceCount f l1 + reduceCount f l2)%nat.
Proof.
  induction l1 as [|c l1 IH]; [reflexivity|].
  rewrite <- app_comm_cons, !reduceCount_cons, IH. lia.
Qed.

(** X8.  The sidebar's card count follows the cards.  Adding a card raises
    the count of its subject by one and that of no other name; after a
    topic is deleted the count under its name is 0; and a card added to a
    topic that [addTopic] has just created goes into that topic: no second
    topic is made, and the topic counts one card more. *)
Theorem cardCount_follows_cards (s : App.State) (clk : App.AddClock) (newCard : Card.t) :
  cardCount (getTopicStats (Card.subject newCard) (App.addFlashcard clk newCard s))
  = S (cardCount (getTopicStats (Card.subject newCard) s)) /\
  (forall n, n <> Card.subject newCard ->
     cardCount (getTopicStats n (App.addFlashcard clk newCard s))
     = cardCount (getTopicStats n s)) /\
  (forall topicId t, App.findById topicId (App.topics s) = Some t ->
     cardCount (getTopicStats (Topic.name t) (App.deleteTopic topicId s)) = 0%nat) /\
  (forall idNow created d,
     Card.subject newCard = App.td_name d ->
     App.topics (App.addFlashcard clk newCard (App.addTopic idNow created d s).1)
     = App.topics (App.addTopic idNow created d s).1 /\
     length (App.topics (App.addTopic idNow created d s).1) = S (length (App.topics s)) /\
     cardCount (getTopicStats (App.td_name d)
                  (App.addFlashcard clk newCard (App.addTopic idNow created d s).1))
     = S (cardCount (getTopicStats (App.td_name d) s))).
Proof.
  assert (Hcards : forall s0,
    App.flashcards (App.addFlashcard clk newCard s0)
    = App.flashcards s0 ++
      [Card.mk (App.toString (App.cardIdNow clk)) (Card.question newCard)
         (Card.answer newCard) (Card.subject newCard) (Card.difficulty newCard)
         (Some (App.reviewedNow clk)) (Some 0%nat) (Some 0%nat)]).
  { intros s0. unfold App.addFlashcard, App.addFlashcard_in.
    by destruct (App.findByName _ _). }
  assert (Hcount : forall s0,
    cardCount (getTopicStats (Card.subject newCard) (App.addFlashcard clk newCard s0))
    = S (cardCount (getTopicStats (Card.subject newCard) s0))).
  { intros s0. unfold getTopicStats. cbn [cardCount]. rewrite Hcards, filter_app.
    rewrite filter_cons_True by reflexivity. rewrite filter_nil, length_app. simpl. lia. }
  split_and!.
  - apply Hcount.
  - intros n Hn. unfold getTopicStats. cbn [cardCount]. rewrite Hcards, filter_app.
    rewrite filter_cons_False by (simpl; congruence). by rewrite filter_nil, app_nil_r.
  - intros topicId t Hfind. unfold getTopicStats. cbn [cardCount].
    unfold App.deleteTopic, App.deleteTopic_in. rewrite Hfind.
    assert (Hnone : filter (fun card => Card.subject card = Topic.name t)
                      (filter (fun c => Card.subject c ≠ Topic.name t) (App.flashcards s))
                    = []).
    { induction (App.flashcards s) as [|c l IH]; [reflexivity|].
      rewrite filter_cons. case_decide; [|exact IH].
      by rewrite filter_cons_False. }
    case_bool_decide; cbn [App.flashcards App.setActiveTopic App.setTopics App.setFlashcards];
      by rewrite Hnone.
  - intros idNow created d Hsubj.
    split_and!.
    + unfold App.addFlashcard, App.addFlashcard_in, App.addTopic. cbn [fst].
      cbn [App.setActiveTopic App.setTopics App.topics].
      unfold App.findByName. rewrite find_append.
      destruct (List.find _ (App.topics s)); [reflexivity|].
      cbn [List.find Topic.name]. by rewrite bool_decide_eq_true_2.
    + unfold App.addTopic. cbn [fst App.setActiveTopic App.setTopics App.topics].
      rewrite length_app. simpl. lia.
    + rewrite <- Hsubj, Hcount. reflexivity.
Qed.


Lemma replace_absent (u : Card.t) (l : list Card.t) :
  Card.id u ∉ Card.id <$> l ->
  (fun card => if bool_decide (Card.id card = Card.id u) then u else card) <$> l = l.
Proof.
  induction l as [|x l IH]; intros Hn; [reflexivity|].
  rewrite fmap_cons in Hn. apply not_elem_of_cons in Hn as [Hx Hl].
  rewrite fmap_cons, IH by exact Hl.
  rewrite bool_decide_eq_false_2 by congruence. reflexivity.
Qed.

Lemma reduceCount_replace (f : Card.t -> option nat) (n : string) (c u : Card.t)
    (l : list Card.t) :
  NoDup (Card.id <$> l) -> c ∈ l ->
  Card.id u = Card.id c -> Card.subject u = Card.subject c ->
  (reduceCount f
     (filter (fun card => Card.subject card = n)
        ((fun card => if bool_decide (Card.id card = Card.id u) then u else card) <$> l))
   + (if bool_decide (Card.subject c = n) then default 0 (f c) else 0)
   = reduceCount f (filter (fun card => Card.subject card = n) l)
     + (if bool_decide (Card.subject c = n) then default 0 (f u) else 0))%nat /\
  length (filter (fun card => Card.subject card = n)
            ((fun card => if bool_decide (Card.id card = Card.id u) then u else card) <$> l))
  = length (filter (fun card => Card.subject card = n) l).
Proof.
  intros Hnd Hc Hid Hsubj.
  induction l as [|x l IH]; [by apply elem_of_nil in Hc|].
  rewrite fmap_cons in Hnd. apply NoDup_cons in Hnd as [Hx Hnd].
  apply elem_of_cons in Hc as [->|Hc].
  - rewrite fmap_cons, bool_decide_eq_true_2 by congruence.
    rewrite replace_absent by (by rewrite Hid).
    rewrite !filter_cons, Hsubj.
    case_bool_decide as Hn.
    + rewrite !decide_True by exact Hn. rewrite !reduceCount_cons. simpl. lia.
    + rewrite !decide_False by exact Hn. split; [lia|reflexivity].
  - assert (Hne : Card.id x <> Card.id u).
    { intros He. apply Hx. rewrite He, Hid. by apply list_elem_of_fmap_2. }
    rewrite fmap_cons, bool_decide_eq_false_2 by exact Hne.
    destruct (IH Hnd Hc) as [IH1 IH2].
    rewrite !filter_cons. destruct (decide (Card.subject x = n)).
    + rewrite !reduceCount_cons. simpl. lia.
    + split; [exact IH1 | exact IH2].
Qed.

(** X9.  Judging a card in quiz mode shows in the sidebar: with distinct
    card identifiers, handing [markAnswer]'s card to [updateFlashcard]
    raises the answered total of the card's subject by exactly one (the
    correct total for a correct answer, the incorrect total otherwise),
    changes the totals of no other name, and changes no card count. *)
Theorem judged_answer_reaches_topic_totals (now : Date) (ok : bool) (c : Card.t)
    (s : App.State) (n : string) :
  NoDup (Card.id <$> App.flashcards s) ->
  c ∈ App.flashcards s ->
  let s' := App.updateFlashcard (Deck.updatedCard now ok c) s in
  cardCount (getTopicStats n s') = cardCount (getTopicStats n s) /\
  totalCorrect (getTopicStats n s')
  = (totalCorrect (getTopicStats n s)
     + (if bool_decide (Card.subject c = n) then (if ok then 1 else 0) else 0))%nat /\
  totalIncorrect (getTopicStats n s')
  = (totalIncorrect (getTopicStats n s)
     + (if bool_decide (Card.subject c = n) then (if ok then 0 else 1) else 0))%nat.
Proof.
  intros Hnd Hc s'. subst s'.
  unfold getTopicStats, App.updateFlashcard.
  cbn [cardCount totalCorrect totalIncorrect App.flashcards App.setFlashcards].
  destruct (reduceCount_replace Card.correctCount n c (Deck.updatedCard now ok c)
              (App.flashcards s) Hnd Hc eq_refl eq_refl) as [Hcorrect Hlen].
  destruct (reduceCount_replace Card.incorrectCount n c (Deck.updatedCard now ok c)
              (App.flashcards s) Hnd Hc eq_refl eq_refl) as [Hincorrect _].
  split_and!; [exact Hlen| |].
  - revert Hcorrect. case_bool_decide; destruct ok;
      cbn [Deck.updatedCard Card.correctCount default]; unfold id; lia.
  - revert Hincorrect. case_bool_decide; destruct ok;
      cbn [Deck.updatedCard Card.incorrectCount default]; unfold id; lia.
Qed.

Lemma judged_answer_reaches_topic_totals_witness :
  let s := App.mkState []
             [Card.mk "1" "2+2?" "4" "Math" None None (Some 2%nat) None;
              Card.mk "2" "3*3?" "9" "Math" None None None (Some 1%nat)] None in
  totalCorrect
    (getTopicStats "Math"
       (App.updateFlashcard
          (Deck.updatedCard 0 true (Card.mk "2" "3*3?" "9" "Math" None None None (Some 1%nat)))
          s))
  = 3%nat.
Proof.
  intros s.
  assert (Hnd : NoDup (Card.id <$> App.flashcards s)).
  { compute_done. }
  assert (Hc : Card.mk "2" "3*3?" "9" "Math" None None None (Some 1%nat) ∈ App.flashcards s).
  { compute_done. }
  destruct (judged_answer_reaches_topic_totals 0 true _ s "Math" Hnd Hc) as (_ & Hcorrect & _).
  exact Hcorrect.
Defined.

(** X10.  [updateFlashcard] and [deleteFlashcard] look cards up by
    identifier and do nothing for an identifier no card has: the state is
    unchanged.  [updateFlashcard] never adds, removes or reorders cards (the
    list of identifiers stays the same), and with distinct identifiers
    [deleteFlashcard] removes exactly the one card with the identifier. *)
Theorem card_edits_by_identifier (u : Card.t) (cardId : string) (s : App.State) :
  (Card.id u ∉ Card.id <$> App.flashcards s -> App.updateFlashcard u s = s) /\
  (cardId ∉ Card.id <$> App.flashcards s -> App.deleteFlashcard cardId s = s) /\
  Card.id <$> App.flashcards (App.updateFlashcard u s) = Card.id <$> App.flashcards s /\
  (NoDup (Card.id <$> App.flashcards s) ->
   forall c, c ∈ App.flashcards s -> Card.id c = cardId ->
     length (App.flashcards s) = S (length (App.flashcards (App.deleteFlashcard cardId s))) /\
     forall x, x ∈ App.flashcards (App.deleteFlashcard cardId s)
               <-> x ∈ App.flashcards s /\ x <> c).
Proof.
  destruct s as [ts cs a].
  unfold App.updateFlashcard, App.deleteFlashcard, App.setFlashcards.
  cbn [App.flashcards App.topics App.activeTopic].
  split_and!.
  - intros Hn. by rewrite replace_absent.
  - intros Hn. f_equal. induction cs as [|x cs IH]; [reflexivity|].
    rewrite fmap_cons in Hn. apply not_elem_of_cons in Hn as [Hx Hl].
    rewrite filter_cons_True by congruence. by rewrite IH.
  - induction cs as [|x cs IH]; [reflexivity|].
    rewrite !fmap_cons, IH. by case_bool_decide as Hx; [rewrite Hx|].
  - intros Hnd c Hc Hid.
    induction cs as [|x cs IH]; [by apply elem_of_nil in Hc|].
    rewrite fmap_cons in Hnd. apply NoDup_cons in Hnd as [Hx Hnd].
    assert (Habsent : forall l : list Card.t, cardId ∉ Card.id <$> l ->
              filter (fun c0 => Card.id c0 ≠ cardId) l = l).
    { intros l. induction l as [|y l IHl]; intros Hn; [reflexivity|].
      rewrite fmap_cons in Hn. apply not_elem_of_cons in Hn as [Hy Hl].
      rewrite filter_cons_True by congruence. by rewrite IHl. }
    apply elem_of_cons in Hc as [->|Hc].
    + rewrite filter_cons_False by (intros Hne; by apply Hne).
      rewrite Habsent by (by rewrite <- Hid).
      split; [reflexivity|]. intros y. rewrite elem_of_cons. split.
      * intros Hy. split; [by right|]. intros ->. apply Hx. by apply list_elem_of_fmap_2.
      * intros [[->|Hy] Hne]; [done|exact Hy].
    + assert (Hne : Card.id x <> cardId).
      { intros He. apply Hx. rewrite He, <- Hid. by apply list_elem_of_fmap_2. }
      rewrite filter_cons_True by exact Hne.
      destruct (IH Hnd Hc) as [IH1 IH2]. split; [simpl; lia|].
      intros y. rewrite !elem_of_cons, IH2. split.
      * intros [->|[Hy Hyc]]; [|by split; [right|]].
        split; [by left|]. intros ->. by apply Hne.
      * intros [[->|Hy] Hyc]; [by left|by right].
Qed.

Lemma card_edits_by_identifier_witness :
  let s := App.mkState []
             [Card.mk "1" "2+2?" "4" "Math" None None None None;
              Card.mk "2" "3*3?" "9" "Math" None None None None] None in
  App.updateFlashcard (Card.mk "7" "q" "a" "Math" None None None None) s = s /\
  length (App.flashcards s) = S (length (App.flashcards (App.deleteFlashcard "2" s))).
Proof.
  intros s.
  destruct (card_edits_by_identifier (Card.mk "7" "q" "a" "Math" None None None None) "2" s)
    as (Hupd & _ & _ & Hdel).
  split.
  - apply Hupd. compute_done.
  - assert (Hnd : NoDup (Card.id <$> App.flashcards s)).
    { compute_done. }
    assert (Hc : Card.mk "2" "3*3?" "9" "Math" None None None None ∈ App.flashcards s).
    { compute_done. }
    exact (proj1 (Hdel Hnd _ Hc eq_refl)).
Defined.

(** * The sign-in flow *)

Lemma auth_handle_ok saved (ok : string -> string -> Prop) (ev : Auth.Event)
    (h : Auth.History) :
  (forall e u, ev = Auth.NewUserLogin e u \/ ev = Auth.ExistingUserLogin e u -> ok e u) ->
  Forall (auth_ok saved ok) (Auth.now h :: Auth.earlier h) ->
  auth_ok saved ok (Auth.handle ev h).
Proof.
  intros Hev Hall.
  assert (Hnow : auth_ok saved ok (Auth.now h)) by (by apply Forall_cons in Hall as [? _]).
  destruct Hnow as (H1 & H2 & H3 & H4).
  destruct ev as [e u|e u|age| | | |]; unfold Auth.handle.
  - unfold auth_ok; cbn. split_and!; try done.
    + intros e' u' [= <- <-]. apply Hev. by left.
  - unfold auth_ok; cbn. split_and!; try done.
    + intros e' u' [= <- <-]. apply Hev. by right.
  - set (snap := default _ _).
    assert (Hsnap : auth_ok saved ok snap).
    { subst snap. destruct (_ !! age) as [x|] eqn:Hx; cbn.
      - rewrite Forall_forall in Hall. apply Hall. by apply list_elem_of_lookup_2 in Hx.
      - by split_and!. }
    unfold Auth.handleConfirmation_in.
    destruct (Auth.pendingAuth snap) as [[e u]|] eqn:Hp; [|by split_and!].
    destruct Hsnap as (_ & _ & S3 & _).
    unfold auth_ok; cbn. split_and!; try done.
    intros usr [= <-]. right. cbn. split; [by apply S3|reflexivity].
  - unfold auth_ok; cbn. split_and!; done.
  - unfold auth_ok; cbn. split_and!; done.
  - unfold auth_ok; cbn. split_and!; done.
  - unfold auth_ok; cbn. split_and!; done.
Qed.

Lemma auth_run_ok saved (ok : string -> string -> Prop) (evs : list Auth.Event)
    (h : Auth.History) :
  (forall e u, Auth.submitted evs e u -> ok e u) ->
  Forall (auth_ok saved ok) (Auth.now h :: Auth.earlier h) ->
  Forall (auth_ok saved ok)
    (Auth.now (foldl Auth.step h evs) :: Auth.earlier (foldl Auth.step h evs)).
Proof.
  revert h. induction evs as [|ev evs IH]; intros h Hev Hall; [exact Hall|].
  cbn [foldl]. apply IH.
  - intros e u [Hs|Hs]; apply Hev; [left|right]; by apply elem_of_cons; right.
  - unfold Auth.step. cbn [Auth.now Auth.earlier].
    apply Forall_cons. split; [|exact Hall].
    apply auth_handle_ok; [|exact Hall].
    intros e u [-> | ->]; apply Hev; [left|right]; by apply elem_of_cons; left.
Qed.

(** X11.  The study screens are only ever rendered for a signed-in user.
    Starting from the mount effect and whatever the order in which the
    sign-in handlers are called (the pages call them after a delay, so also
    late, and [handleConfirmation] possibly from an earlier render): when
    App renders the main screen there is a user, and that user is the one
    restored from storage or carries the e-mail address and name of a
    submitted sign-in form; the confirmation page is shown exactly in the
    confirmation step. *)
Theorem main_screen_has_a_user (saved : option Auth.User) (evs : list Auth.Event) :
  let s := Auth.now (Auth.run evs (Auth.restore saved Auth.initial)) in
  (Auth.screen s = Auth.MainApp ->
   exists usr, Auth.user s = Some usr /\
     (saved = Some usr \/
      (Auth.submitted evs (Auth.email usr) (Auth.username usr) /\
       Auth.isLoggedIn usr = true))) /\
  (Auth.screen s = Auth.ConfirmationPage <-> Auth.authStep s = Auth.confirmation).
Proof.
  intros s.
  assert (Hall : Forall (auth_ok saved (Auth.submitted evs))
                   (Auth.now (Auth.run evs (Auth.restore saved Auth.initial))
                    :: Auth.earlier (Auth.run evs (Auth.restore saved Auth.initial)))).
  { apply auth_run_ok; [done|].
    apply Forall_cons. split; [|by apply Forall_nil].
    destruct saved as [usr|]; unfold auth_ok; cbn; split_and!; try done.
    intros usr' [= <-]. by left. }
  apply Forall_cons in Hall as [(H1 & H2 & H3 & H4) _]. fold s in H1, H2, H3, H4.
  split.
  - intros Hscreen.
    assert (Hstep : Auth.authStep s = Auth.authenticated).
    { unfold Auth.screen in Hscreen.
      destruct (Auth.authStep s) eqn:Hs; try done.
      destruct (Auth.pendingAuth s) eqn:Hp; [done|]. by destruct H1. }
    destruct (Auth.user s) as [usr|] eqn:Hu; [|by destruct (H2 Hstep)].
    exists usr. split; [reflexivity|]. by apply H4.
  - unfold Auth.screen. split.
    + by destruct (Auth.authStep s).
    + intros Hs. rewrite Hs. destruct (Auth.pendingAuth s) eqn:Hp; [done|].
      by destruct (H1 Hs).
Qed.


(** * The flashcards tab of the edit-topic dialog *)

Lemma find_card_by_id (c : Card.t) (l : list Card.t) :
  NoDup (Card.id <$> l) -> c ∈ l ->
  List.find (fun x => bool_decide (Card.id x = Card.id c)) l = Some c.
Proof.
  induction l as [|x l IH]; intros Hnd Hc; [by apply elem_of_nil in Hc|].
  rewrite fmap_cons in Hnd. apply NoDup_cons in Hnd as [Hx Hnd].
  apply elem_of_cons in Hc as [->|Hc]; simpl.
  - by rewrite bool_decide_eq_true_2.
  - rewrite bool_decide_eq_false_2; [by apply IH|].
    intros He. apply Hx. rewrite He. by apply list_elem_of_fmap_2.
Qed.

Lemma NoDup_ids_filter (P : Card.t -> Prop) `{!forall c, Decision (P c)} (l : list Card.t) :
  NoDup (Card.id <$> l) -> NoDup (Card.id <$> filter P l).
Proof.
  induction l as [|x l IH]; intros Hnd; [exact Hnd|].
  rewrite fmap_cons in Hnd. apply NoDup_cons in Hnd as [Hx Hnd].
  rewrite filter_cons. case_decide; [|by apply IH].
  rewrite fmap_cons. apply NoDup_cons. split; [|by apply IH].
  intros Hin. apply Hx. by eapply ids_of_filter.
Qed.

Lemma replace_same (c : Card.t) (l : list Card.t) :
  NoDup (Card.id <$> l) -> c ∈ l ->
  (fun card => if bool_decide (Card.id card = Card.id c) then c else card) <$> l = l.
Proof.
  induction l as [|x l IH]; intros Hnd Hc; [reflexivity|].
  rewrite fmap_cons in Hnd. apply NoDup_cons in Hnd as [Hx Hnd].
  rewrite fmap_cons. apply elem_of_cons in Hc as [->|Hc].
  - rewrite bool_decide_eq_true_2 by reflexivity. f_equal. by apply replace_absent.
  - rewrite IH by done. rewrite bool_decide_eq_false_2; [reflexivity|].
    intros He. apply Hx. rewrite He. by apply list_elem_of_fmap_2.
Qed.

Lemma addFlashcard_flashcards (clk : App.AddClock) (newCard : Card.t) (s : App.State) :
  App.flashcards (App.addFlashcard clk newCard s)
  = App.flashcards s ++
    [Card.mk (App.toString (App.cardIdNow clk)) (Card.question newCard)
       (Card.answer newCard) (Card.subject newCard) (Card.difficulty newCard)
       (Some (App.reviewedNow clk)) (Some 0%nat) (Some 0%nat)].
Proof.
  unfold App.addFlashcard, App.addFlashcard_in. by destruct (App.findByName _ _).
Qed.

(** X12.  Saving an edited card changes that card only, and only its
    text and difficulty.  With distinct card identifiers and the dialog
    open on the card's topic, [saveCardEdit] hands [updateFlashcard] the
    card with the trimmed question and answer and the chosen difficulty;
    subject, identifier, review date and counters are kept, so no topic's
    card count or totals move.  With a blank question or answer nothing is
    saved and the editor stays open.  Opening a card and saving it untouched
    gives back the state, provided its text is trimmed and it has a
    difficulty. *)
Theorem saveCardEdit_edits_one_card (trim : string -> string) (s : App.State)
    (t : Topic.t) (nm col ic : string) (f0 : CardEditor.Form) (c : Card.t)
    (q a : string) (d : Difficulty) :
  NoDup (Card.id <$> App.flashcards s) ->
  c ∈ App.flashcards s ->
  Card.subject c = Topic.name t ->
  Card.id c <> "" ->
  let m := EditTopicModal.open t s nm col ic in
  let f := CardEditor.mkForm (Some (Card.id c)) q a d (CardEditor.showAddCard f0)
             (CardEditor.newQuestion f0) (CardEditor.newAnswer f0)
             (CardEditor.newDifficulty f0) in
  let edited := Card.mk (Card.id c) (trim q) (trim a) (Card.subject c) (Some d)
                  (Card.lastReviewed c) (Card.correctCount c) (Card.incorrectCount c) in
  (trim q <> "" -> trim a <> "" ->
   CardEditor.saveCardEdit trim m f s
   = (App.updateFlashcard edited s, CardEditor.cancelCardEdit f) /\
   (forall i x, App.flashcards s !! i = Some x ->
      App.flashcards (CardEditor.saveCardEdit trim m f s).1 !! i
      = Some (if bool_decide (x = c) then edited else x)) /\
   (forall n,
      cardCount (getTopicStats n (CardEditor.saveCardEdit trim m f s).1)
      = cardCount (getTopicStats n s) /\
      totalCorrect (getTopicStats n (CardEditor.saveCardEdit trim m f s).1)
      = totalCorrect (getTopicStats n s) /\
      totalIncorrect (getTopicStats n (CardEditor.saveCardEdit trim m f s).1)
      = totalIncorrect (getTopicStats n s))) /\
  (trim q = "" \/ trim a = "" -> CardEditor.saveCardEdit trim m f s = (s, f)) /\
  (trim (Card.question c) = Card.question c -> trim (Card.answer c) = Card.answer c ->
   Card.question c <> "" -> Card.answer c <> "" ->
   Card.difficulty c <> None ->
   (CardEditor.saveCardEdit trim m (CardEditor.startEditingCard c f0) s).1 = s).
Proof.
  intros Hnd Hc Hsubj Hid m f edited. subst f.
  assert (Hcm : c ∈ EditTopicModal.flashcards m).
  { subst m. unfold EditTopicModal.open, App.cardsOf. cbn [EditTopicModal.flashcards].
    apply list_elem_of_filter. split; [by rewrite Hsubj | exact Hc]. }
  assert (Hndm : NoDup (Card.id <$> EditTopicModal.flashcards m)).
  { subst m. unfold EditTopicModal.open, App.cardsOf. cbn [EditTopicModal.flashcards].
    by apply NoDup_ids_filter. }
  assert (Hfind : List.find (fun x => bool_decide (Card.id x = Card.id c))
                    (EditTopicModal.flashcards m) = Some c)
    by (by apply find_card_by_id).
  assert (Hsave : forall q' a' d', trim q' <> "" -> trim a' <> "" ->
    CardEditor.saveCardEdit trim m
      (CardEditor.mkForm (Some (Card.id c)) q' a' d' (CardEditor.showAddCard f0)
         (CardEditor.newQuestion f0) (CardEditor.newAnswer f0)
         (CardEditor.newDifficulty f0)) s
    = (App.updateFlashcard
         (Card.mk (Card.id c) (trim q') (trim a') (Card.subject c) (Some d')
            (Card.lastReviewed c) (Card.correctCount c) (Card.incorrectCount c)) s,
       CardEditor.cancelCardEdit
         (CardEditor.mkForm (Some (Card.id c)) q' a' d' (CardEditor.showAddCard f0)
            (CardEditor.newQuestion f0) (CardEditor.newAnswer f0)
            (CardEditor.newDifficulty f0)))).
  { intros q' a' d' Hq Ha. unfold CardEditor.saveCardEdit.
    cbn [CardEditor.editingCard CardEditor.editingQuestion CardEditor.editingAnswer
         CardEditor.editingDifficulty].
    rewrite bool_decide_eq_true_2 by done. by rewrite Hfind. }
  split_and!.
  - intros Hq Ha. rewrite (Hsave q a d Hq Ha). fold edited. cbn [fst].
    split_and!; [reflexivity| |].
    + intros i x Hx. unfold App.updateFlashcard. cbn [App.flashcards App.setFlashcards].
      rewrite list_lookup_fmap, Hx. cbn. f_equal.
      case_bool_decide as Hi; case_bool_decide as Hxc; try done.
      * exfalso. apply Hxc. apply list_elem_of_lookup_2 in Hx.
        pose proof (find_card_by_id x _ Hnd Hx) as F1.
        pose proof (find_card_by_id c _ Hnd Hc) as F2.
        cbn [Card.id edited] in Hi. rewrite Hi in F1. congruence.
      * by subst x.
    + intros n. unfold getTopicStats, App.updateFlashcard.
      cbn [cardCount totalCorrect totalIncorrect App.flashcards App.setFlashcards].
      destruct (reduceCount_replace Card.correctCount n c edited
                  (App.flashcards s) Hnd Hc eq_refl eq_refl) as [Hcorrect Hlen].
      destruct (reduceCount_replace Card.incorrectCount n c edited
                  (App.flashcards s) Hnd Hc eq_refl eq_refl) as [Hincorrect _].
      cbn [edited Card.correctCount Card.incorrectCount] in Hcorrect, Hincorrect.
      split_and!; [exact Hlen|lia|lia].
  - intros Hblank. unfold CardEditor.saveCardEdit. cbn [CardEditor.editingCard].
    rewrite bool_decide_eq_false_2; [reflexivity|].
    cbn [CardEditor.editingQuestion CardEditor.editingAnswer].
    intros (_ & Hq & Ha). by destruct Hblank.
  - intros Hq Ha Hq0 Ha0 Hd.
    destruct (Card.difficulty c) as [d'|] eqn:Hdc; [|done].
    unfold CardEditor.startEditingCard. rewrite Hdc. cbn [default from_option id].
    rewrite Hsave by (by rewrite ?Hq, ?Ha). cbn [fst].
    rewrite Hq, Ha, <- Hdc.
    replace (Card.mk _ _ _ _ _ _ _ _) with c by (by destruct c).
    unfold App.updateFlashcard, App.setFlashcards. rewrite replace_same by done.
    by destruct s.
Qed.

Lemma saveCardEdit_edits_one_card_witness :
  let c := Card.mk "2" "3*3?" "9" "Math" (Some easy) None (Some 4%nat) (Some 1%nat) in
  let s := App.mkState [Topic.mk "10" "Math" "#2563EB" "M" None None]
             [Card.mk "1" "2+2?" "4" "Math" None None None None; c] (Some "10") in
  App.flashcards
    (CardEditor.saveCardEdit (fun x => x)
       (EditTopicModal.open (Topic.mk "10" "Math" "#2563EB" "M" None None) s "Math" "" "")
       (CardEditor.mkForm (Some "2") "3*4?" "12" hard false "" "" medium) s).1
  = [Card.mk "1" "2+2?" "4" "Math" None None None None;
     Card.mk "2" "3*4?" "12" "Math" (Some hard) None (Some 4%nat) (Some 1%nat)].
Proof.
  intros c s.
  assert (Hnd : NoDup (Card.id <$> App.flashcards s)) by compute_done.
  assert (Hc : c ∈ App.flashcards s) by compute_done.
  destruct (saveCardEdit_edits_one_card (fun x => x) s
              (Topic.mk "10" "Math" "#2563EB" "M" None None) "Math" "" ""
              CardEditor.initial c "3*4?" "12" hard Hnd Hc eq_refl)
    as (Hsave & _); [discriminate|].
  destruct Hsave as (Heq & _); [discriminate|discriminate|].
  cbn [CardEditor.initial CardEditor.showAddCard CardEditor.newQuestion
       CardEditor.newAnswer CardEditor.newDifficulty Card.id c] in Heq.
  rewrite Heq. reflexivity.
Defined.

(** X13.  A card added in the dialog goes to the topic named in the
    dialog's name field, not to the topic the dialog was opened on.  While
    the field holds the topic's name the card is added to that topic and no
    topic is made.  After the name was edited without saving, the card
    goes to the typed (trimmed) name: when no topic bears it (also when it
    is blank) a topic of that name is appended and made active, and the
    edited topic's card count does not move.  With a blank question or
    answer nothing is added. *)
Theorem handleAddNewCard_goes_by_form_name (trim : string -> string) (now : Date)
    (clk : App.AddClock) (s : App.State) (t : Topic.t) (nm col ic : string)
    (f : CardEditor.Form) :
  t ∈ App.topics s ->
  let m := EditTopicModal.open t s nm col ic in
  let s' := (CardEditor.handleAddNewCard trim now clk m f s).1 in
  (trim (CardEditor.newQuestion f) <> "" -> trim (CardEditor.newAnswer f) <> "" ->
   App.flashcards s'
   = App.flashcards s ++
     [Card.mk (App.toString (App.cardIdNow clk)) (trim (CardEditor.newQuestion f))
        (trim (CardEditor.newAnswer f)) (trim nm) (Some (CardEditor.newDifficulty f))
        (Some (App.reviewedNow clk)) (Some 0%nat) (Some 0%nat)] /\
   (trim nm = Topic.name t ->
    App.topics s' = App.topics s /\ App.activeTopic s' = App.activeTopic s /\
    cardCount (getTopicStats (Topic.name t) s')
    = S (cardCount (getTopicStats (Topic.name t) s))) /\
   (App.findByName (trim nm) (App.topics s) = None ->
    length (App.topics s') = S (length (App.topics s)) /\
    (Topic.name <$> last (App.topics s')) = Some (trim nm) /\
    App.activeTopic s' = Some (App.toString (App.topicIdNow clk)) /\
    cardCount (getTopicStats (Topic.name t) s')
    = cardCount (getTopicStats (Topic.name t) s))) /\
  (trim (CardEditor.newQuestion f) = "" \/ trim (CardEditor.newAnswer f) = "" ->
   CardEditor.handleAddNewCard trim now clk m f s = (s, f)).
Proof.
  intros Ht m s'. split.
  - intros Hq Ha.
    assert (Hs' : s' = App.addFlashcard clk
                    (Card.mk "" (trim (CardEditor.newQuestion f))
                       (trim (CardEditor.newAnswer f)) (trim nm)
                       (Some (CardEditor.newDifficulty f)) (Some now)
                       (Some 0%nat) (Some 0%nat)) s).
    { subst s'. unfold CardEditor.handleAddNewCard.
      by rewrite bool_decide_eq_true_2 by done. }
    assert (Hcards : App.flashcards s'
       = App.flashcards s ++
         [Card.mk (App.toString (App.cardIdNow clk)) (trim (CardEditor.newQuestion f))
            (trim (CardEditor.newAnswer f)) (trim nm) (Some (CardEditor.newDifficulty f))
            (Some (App.reviewedNow clk)) (Some 0%nat) (Some 0%nat)]).
    { rewrite Hs'. apply addFlashcard_flashcards. }
    split_and!; [exact Hcards| |].
    + intros Hnm.
      destruct (App.findByName (trim nm) (App.topics s)) as [t0|] eqn:Hfind.
      * split_and!.
        -- rewrite Hs'. unfold App.addFlashcard, App.addFlashcard_in.
           cbn [Card.subject]. by rewrite Hfind.
        -- rewrite Hs'. unfold App.addFlashcard, App.addFlashcard_in.
           cbn [Card.subject]. by rewrite Hfind.
        -- unfold getTopicStats. cbn [cardCount]. rewrite Hcards, filter_app.
           rewrite filter_cons_True by (by cbn [Card.subject]).
           rewrite filter_nil, length_app. simpl. lia.
      * exfalso. rewrite findByName_None in Hfind. by apply (Hfind t Ht).
    + intros Hfind. split_and!.
      * rewrite Hs'. unfold App.addFlashcard, App.addFlashcard_in.
        cbn [Card.subject]. rewrite Hfind.
        cbn [App.addTopic App.setActiveTopic App.setTopics App.setFlashcards App.topics].
        rewrite length_app. simpl. lia.
      * rewrite Hs'. unfold App.addFlashcard, App.addFlashcard_in.
        cbn [Card.subject]. rewrite Hfind.
        cbn [App.addTopic App.setActiveTopic App.setTopics App.setFlashcards App.topics].
        by rewrite last_snoc.
      * rewrite Hs'. unfold App.addFlashcard, App.addFlashcard_in.
        cbn [Card.subject]. by rewrite Hfind.
      * unfold getTopicStats. cbn [cardCount]. rewrite Hcards, filter_app.
        rewrite filter_cons_False; [by rewrite filter_nil, app_nil_r|].
        cbn [Card.subject]. rewrite findByName_None in Hfind.
        intros He. by apply (Hfind t Ht).
  - intros Hblank. unfold CardEditor.handleAddNewCard.
    rewrite bool_decide_eq_false_2; [reflexivity|].
    intros (Hq & Ha). by destruct Hblank.
Qed.

Lemma handleAddNewCard_goes_by_form_name_witness :
  let math := Topic.mk "10" "Math" "#2563EB" "M" None None in
  let s := App.mkState [math] [] (Some "10") in
  let s' := (CardEditor.handleAddNewCard (fun x => x) 5 (App.mkAddClock 6 7 8 9)
               (EditTopicModal.open math s "Algebra" "" "")
               (CardEditor.mkForm None "" "" medium true "x+x?" "2x" easy) s).1 in
  (Topic.name <$> App.topics s') = ["Math"; "Algebra"] /\
  cardCount (getTopicStats "Math" s') = 0%nat.
Proof.
  intros math s s'.
  assert (Ht : math ∈ App.topics s) by compute_done.
  destruct (handleAddNewCard_goes_by_form_name (fun x => x) 5 (App.mkAddClock 6 7 8 9)
              s math "Algebra" "" "" (CardEditor.mkForm None "" "" medium true "x+x?" "2x" easy)
              Ht) as (Hadd & _).
  destruct Hadd as (_ & _ & Hnew); [discriminate|discriminate|].
  destruct Hnew as (_ & _ & _ & Hcount); [reflexivity|].
  split; [reflexivity | exact Hcount].
Defined.


(** * Sharing a topic, and topics of one name *)

Lemma reduceCount_imap (f : Card.t -> option nat) (g : nat -> Card.t -> Card.t)
    (l : list Card.t) :
  (forall k c, f (g k c) = f c) -> reduceCount f (imap g l) = reduceCount f l.
Proof.
  revert g. induction l as [|x l IH]; intros g Hg; [reflexivity|].
  rewrite imap_cons, !reduceCount_cons, Hg, IH; [reflexivity|].
  intros k c. apply Hg.
Qed.

Lemma reduceCount_fmap (f : Card.t -> option nat) (g : Card.t -> Card.t)
    (l : list Card.t) :
  (forall c, f (g c) = f c) -> reduceCount f (g <$> l) = reduceCount f l.
Proof.
  intros Hg. induction l as [|x l IH]; [reflexivity|].
  by rewrite fmap_cons, !reduceCount_cons, Hg, IH.
Qed.

Lemma filter_all (P : Card.t -> Prop) `{!forall c, Decision (P c)} (l : list Card.t) :
  Forall P l -> filter P l = l.
Proof.
  induction 1 as [|x l Hx _ IH]; [reflexivity|].
  by rewrite filter_cons_True, IH.
Qed.

Lemma cardsOf_spec (n : string) (l : list Card.t) :
  App.cardsOf (Some n) l = filter (fun card => Card.subject card = n) l.
Proof.
  unfold App.cardsOf. induction l as [|x l IH]; [reflexivity|].
  rewrite !filter_cons, IH.
  destruct (decide (Some (Card.subject x) = Some n)) as [He|He];
    destruct (decide (Card.subject x = n)) as [He'|He']; try reflexivity.
  - by injection He.
  - by subst n.
Qed.

(** X14.  A share link carries the topic with the sender's review
    history.  When the link's parameter decodes to the payload that the
    share dialog built for the sender's active topic, and the topic list
    that [loadSharedTopic] reads has no topic of that name, the receiver
    gets one more topic (same name, colour and icon, marked public, a new
    identifier, made active) and one card per shared card, with the same
    questions, answers and difficulties, in the same order; nothing is
    logged.  The counters are not reset: under the topic's name the
    receiver's card count and totals of correct and incorrect answers grow
    by the sender's. *)
Theorem shared_topic_arrives_with_its_history
    (JSON_parse : string -> option App.SharedData) (sender snap s : App.State)
    (now : Z) (cardNow : nat -> Z) (suffix : nat -> string) (param : string)
    (payload : App.SharedData) :
  ShareModal.payloadOf sender = Some payload ->
  param <> "" ->
  Base64.atob param ≫= JSON_parse = Some payload ->
  App.findByName (Topic.name (App.shared_topic payload)) (App.topics snap) = None ->
  let n := Topic.name (App.shared_topic payload) in
  let r := App.loadFromUrl JSON_parse snap now cardNow suffix (Some param) s in
  r.2 = [] /\
  (exists t, App.activeTopicData sender = Some t /\ Topic.name t = n /\
     App.topics r.1
     = App.topics s ++
       [Topic.mk (App.toString now) n (Topic.color t) (Topic.icon t) (Topic.createdAt t)
          (Some true)]) /\
  App.activeTopic r.1 = Some (App.toString now) /\
  App.flashcards s = take (length (App.flashcards s)) (App.flashcards r.1) /\
  Card.question <$> drop (length (App.flashcards s)) (App.flashcards r.1)
  = Card.question <$> App.activeFlashcards sender /\
  Card.answer <$> drop (length (App.flashcards s)) (App.flashcards r.1)
  = Card.answer <$> App.activeFlashcards sender /\
  Card.difficulty <$> drop (length (App.flashcards s)) (App.flashcards r.1)
  = Card.difficulty <$> App.activeFlashcards sender /\
  cardCount (getTopicStats n r.1)
  = (cardCount (getTopicStats n s) + cardCount (getTopicStats n sender))%nat /\
  totalCorrect (getTopicStats n r.1)
  = (totalCorrect (getTopicStats n s) + totalCorrect (getTopicStats n sender))%nat /\
  totalIncorrect (getTopicStats n r.1)
  = (totalIncorrect (getTopicStats n s) + totalIncorrect (getTopicStats n sender))%nat.
Proof.
  intros Hpay Hparam Hdecode Hguard n r.
  unfold ShareModal.payloadOf in Hpay.
  destruct (App.activeTopicData sender) as [t|] eqn:Ht; [|discriminate].
  cbn in Hpay. injection Hpay as <-.
  assert (Hn : n = Topic.name t) by reflexivity. clearbody n. subst n.
  assert (Hact : App.activeFlashcards sender
                 = filter (fun card => Card.subject card = Topic.name t)
                     (App.flashcards sender)).
  { unfold App.activeFlashcards. rewrite Ht. cbn [fmap option_fmap option_map].
    apply cardsOf_spec. }
  set (shared := (fun card => Card.mk "" (Card.question card) (Card.answer card)
                     (Card.subject card) (Card.difficulty card) (Card.lastReviewed card)
                     (Card.correctCount card) (Card.incorrectCount card))
                   <$> App.activeFlashcards sender).
  set (newCards := imap (fun k card =>
                      Card.with_id_subject card (App.toString (cardNow k) +:+ suffix k)
                        (Topic.name t)) shared).
  assert (Hr : r = (App.mkState
                      (App.topics s ++
                       [Topic.mk (App.toString now) (Topic.name t) (Topic.color t)
                          (Topic.icon t) (Topic.createdAt t) (Some true)])
                      (App.flashcards s ++ newCards)
                      (Some (App.toString now)), [])).
  { subst r. unfold App.loadFromUrl. rewrite bool_decide_eq_false_2 by exact Hparam.
    rewrite Hdecode. unfold App.loadSharedTopic_in.
    cbn [ShareModal.shareData App.shared_topic App.shared_flashcards Topic.name] in *.
    by rewrite Hguard. }
  assert (Hq : forall (B : Type) (g : Card.t -> B),
            (forall c i sub, g (Card.with_id_subject c i sub) = g c) ->
            (forall c, g (Card.mk "" (Card.question c) (Card.answer c) (Card.subject c)
                            (Card.difficulty c) (Card.lastReviewed c)
                            (Card.correctCount c) (Card.incorrectCount c)) = g c) ->
            g <$> newCards = g <$> App.activeFlashcards sender).
  { intros B g Hg1 Hg2. subst newCards shared.
    rewrite fmap_imap, imap_fmap.
    rewrite <- (imap_const g (App.activeFlashcards sender)).
    apply imap_ext. intros k c _. cbn. by rewrite Hg1, Hg2. }
  assert (Hsub : Forall (fun card => Card.subject card = Topic.name t) newCards).
  { apply Forall_forall. intros c Hc. subst newCards.
    apply list_elem_of_lookup in Hc as [k Hk].
    rewrite list_lookup_imap in Hk.
    destruct (shared !! k); [|discriminate]. by injection Hk as <-. }
  assert (Hfilter : filter (fun card => Card.subject card = Topic.name t) (App.flashcards r.1)
                    = filter (fun card => Card.subject card = Topic.name t) (App.flashcards s)
                      ++ newCards).
  { rewrite Hr. cbn [fst App.flashcards]. rewrite filter_app. f_equal.
    by apply filter_all. }
  assert (Hcount : forall f : Card.t -> option nat,
            (forall c i sub, f (Card.with_id_subject c i sub) = f c) ->
            (forall c, f (Card.mk "" (Card.question c) (Card.answer c) (Card.subject c)
                            (Card.difficulty c) (Card.lastReviewed c)
                            (Card.correctCount c) (Card.incorrectCount c)) = f c) ->
            reduceCount f newCards
            = reduceCount f (filter (fun card => Card.subject card = Topic.name t)
                               (App.flashcards sender))).
  { intros f Hf1 Hf2. subst newCards shared. rewrite reduceCount_imap by (intros; apply Hf1).
    rewrite <- Hact. by apply reduceCount_fmap. }
  split_and!.
  - by rewrite Hr.
  - exists t. split_and!; [reflexivity|reflexivity|by rewrite Hr].
  - by rewrite Hr.
  - rewrite Hr. cbn [fst App.flashcards]. by rewrite take_app_length.
  - rewrite Hr. cbn [fst App.flashcards]. rewrite drop_app_length. by apply Hq.
  - rewrite Hr. cbn [fst App.flashcards]. rewrite drop_app_length. by apply Hq.
  - rewrite Hr. cbn [fst App.flashcards]. rewrite drop_app_length. by apply Hq.
  - unfold getTopicStats at 1 2 3. cbn [cardCount]. rewrite Hfilter, length_app.
    f_equal. subst newCards shared. rewrite length_imap, length_fmap. by rewrite Hact.
  - unfold getTopicStats. cbn [totalCorrect]. rewrite Hfilter, reduceCount_app.
    f_equal. by apply Hcount.
  - unfold getTopicStats. cbn [totalIncorrect]. rewrite Hfilter, reduceCount_app.
    f_equal. by apply Hcount.
Qed.

Lemma shared_topic_arrives_with_its_history_witness :
  let math := Topic.mk "10" "Math" "#2563EB" "M" None None in
  let sender := App.mkState [math]
                  [Card.mk "1" "2+2?" "4" "Math" None None (Some 5%nat) (Some 2%nat)]
                  (Some "10") in
  let payload := ShareModal.shareData math (App.activeFlashcards sender) in
  totalCorrect
    (getTopicStats "Math"
       (App.loadFromUrl (fun _ => Some payload) App.initial 77 (fun _ => 78)
          (fun _ => "abc") (Some "e30=") App.initial).1)
  = 5%nat.
Proof.
  intros math sender payload.
  destruct (shared_topic_arrives_with_its_history (fun _ => Some payload) sender
              App.initial App.initial 77 (fun _ => 78) (fun _ => "abc") "e30=" payload)
    as (_ & _ & _ & _ & _ & _ & _ & _ & Hcorrect & _);
    [reflexivity | discriminate | reflexivity | reflexivity |].
  exact Hcorrect.
Defined.

Lemma no_card_left (n : string) (l : list Card.t) :
  filter (fun card => Card.subject card = n) (filter (fun c => Card.subject c ≠ n) l) = [].
Proof.
  induction l as [|c l IH]; [reflexivity|].
  rewrite filter_cons. case_decide; [|exact IH].
  by rewrite filter_cons_False.
Qed.

Lemma findById_absent (i : string) (l : list Topic.t) :
  i ∉ Topic.id <$> l ->
  App.findById i l = None /\ filter (fun t => Topic.id t ≠ i) l = l.
Proof.
  unfold App.findById. induction l as [|x l IH]; intros Hn; [done|].
  rewrite fmap_cons in Hn. apply not_elem_of_cons in Hn as [Hx Hl].
  destruct (IH Hl) as [IH1 IH2]. simpl.
  rewrite bool_decide_eq_false_2 by congruence.
  rewrite filter_cons_True by congruence. by rewrite IH2.
Qed.

(** X15.  [addTopic] does not look at the names in use, and cards belong
    to a topic by name.  Adding a topic (under an identifier not in use)
    and deleting it again gives back the topic list, but removes every card
    whose subject is the new topic's name: the card list is given back only
    when no card had that subject, and a topic that already bore the name
    stays in the list with no card left.  The active topic becomes the
    first topic. *)
Theorem addTopic_then_deleteTopic (idNow : Z) (created : Date) (d : App.TopicData)
    (s : App.State) :
  App.toString idNow ∉ Topic.id <$> App.topics s ->
  let s1 := (App.addTopic idNow created d s).1 in
  let s2 := App.deleteTopic (App.addTopic idNow created d s).2 s1 in
  length (App.topics s1) = S (length (App.topics s)) /\
  App.topics s2 = App.topics s /\
  App.flashcards s2 = filter (fun c => Card.subject c ≠ App.td_name d) (App.flashcards s) /\
  App.activeTopic s2 = (Topic.id <$> head (App.topics s)) /\
  ((forall c, c ∈ App.flashcards s -> Card.subject c <> App.td_name d) ->
   App.flashcards s2 = App.flashcards s) /\
  (forall t0, App.findByName (App.td_name d) (App.topics s) = Some t0 ->
     t0 ∈ App.topics s2 /\ cardCount (getTopicStats (Topic.name t0) s2) = 0%nat).
Proof.
  intros Hfresh s1 s2.
  destruct (findById_absent _ _ Hfresh) as [Hnone Hkeep].
  assert (Hs2 : s2 = App.mkState (App.topics s)
                       (filter (fun c => Card.subject c ≠ App.td_name d) (App.flashcards s))
                       (Topic.id <$> head (App.topics s))).
  { subst s2 s1. unfold App.deleteTopic, App.deleteTopic_in, App.addTopic.
    cbn [fst snd App.setActiveTopic App.setTopics App.topics App.flashcards
         App.activeTopic Topic.id].
    unfold App.findById in *. rewrite find_append, Hnone.
    cbn [List.find Topic.id]. rewrite bool_decide_eq_true_2 by reflexivity.
    rewrite bool_decide_eq_true_2 by reflexivity.
    cbn [App.setActiveTopic App.setTopics App.setFlashcards App.topics App.flashcards
         App.activeTopic Topic.name].
    rewrite filter_app, Hkeep.
    rewrite filter_cons_False by (cbn [Topic.id]; intros Hne; by apply Hne).
    rewrite filter_nil, app_nil_r.
    unfold App.setActiveTopic, App.setTopics, App.setFlashcards.
    cbn [App.topics App.flashcards App.activeTopic]. rewrite filter_app, Hkeep.
    rewrite filter_cons_False by (cbn [Topic.id]; intros Hne; by apply Hne).
    by rewrite filter_nil, app_nil_r. }
  split_and!.
  - subst s1. unfold App.addTopic. cbn [fst App.setActiveTopic App.setTopics App.topics].
    rewrite length_app. simpl. lia.
  - by rewrite Hs2.
  - by rewrite Hs2.
  - by rewrite Hs2.
  - intros Hno. rewrite Hs2. cbn [App.flashcards].
    apply filter_all. apply Forall_forall. exact Hno.
  - intros t0 Hfind. apply findByName_Some in Hfind as [Hin Hname].
    rewrite Hs2. split; [exact Hin|].
    unfold getTopicStats. cbn [cardCount App.flashcards]. rewrite Hname.
    by rewrite no_card_left.
Qed.

Lemma addTopic_then_deleteTopic_witness :
  let s := App.mkState [Topic.mk "10" "Math" "#2563EB" "M" None None]
             [Card.mk "1" "2+2?" "4" "Math" None None None None] (Some "10") in
  let d := App.mkTopicData "Math" "#DC2626" "X" None in
  App.topics (App.deleteTopic (App.addTopic 11 0 d s).2 (App.addTopic 11 0 d s).1)
  = App.topics s /\
  App.flashcards (App.deleteTopic (App.addTopic 11 0 d s).2 (App.addTopic 11 0 d s).1)
  = [].
Proof.
  intros s d.
  assert (Hfresh : App.toString 11 ∉ Topic.id <$> App.topics s) by compute_done.
  destruct (addTopic_then_deleteTopic 11 0 d s Hfresh) as (_ & Htopics & Hcards & _).
  split; [exact Htopics | rewrite Hcards; reflexivity].
Defined.


(** * Every card stays under a topic *)

Lemma covered_mono (ts ts' : list Topic.t) (c : Card.t) :
  (forall t, t ∈ ts -> t ∈ ts') -> Library.covered ts c -> Library.covered ts' c.
Proof. intros Hsub (t & Ht & Hn). exists t. split; [by apply Hsub | exact Hn]. Qed.

Lemma topic_by_id (ts : list Topic.t) (t t' : Topic.t) :
  NoDup (Topic.id <$> ts) -> t ∈ ts -> t' ∈ ts -> Topic.id t = Topic.id t' -> t = t'.
Proof.
  induction ts as [|x ts IH]; intros Hnd Ht Ht' Hid; [by apply elem_of_nil in Ht|].
  rewrite fmap_cons in Hnd. apply NoDup_cons in Hnd as [Hx Hnd].
  apply elem_of_cons in Ht as [->|Ht]; apply elem_of_cons in Ht' as [->|Ht'].
  - reflexivity.
  - exfalso. apply Hx. rewrite Hid. by apply list_elem_of_fmap_2.
  - exfalso. apply Hx. rewrite <- Hid. by apply list_elem_of_fmap_2.
  - by apply IH.
Qed.

Lemma NoDup_topic_ids_filter (P : Topic.t -> Prop) `{!forall t, Decision (P t)}
    (ts : list Topic.t) :
  NoDup (Topic.id <$> ts) -> NoDup (Topic.id <$> filter P ts).
Proof.
  induction ts as [|x ts IH]; intros Hnd; [exact Hnd|].
  rewrite fmap_cons in Hnd. apply NoDup_cons in Hnd as [Hx Hnd].
  rewrite filter_cons. case_decide; [|by apply IH].
  rewrite fmap_cons. apply NoDup_cons. split; [|by apply IH].
  intros Hin. apply Hx. apply list_elem_of_fmap in Hin as (t & -> & Ht).
  apply list_elem_of_filter in Ht as [_ Ht]. by apply list_elem_of_fmap_2.
Qed.

Lemma wellFormed_new_topic (ts : list Topic.t) (cs : list Card.t) (a a' : option string)
    (new : Topic.t) (more : list Card.t) :
  Library.wellFormed (App.mkState ts cs a) ->
  Topic.id new ∉ Topic.id <$> ts ->
  (forall c, c ∈ more -> Card.subject c = Topic.name new) ->
  Library.wellFormed (App.mkState (ts ++ [new]) (cs ++ more) a').
Proof.
  intros [Hnd Hcov] Hfresh Hmore. split; cbn [App.topics App.flashcards] in *.
  - rewrite fmap_app. apply NoDup_app. split_and!; [exact Hnd| |apply NoDup_singleton].
    intros i Hi Hnew. apply list_elem_of_singleton in Hnew. by subst i.
  - intros c Hc. apply elem_of_app in Hc as [Hc|Hc].
    + eapply covered_mono; [|by apply Hcov]. intros t Ht. apply elem_of_app. by left.
    + exists new. split; [apply elem_of_app; right; by apply list_elem_of_singleton|].
      symmetry. by apply Hmore.
Qed.

Lemma wellFormed_cards (ts : list Topic.t) (cs cs' : list Card.t) (a a' : option string) :
  Library.wellFormed (App.mkState ts cs a) ->
  (forall c, c ∈ cs' -> Library.covered ts c) ->
  Library.wellFormed (App.mkState ts cs' a').
Proof. intros [Hnd _] Hcov. by split. Qed.

Lemma wellFormed_updateFlashcard (u : Card.t) (s : App.State) :
  Library.wellFormed s -> Library.covered (App.topics s) u ->
  Library.wellFormed (App.updateFlashcard u s).
Proof.
  destruct s as [ts cs a]. intros Hwf Hu.
  unfold App.updateFlashcard, App.setFlashcards. cbn [App.topics App.flashcards App.activeTopic].
  eapply wellFormed_cards; [exact Hwf|].
  intros c Hc. apply list_elem_of_fmap in Hc as (x & -> & Hx).
  case_bool_decide; [exact Hu|]. destruct Hwf as [_ Hcov]. by apply Hcov.
Qed.

Lemma wellFormed_addFlashcard (clk : App.AddClock) (newCard : Card.t) (s : App.State) :
  Library.wellFormed s ->
  App.toString (App.topicIdNow clk) ∉ Topic.id <$> App.topics s ->
  Library.wellFormed (App.addFlashcard clk newCard s).
Proof.
  destruct s as [ts cs a]. intros Hwf Hfresh.
  unfold App.addFlashcard, App.addFlashcard_in. cbn [App.topics] in *.
  destruct (App.findByName (Card.subject newCard) ts) as [t0|] eqn:Hfind.
  - unfold App.setFlashcards. cbn [App.topics App.flashcards App.activeTopic].
    eapply wellFormed_cards; [exact Hwf|].
    intros c Hc. apply elem_of_app in Hc as [Hc|Hc].
    + destruct Hwf as [_ Hcov]. by apply Hcov.
    + apply list_elem_of_singleton in Hc. subst c.
      apply findByName_Some in Hfind as [Hin Hname]. by exists t0.
  - unfold App.addTopic, App.setActiveTopic, App.setTopics, App.setFlashcards.
    cbn [App.topics App.flashcards App.activeTopic Topic.id App.td_name].
    eapply wellFormed_new_topic; [exact Hwf|exact Hfresh|].
    intros c Hc. apply list_elem_of_singleton in Hc. by subst c.
Qed.

Lemma wellFormed_deleteTopic (topicId : string) (s : App.State) :
  Library.wellFormed s -> Library.wellFormed (App.deleteTopic topicId s).
Proof.
  destruct s as [ts cs a]. intros Hwf.
  unfold App.deleteTopic, App.deleteTopic_in. cbn [App.topics App.activeTopic].
  destruct (App.findById topicId ts) as [t|] eqn:Hfind; [|exact Hwf].
  apply findById_Some in Hfind as [Ht Hid].
  assert (Hgoal : forall a',
    Library.wellFormed
      (App.mkState (filter (fun t0 => Topic.id t0 ≠ topicId) ts)
         (filter (fun c => Card.subject c ≠ Topic.name t) cs) a')).
  { intros a'. destruct Hwf as [Hnd Hcov]. cbn [App.topics App.flashcards] in *. split.
    - by apply NoDup_topic_ids_filter.
    - cbn [App.topics App.flashcards]. intros c Hc.
      apply list_elem_of_filter in Hc as [Hsub Hc].
      destruct (Hcov c Hc) as (t' & Ht' & Hn). exists t'. split; [|exact Hn].
      apply list_elem_of_filter. split; [|exact Ht'].
      intros Hid'. apply Hsub. rewrite <- Hn. f_equal.
      apply (topic_by_id ts); [done..|]. by rewrite Hid, Hid'. }
  case_bool_decide; apply Hgoal.
Qed.

Lemma rewritten_cards (nm : string) (m cs : list Card.t) (z : Card.t) :
  z ∈ foldl (rewriteStep nm) cs m ->
  Card.subject z = nm \/
  (z ∈ cs /\ forall y, y ∈ m -> Card.id y = Card.id z -> Card.subject y = nm).
Proof.
  revert cs. induction m as [|y m IH]; intros cs Hz; cbn [foldl] in Hz.
  - right. split; [exact Hz|]. intros y Hy. by apply elem_of_nil in Hy.
  - apply IH in Hz as [Hz|[Hz Hm]]; [by left|].
    unfold rewriteStep in Hz. case_bool_decide as Hy.
    + apply list_elem_of_fmap in Hz as (x & -> & Hx).
      case_bool_decide as Hxy; [by left|].
      right. split; [exact Hx|]. intros y' Hy' Hid.
      apply elem_of_cons in Hy' as [->|Hy']; [by destruct Hxy|by apply Hm].
    + right. split; [exact Hz|]. intros y' Hy' Hid.
      apply elem_of_cons in Hy' as [->|Hy']; [|by apply Hm].
      destruct (decide (Card.subject y = nm)); [done|]. by destruct Hy.
Qed.

Lemma wellFormed_handleSaveTopicDetails (trim : string -> string) (t : Topic.t)
    (nm col ic : string) (s : App.State) :
  Library.wellFormed s -> t ∈ App.topics s ->
  Library.wellFormed
    (EditTopicModal.handleSaveTopicDetails trim (EditTopicModal.open t s nm col ic) s).
Proof.
  destruct s as [ts cs a]. intros [Hnd Hcov] Ht. cbn [App.topics App.flashcards] in *.
  unfold EditTopicModal.handleSaveTopicDetails.
  cbn [EditTopicModal.open EditTopicModal.topicName EditTopicModal.topic
       EditTopicModal.flashcards EditTopicModal.selectedColor EditTopicModal.selectedIcon].
  case_bool_decide as Hnm; [by split|].
  rewrite save_loop_on_cards.
  unfold App.updateTopic, App.setTopics. cbn [App.topics App.flashcards App.activeTopic].
  set (u := App.mkUpdates None (Some (trim nm)) (Some col) (Some ic) None None).
  split; cbn [App.topics App.flashcards].
  - rewrite <- list_fmap_compose.
    erewrite list_fmap_ext; [exact Hnd|].
    intros i x _. cbn. by case_bool_decide.
  - intros z Hz.
    assert (Hnew : Library.covered
              ((fun t0 => if bool_decide (Topic.id t0 = Topic.id t)
                          then App.merge t0 u else t0) <$> ts)
              (Card.with_subject z (trim nm))).
    { exists (App.merge t u). split; [|reflexivity].
      apply list_elem_of_fmap. exists t. split; [|exact Ht].
      by rewrite bool_decide_eq_true_2. }
    apply rewritten_cards in Hz as [Hz|[Hz Hm]].
    + destruct Hnew as (t1 & Ht1 & Hn1). exists t1. split; [exact Ht1|].
      by rewrite Hn1, Hz.
    + destruct (Hcov z Hz) as (t' & Ht' & Hn').
      destruct (decide (Topic.id t' = Topic.id t)) as [Hid|Hid].
      * assert (t' = t) by (by apply (topic_by_id ts)). subst t'.
        assert (Hzm : z ∈ App.cardsOf (Some (Topic.name t)) cs).
        { unfold App.cardsOf. apply list_elem_of_filter. split; [by rewrite Hn'|exact Hz]. }
        pose proof (Hm z Hzm eq_refl) as Hsub.
        destruct Hnew as (t1 & Ht1 & Hn1). exists t1. split; [exact Ht1|].
        by rewrite Hn1, Hsub.
      * exists t'. split; [|exact Hn'].
        apply list_elem_of_fmap. exists t'. split; [|exact Ht'].
        by rewrite bool_decide_eq_false_2.
Qed.

Lemma wellFormed_loadSharedTopic (snap : App.State) (now : Z) (cardNow : nat -> Z)
    (suffix : nat -> string) (d : App.SharedData) (s : App.State) :
  Library.wellFormed s ->
  App.toString now ∉ Topic.id <$> App.topics s ->
  Library.wellFormed (App.loadSharedTopic_in snap now cardNow suffix d s).
Proof.
  destruct s as [ts cs a]. intros Hwf Hfresh. unfold App.loadSharedTopic_in.
  destruct (App.findByName _ _); [exact Hwf|].
  unfold App.setActiveTopic, App.setTopics, App.setFlashcards.
  cbn [App.topics App.flashcards App.activeTopic Topic.id] in *.
  eapply wellFormed_new_topic; [exact Hwf|exact Hfresh|].
  intros c Hc. apply list_elem_of_lookup in Hc as [k Hk].
  rewrite list_lookup_imap in Hk.
  destruct (App.shared_flashcards d !! k); [|discriminate]. by injection Hk as <-.
Qed.

Lemma wellFormed_step (trim : string -> string) (op : Library.Op) (s : App.State) :
  Library.wellFormed s -> Library.fresh op s -> Library.wellFormed (Library.step trim op s).
Proof.
  intros Hwf Hfresh. unfold Library.fresh in Hfresh.
  destruct op as [idNow created d|clk newCard|topicId|cardId|now ok k|e nm col ic
                 |e nm col ic f|e nm col ic now clk f|snap now cardNow suffix d|];
    cbn [Library.step Library.clockOf] in *.
  - destruct s as [ts cs a]. unfold App.addTopic, App.setActiveTopic, App.setTopics.
    cbn [fst App.topics App.flashcards App.activeTopic Topic.id] in *.
    rewrite <- (app_nil_r cs).
    eapply wellFormed_new_topic; [exact Hwf|by apply Hfresh|].
    intros c Hc. by apply elem_of_nil in Hc.
  - apply wellFormed_addFlashcard; [exact Hwf|by apply Hfresh].
  - by apply wellFormed_deleteTopic.
  - destruct s as [ts cs a]. unfold App.deleteFlashcard, App.setFlashcards.
    cbn [App.topics App.flashcards App.activeTopic].
    eapply wellFormed_cards; [exact Hwf|].
    intros c Hc. apply list_elem_of_filter in Hc as [_ Hc].
    destruct Hwf as [_ Hcov]. by apply Hcov.
  - destruct (App.activeFlashcards s !! k) as [c|] eqn:Hk; [|exact Hwf].
    apply wellFormed_updateFlashcard; [exact Hwf|].
    apply list_elem_of_lookup_2 in Hk. unfold App.activeFlashcards, App.cardsOf in Hk.
    apply list_elem_of_filter in Hk as [_ Hc].
    destruct Hwf as [_ Hcov]. exact (Hcov c Hc).
  - unfold Library.editing.
    destruct (App.findById e (App.topics s)) as [t|] eqn:Hfind; [|exact Hwf].
    cbn. apply findById_Some in Hfind as [Ht _].
    by apply wellFormed_handleSaveTopicDetails.
  - unfold Library.editing.
    destruct (App.findById e (App.topics s)) as [t|] eqn:Hfind; [|exact Hwf].
    cbn [fmap option_fmap option_map]. unfold CardEditor.saveCardEdit.
    destruct (CardEditor.editingCard f) as [cardId|]; [|exact Hwf].
    case_bool_decide; [|exact Hwf]. cbn [fst].
    destruct (List.find _ _) as [cardToEdit|] eqn:Hcard; [|exact Hwf].
    apply wellFormed_updateFlashcard; [exact Hwf|].
    apply find_some in Hcard as [Hin _]. apply list_elem_of_In in Hin.
    unfold EditTopicModal.open, App.cardsOf in Hin. cbn [EditTopicModal.flashcards] in Hin.
    apply list_elem_of_filter in Hin as [_ Hin].
    destruct Hwf as [_ Hcov]. exact (Hcov cardToEdit Hin).
  - unfold Library.editing.
    destruct (App.findById e (App.topics s)) as [t|] eqn:Hfind; [|exact Hwf].
    cbn [fmap option_fmap option_map]. unfold CardEditor.handleAddNewCard.
    case_bool_decide; [|exact Hwf]. cbn [fst].
    apply wellFormed_addFlashcard; [exact Hwf|by apply Hfresh].
  - apply wellFormed_loadSharedTopic; [exact Hwf|by apply Hfresh].
  - split; cbn; [apply NoDup_nil_2|]. intros c Hc. by apply elem_of_nil in Hc.
Qed.

(** X16.  No call leaves a card without a topic.  From study data in
    which topic identifiers are distinct and every card's subject is the
    name of a topic (the empty data of a new user, for one), and while the
    clock readings used for new topic identifiers are not identifiers in
    use, every sequence of the calls the screens make (adding, deleting,
    judging, the edit dialog's three save actions, importing, signing out)
    keeps it so: topic identifiers stay distinct and every card stays
    listed under some topic of the sidebar. *)
Theorem every_card_stays_under_a_topic (trim : string -> string) (ops : list Library.Op)
    (s : App.State) :
  Library.wellFormed s ->
  Library.clocksFresh trim ops s ->
  NoDup (Topic.id <$> App.topics (Library.run trim ops s)) /\
  forall c, c ∈ App.flashcards (Library.run trim ops s) ->
    exists t, t ∈ App.topics (Library.run trim ops s) /\ Topic.name t = Card.subject c /\
              (1 <= cardCount (getTopicStats (Topic.name t) (Library.run trim ops s)))%nat.
Proof.
  intros Hwf Hfresh.
  assert (Hrun : Library.wellFormed (Library.run trim ops s)).
  { revert s Hwf Hfresh. induction ops as [|op ops IH]; intros s Hwf Hfresh; [exact Hwf|].
    destruct Hfresh as [Hop Hrest]. cbn [Library.run]. apply IH; [|exact Hrest].
    by apply wellFormed_step. }
  destruct Hrun as [Hnd Hcov]. split; [exact Hnd|].
  intros c Hc. destruct (Hcov c Hc) as (t & Ht & Hn).
  exists t. split_and!; [exact Ht|exact Hn|].
  unfold getTopicStats. cbn [cardCount].
  assert (Hin : c ∈ filter (fun card => Card.subject card = Topic.name t)
                     (App.flashcards (Library.run trim ops s)))
    by (by apply list_elem_of_filter).
  destruct (filter _ _); [by apply elem_of_nil in Hin|simpl; lia].
Qed.

Lemma every_card_stays_under_a_topic_witness :
  let ops := [Library.AddCard (App.mkAddClock 1 2 3 4)
                (Card.mk "" "2+2?" "4" "Math" None None None None);
              Library.SaveTopic "3" " Algebra " "#DC2626" "X";
              Library.Judge 9 true 0;
              Library.AddTopic 5 6 (App.mkTopicData "Art" "#10B981" "A" None);
              Library.DeleteTopic "5"] in
  (Card.subject <$> App.flashcards (Library.run (fun x => x) ops App.initial))
  = [" Algebra "] /\
  exists t, t ∈ App.topics (Library.run (fun x => x) ops App.initial)
            /\ Topic.name t = " Algebra ".
Proof.
  intros ops.
  assert (Hwf : Library.wellFormed App.initial).
  { split; [apply NoDup_nil_2|]. intros c Hc. by apply elem_of_nil in Hc. }
  assert (Hfresh : Library.clocksFresh (fun x => x) ops App.initial).
  { cbn. unfold Library.fresh. cbn.
    split_and!; try done; intros z [= <-]; compute_done. }
  destruct (every_card_stays_under_a_topic (fun x => x) ops App.initial Hwf Hfresh)
    as [_ Hcov].
  split; [reflexivity|].
  destruct (Hcov (Card.mk "1" "2+2?" "4" " Algebra " None (Some 9) (Some 1%nat) (Some 0%nat)))
    as (t & Ht & Hn & _); [compute_done|].
  exists t. by split.
Defined.


(** * The confirmation page *)

Lemma lastChar_box (value : string) :
  ConfirmationPage.allDigits value = true ->
  ConfirmationPage.box (Some (ConfirmationPage.lastChar value)).
Proof.
  unfold ConfirmationPage.allDigits, ConfirmationPage.lastChar. intros Hall.
  destruct (last (list_ascii_of_string value)) as [c|] eqn:Hlast; [|by left].
  right. exists c. split; [|reflexivity].
  apply last_Some in Hlast as [l' Hl]. rewrite Hl, forallb_app in Hall.
  apply andb_true_iff in Hall as [_ Hc]. simpl in Hc. by rewrite andb_true_r in Hc.
Qed.

Lemma pasted_box (text : string) (i : nat) :
  ConfirmationPage.box
    (Some (match ConfirmationPage.pastedCode text !! i with
           | Some c => String c ""
           | None => ""
           end)).
Proof.
  destruct (ConfirmationPage.pastedCode text !! i) as [c|] eqn:Hc; [|by left].
  right. exists c. split; [|reflexivity].
  apply list_elem_of_lookup_2 in Hc. unfold ConfirmationPage.pastedCode in Hc.
  apply elem_of_take in Hc as (j & Hj & _). apply list_elem_of_lookup_2 in Hj.
  by apply list_elem_of_filter in Hj as [Hd _].
Qed.

Lemma six_boxes (l : list (option string)) :
  length l = 6%nat -> Forall ConfirmationPage.box l ->
  forall s, ConfirmationPage.code s = l ->
    ConfirmationPage.submits s = ConfirmationPage.isComplete s.
Proof.
  intros Hlen Hall s Hs.
  unfold ConfirmationPage.submits, ConfirmationPage.isComplete, ConfirmationPage.fullCode.
  rewrite Hs. clear Hs.
  do 7 (destruct l as [|? l]; try discriminate).
  repeat match goal with
         | H : Forall _ (_ :: _) |- _ => apply Forall_cons in H as [[->|(? & _ & ->)] H]
         end; reflexivity.
Qed.

(** X17.  The six boxes of the confirmation page.  Whatever the user
    types or pastes into them, presses Resend or waits: there are always
    six boxes, each empty or holding one digit; the Verify button is enabled
    exactly when submitting goes on to [onConfirm] (all six boxes filled,
    nothing else is checked); the countdown stays between 0 and 60, and
    Resend is enabled exactly when it has reached 0.  Pasting a text with at
    least six digits fills the boxes with its first six. *)
Theorem six_digit_boxes (evs : list ConfirmationPage.Event) :
  let s := ConfirmationPage.run evs in
  length (ConfirmationPage.code s) = 6%nat /\
  Forall ConfirmationPage.box (ConfirmationPage.code s) /\
  ConfirmationPage.submits s = ConfirmationPage.isComplete s /\
  0 <= ConfirmationPage.timeLeft s <= 60 /\
  (ConfirmationPage.canResend s = true <-> ConfirmationPage.timeLeft s = 0) /\
  (forall text,
     (6 <= length (filter (fun c => ConfirmationPage.isDigit c = true)
                     (list_ascii_of_string text)))%nat ->
     ConfirmationPage.fullCode (ConfirmationPage.handlePaste text s)
     = string_of_list_ascii (ConfirmationPage.pastedCode text) /\
     ConfirmationPage.submits (ConfirmationPage.handlePaste text s) = true).
Proof.
  intros s.
  assert (Hinv : length (ConfirmationPage.code s) = 6%nat /\
                 Forall ConfirmationPage.box (ConfirmationPage.code s) /\
                 0 <= ConfirmationPage.timeLeft s <= 60 /\
                 (ConfirmationPage.canResend s = true <-> ConfirmationPage.timeLeft s = 0)).
  { subst s. unfold ConfirmationPage.run.
    induction evs as [|ev evs IH] using rev_ind.
    - cbn. split_and!; [reflexivity| |lia|lia|by split].
      repeat (apply Forall_cons; split; [by left|]). apply Forall_nil_2.
    - rewrite foldl_app. cbn [foldl].
      set (s := foldl ConfirmationPage.step ConfirmationPage.initial evs) in *.
      destruct IH as (Hlen & Hall & Htime & Hresend).
      destruct ev as [index value|text| |]; cbn [ConfirmationPage.step].
      + case_decide as Hi; [|split_and!; first [assumption|lia]].
        unfold ConfirmationPage.handleInputChange.
        destruct (ConfirmationPage.allDigits value) eqn:Hv;
          [|split_and!; first [assumption|lia]].
        unfold ConfirmationPage.assign. rewrite decide_True by exact Hi.
        cbn. split_and!; [by rewrite length_insert| |lia|lia|exact Hresend].
        apply Forall_insert; [exact Hall|]. by apply lastChar_box.
      + unfold ConfirmationPage.handlePaste. cbn.
        destruct (ConfirmationPage.code s) as [|a [|b [|c [|d [|e [|f [|g l]]]]]]];
          try discriminate.
        cbn. split_and!; [reflexivity| |lia|lia|exact Hresend].
        repeat (apply Forall_cons; split; [apply pasted_box|]). apply Forall_nil_2.
      + cbn. split_and!; [reflexivity| |lia|lia|by split].
        repeat (apply Forall_cons; split; [by left|]). apply Forall_nil_2.
      + unfold ConfirmationPage.tick.
        destruct (Z.leb_spec (ConfirmationPage.timeLeft s) 1); cbn.
        * split_and!; [exact Hlen|exact Hall|lia|lia|by split].
        * split_and!; [exact Hlen|exact Hall|lia|lia|].
          split; intros Hr; [apply Hresend in Hr|]; lia. }
  destruct Hinv as (Hlen & Hall & Htime & Hresend).
  split_and!; [exact Hlen|exact Hall|by eapply six_boxes|lia|lia|exact Hresend|].
  intros text Hsix.
  unfold ConfirmationPage.submits, ConfirmationPage.fullCode, ConfirmationPage.handlePaste.
  cbn [ConfirmationPage.code ConfirmationPage.setCode].
  destruct (ConfirmationPage.code s) as [|a [|b [|c [|d [|e [|f [|g l]]]]]]];
    try discriminate.
  unfold ConfirmationPage.pastedCode in *.
  destruct (filter _ (list_ascii_of_string text)) as [|c0 [|c1 [|c2 [|c3 [|c4 [|c5 rest]]]]]];
    cbn in Hsix; try lia.
  cbn. split; reflexivity.
Qed.


(** * Local storage *)

(** X18.  What is saved is what a reload shows.  After the saving effect
    has run on a state, opening the page again restores its topics and
    cards and, when a user was signed in, that user and the main screen;
    opening the page does not change what is stored.  The active topic is
    restored when there was one; when there was none, nothing was written
    and the reload activates whatever identifier was stored before.
    Signing out removes the user, so a reload then shows the sign-in page
    with no topic, no card and no active topic. *)
Theorem reload_restores_what_was_saved (a : Auth.State) (s : App.State)
    (st : Persistence.Storage) :
  let st' := Persistence.save a s st in
  let a' := (Persistence.mount st').1.1 in
  let s' := (Persistence.mount st').1.2 in
  App.topics s' = App.topics s /\
  App.flashcards s' = App.flashcards s /\
  (Persistence.mount st').2 = st' /\
  (forall u, Auth.user a = Some u ->
     Auth.user a' = Some u /\ Auth.screen a' = Auth.MainApp) /\
  (forall i, App.activeTopic s = Some i -> i <> "" -> App.activeTopic s' = Some i) /\
  (App.activeTopic s = None ->
   forall i, Persistence.activeTopic st = Some i -> i <> "" ->
     App.activeTopic s' = Some i) /\
  (let out := Persistence.mount (Persistence.signOut a s st).2 in
   Auth.screen out.1.1 = Auth.LoginPage /\ Auth.user out.1.1 = None /\
   out.1.2 = App.initial).
Proof.
  intros st' a' s'. subst a' s' st'.
  destruct a as [u step p], s as [ts cs act], st as [su sts scs sact].
  unfold Persistence.signOut, Persistence.mount.
  unfold Persistence.load, Persistence.save, Persistence.removeOnLogout, Auth.restore,
    Auth.handleLogout, logoutData, App.setActiveTopic, App.setFlashcards, App.setTopics,
    Auth.initial, App.initial.
  cbn [fst snd Persistence.user Persistence.topics Persistence.flashcards
       Persistence.activeTopic Auth.user Auth.pendingAuth
       App.topics App.flashcards App.activeTopic].
  split_and!.
  - destruct act as [i|]; [case_bool_decide|]; destruct sact as [j|];
      try case_bool_decide; reflexivity.
  - destruct act as [i|]; [case_bool_decide|]; destruct sact as [j|];
      try case_bool_decide; reflexivity.
  - destruct u as [usr|], su as [usr'|], act as [i|], sact as [j|]; cbn;
      repeat case_bool_decide; cbn; try reflexivity; try congruence;
      rewrite ?bool_decide_eq_false_2 by done; rewrite ?bool_decide_eq_true_2 by done;
      reflexivity.
  - intros usr [= ->]. by split.
  - intros i [= ->] Hi. rewrite !bool_decide_eq_false_2 by exact Hi. reflexivity.
  - intros -> i -> Hi. rewrite !bool_decide_eq_false_2 by exact Hi. reflexivity.
  - reflexivity.
  - reflexivity.
  - reflexivity.
Qed.


(** * Instances of the properties above *)

Lemma cardCount_follows_cards_witness :
  let s := App.mkState [Topic.mk "10" "Math" "#2563EB" "M" None None]
             [Card.mk "1" "2+2?" "4" "Math" None None None None] (Some "10") in
  cardCount (getTopicStats "Math" (App.deleteTopic "10" s)) = 0%nat /\
  cardCount (getTopicStats "Math"
               (App.addFlashcard (App.mkAddClock 2 3 4 5)
                  (Card.mk "" "q" "a" "Art" None None None None) s))
  = cardCount (getTopicStats "Math" s).
Proof.
  intros s.
  destruct (cardCount_follows_cards s (App.mkAddClock 2 3 4 5)
              (Card.mk "" "q" "a" "Art" None None None None))
    as (_ & Hother & Hdel & _).
  split.
  - exact (Hdel "10" (Topic.mk "10" "Math" "#2563EB" "M" None None) eq_refl).
  - apply Hother. discriminate.
Defined.

Lemma main_screen_has_a_user_witness :
  let s := Auth.now (Auth.run [Auth.NewUserLogin "ada@example.org" "ada"; Auth.Confirmation 0]
                       (Auth.restore None Auth.initial)) in
  Auth.screen s = Auth.MainApp /\
  exists usr, Auth.user s = Some usr /\ Auth.username usr = "ada".
Proof.
  intros s. split; [reflexivity|].
  destruct (main_screen_has_a_user None
              [Auth.NewUserLogin "ada@example.org" "ada"; Auth.Confirmation 0])
    as [Huser _].
  destruct (Huser eq_refl) as (usr & Hu & _).
  exists usr. split; [exact Hu|]. fold s in Hu. by injection Hu as <-.
Defined.

Lemma six_digit_boxes_witness :
  let s := ConfirmationPage.run [ConfirmationPage.Input 0 "7"; ConfirmationPage.Second] in
  ConfirmationPage.submits s = false /\
  ConfirmationPage.fullCode (ConfirmationPage.handlePaste "12-34-56 78" s) = "123456".
Proof.
  intros s. split; [reflexivity|].
  destruct (six_digit_boxes [ConfirmationPage.Input 0 "7"; ConfirmationPage.Second])
    as (_ & _ & _ & _ & _ & Hpaste).
  destruct (Hpaste "12-34-56 78") as [Hcode _]; [vm_compute; lia|].
  exact Hcode.
Defined.

Lemma reload_restores_what_was_saved_witness :
  let a := Auth.mkState (Some (Auth.mkUser "ada@example.org" "ada" true))
             Auth.authenticated None in
  let s := App.mkState [] [] None in
  let st := Persistence.mkStorage None None None (Some "10") in
  Auth.screen (Persistence.mount (Persistence.save a s st)).1.1 = Auth.MainApp /\
  App.activeTopic (Persistence.mount (Persistence.save a s st)).1.2 = Some "10".
Proof.
  intros a s st.
  destruct (reload_restores_what_was_saved a s st) as (_ & _ & _ & Huser & _ & Hstale & _).
  split.
  - exact (proj2 (Huser _ eq_refl)).
  - apply Hstale; [reflexivity|reflexivity|discriminate].
Defined.


(** * The streak over several work phases *)

(** X19.  The streak counts calendar days, not sessions.  Where the
    zone's UTC offset is the same at each completion and 24 hours before
    it, and as long as every work phase is completed on the local day of the
    one before or on the day after, the streak grows by the number of days
    gone by since the last recorded session, however many phases were
    completed; the session count grows by the number of phases and the focus
    time by as many work durations. *)
Theorem streak_counts_days (tz : Z -> Z) (settings : Pomodoro.Settings)
    (seen : Pomodoro.State) (times : list Date) (stats : Pomodoro.PomodoroStats)
    (lastSession : Date) :
  Forall (fun t => tz (t - Pomodoro.msPerDay) = tz t) times ->
  Pomodoro.lastSessionDate stats = Some lastSession ->
  dayByDay tz (Pomodoro.toDateString tz lastSession) times ->
  let r := statsAfter tz settings seen times stats in
  Pomodoro.streakDays r
  = Pomodoro.streakDays stats
    + (Pomodoro.toDateString tz (default lastSession (last times))
       - Pomodoro.toDateString tz lastSession) /\
  Pomodoro.completedSessions r
  = Pomodoro.completedSessions stats + Z.of_nat (length times) /\
  Pomodoro.totalFocusTime r
  = Pomodoro.totalFocusTime stats
    + Z.of_nat (length times) * Pomodoro.pomodoroWork settings /\
  Pomodoro.lastSessionDate r = Some (default lastSession (last times)).
Proof.
  revert stats lastSession.
  induction times as [|t times IH]; intros stats lastSession Htz Hlast Hdays r.
  - subst r. cbn. split_and!; [lia|lia|lia|exact Hlast].
  - apply Forall_cons in Htz as [Ht Htz]. destruct Hdays as [Hday Hdays].
    pose proof (toDateString_a_day_earlier tz t Ht) as Hy.
    set (st1 := PomodoroRun.updatePomodoroStats
                  (PomodoroRun.allOf
                     (Pomodoro.workCompleted tz t (Pomodoro.mkClosure settings stats seen)))
                  stats).
    assert (Hst1 : st1 = Pomodoro.mkStats (Pomodoro.completedSessions stats + 1)
                           (Pomodoro.totalFocusTime stats + Pomodoro.pomodoroWork settings)
                           (Pomodoro.streakDays stats
                            + (Pomodoro.toDateString tz t
                               - Pomodoro.toDateString tz lastSession))
                           (Some t)).
    { subst st1. unfold PomodoroRun.updatePomodoroStats, PomodoroRun.allOf,
        Pomodoro.workCompleted, Pomodoro.newStreakDays.
      cbn [Pomodoro.completedSessions Pomodoro.totalFocusTime Pomodoro.streakDays
           Pomodoro.lastSessionDate Pomodoro.stats Pomodoro.settings
           PomodoroRun.u_completedSessions PomodoroRun.u_totalFocusTime
           PomodoroRun.u_streakDays PomodoroRun.u_lastSessionDate default from_option id].
      rewrite Hlast, Hy. cbn [fmap option_fmap option_map].
      f_equal. destruct Hday as [Hday|Hday]; rewrite Hday.
      - rewrite bool_decide_eq_true_2 by reflexivity. lia.
      - rewrite bool_decide_eq_false_2 by (intros [= He]; lia).
        rewrite bool_decide_eq_true_2 by (f_equal; lia). lia. }
    assert (Hr : r = statsAfter tz settings seen times st1) by reflexivity.
    destruct (IH st1 t Htz) as (H1 & H2 & H3 & H4);
      [by rewrite Hst1|exact Hdays|].
    rewrite Hr, H1, H2, H3, H4, Hst1.
    cbn [Pomodoro.completedSessions Pomodoro.totalFocusTime Pomodoro.streakDays
         Pomodoro.lastSessionDate length].
    assert (Hlast' : default lastSession (last (t :: times)) = default t (last times)).
    { destruct times as [|t' times']; [reflexivity|].
      rewrite last_cons. by destruct (last (t' :: times')). }
    rewrite Hlast'. split_and!; [lia|lia|lia|reflexivity].
Qed.

Lemma streak_counts_days_witness :
  let stats := Pomodoro.mkStats 3 75 3 (Some sundayNoon) in
  let times := [sundayNoon + 3600000; sundayNoon + Pomodoro.msPerDay;
                sundayNoon + Pomodoro.msPerDay + 3600000;
                sundayNoon + 2 * Pomodoro.msPerDay] in
  Pomodoro.streakDays
    (statsAfter (fun _ => 7200000) Pomodoro.defaultSettings
       (Pomodoro.initial Pomodoro.defaultSettings) times stats) = 5 /\
  Pomodoro.completedSessions
    (statsAfter (fun _ => 7200000) Pomodoro.defaultSettings
       (Pomodoro.initial Pomodoro.defaultSettings) times stats) = 7.
Proof.
  intros stats times.
  assert (Htz : Forall (fun t => (fun _ : Z => 7200000) (t - Pomodoro.msPerDay)
                                 = (fun _ : Z => 7200000) t) times).
  { repeat (apply Forall_cons; split; [reflexivity|]). apply Forall_nil_2. }
  assert (Hdays : dayByDay (fun _ => 7200000)
                    (Pomodoro.toDateString (fun _ => 7200000) sundayNoon) times).
  { vm_compute. split_and!; first [by left | by right | exact I]. }
  destruct (streak_counts_days (fun _ => 7200000) Pomodoro.defaultSettings
              (Pomodoro.initial Pomodoro.defaultSettings) times stats sundayNoon
              Htz eq_refl Hdays) as (Hstreak & Hcount & _).
  split; [rewrite Hstreak | rewrite Hcount]; reflexivity.
Defined.
